(** * QuantumCryptoDemo (app.js): anomaly score, threat state and alert log

    A shallow embedding of the state-changing methods of the class
    [QuantumCryptoDemo] of [src/app.js] that make up the "threat state
    engine": [updateQBERChart], [triggerAnomaly], [resetMonitoring],
    [simulateEavesdropping], [startE91Protocol], [updateAIDisplay],
    [addSecurityAlert] and the helpers they call.

    JavaScript numbers are IEEE 754 binary64 values and are modelled by
    Rocq's primitive floats, which are the same format with the same
    rounding.  The host's sources of non-determinism ([Math.random], the
    wall clock) are oracles indexed by the number of reads so far.  An
    interval set up by [setInterval] is a closure stored under its handle,
    and each firing is an event of its own, so that clicks and ticks
    interleave as they do in the browser.

    Beside the engine, two methods that draw from [Math.random] are
    embedded: [generateRandomHex] of the secure-communication panel and
    [generateRSAKeys], with [updateRSADisplay], of the RSA tab.

    Left out: [loadAssets] (the network), the Shor panel, the modal and the
    timed animations of the RSA and secure-communication panels, none of
    which touches the attack flag, the score or the alert log. *)

From Stdlib Require Import ZArith List String Ascii Bool Lia Floats DecimalString.
From Equations Require Import Equations.
Import ListNotations.

Set Warnings "-inexact-float".
Local Open Scope string_scope.

(* ===================================================================== *)
(** ** JavaScript numbers *)
(* ===================================================================== *)

Module JS.

Definition Number := float.

Definition is_neg_zero (x : Number) : bool :=
  match classify x with NZero => true | _ => false end.

Definition is_pos_zero (x : Number) : bool :=
  match classify x with PZero => true | _ => false end.

(** [Math.min(...coerced)]: the loop of ECMA-262 21.3.2.25, started with
    [lowest = +Infinity]. *)
Fixpoint min_loop (lowest : Number) (coerced : list Number) : Number :=
  match coerced with
  | [] => lowest
  | number :: rest =>
      if is_nan number then nan
      else
        let lowest :=
          if is_neg_zero number && is_pos_zero lowest then neg_zero else lowest in
        let lowest := if (number <? lowest)%float then number else lowest in
        min_loop lowest rest
  end.

Definition Math_min (coerced : list Number) : Number := min_loop infinity coerced.

(** [Math.max(...coerced)]: ECMA-262 21.3.2.24, started with
    [highest = -Infinity]. *)
Fixpoint max_loop (highest : Number) (coerced : list Number) : Number :=
  match coerced with
  | [] => highest
  | number :: rest =>
      if is_nan number then nan
      else
        let highest :=
          if is_pos_zero number && is_neg_zero highest then zero else highest in
        let highest := if (highest <? number)%float then number else highest in
        max_loop highest rest
  end.

Definition Math_max (coerced : list Number) : Number := max_loop neg_infinity coerced.

(** Decimal digits of a non-negative integer, ["0"] for zero. *)
Definition digits_of (n : Z) : string :=
  NilZero.string_of_uint (N.to_uint (Z.to_N n)).

Fixpoint zeros (k : nat) : string :=
  match k with
  | O => ""
  | S k' => String "0" (zeros k')
  end.

(** The integer [n] for which [n / 10^f - m * 2^e] is closest to zero, the
    larger one when two are equally close (step 11.a of [toFixed]). *)
Definition nearest_scaled (m : positive) (e : Z) (f : nat) : Z :=
  let num := (Zpos m * 10 ^ Z.of_nat f)%Z in
  match e with
  | Zneg p => ((2 * num + 2 ^ Zpos p) / 2 ^ (Zpos p + 1))%Z
  | _ => (num * 2 ^ e)%Z
  end.

(** Steps 11.b and 11.c of [toFixed]: the digits of [n] with a decimal
    point before the last [f] of them, padded with zeros on the left. *)
Definition fixed_digits (n : Z) (f : nat) : string :=
  let m := digits_of n in
  match f with
  | O => m
  | S _ =>
      let k := String.length m in
      let m := if Nat.leb k f then zeros (f + 1 - k) ++ m else m in
      let k := String.length m in
      substring 0 (k - f) m ++ "." ++ substring (k - f) f m
  end.

Section Host.

(** [Number::toString] of the host, used by [toFixed] only for magnitudes
    of at least 10^21 and by string concatenation of a number that is not a
    small integer. *)
Variable Number_toString : Number -> string.

(** [Number.prototype.toFixed(f)] for [0 <= f <= 100], ECMA-262 21.1.3.3. *)
Definition toFixed (x : Number) (f : nat) : string :=
  match Prim2SF x with
  | S754_nan => "NaN"
  | S754_infinity false => "Infinity"
  | S754_infinity true => "-Infinity"
  | S754_zero _ => fixed_digits 0 f
  | S754_finite s m e =>
      let sign := if s then "-" else "" in
      if (1e21 <=? abs x)%float then sign ++ Number_toString (abs x)
      else sign ++ fixed_digits (nearest_scaled m e f) f
  end.

(** The mathematical floor of a finite number, as an integer. *)
Definition floorZ (x : Number) : option Z :=
  match Prim2SF x with
  | S754_zero _ => Some 0%Z
  | S754_finite s m e =>
      let q :=
        match e with
        | Zneg p => if s then (- ((Zpos m + 2 ^ Zpos p - 1) / 2 ^ Zpos p))%Z
                    else (Zpos m / 2 ^ Zpos p)%Z
        | _ => if s then (- (Zpos m * 2 ^ e))%Z else (Zpos m * 2 ^ e)%Z
        end in
      Some q
  | _ => None
  end.

(** The string that [Math.floor(x)] contributes when it is appended to a
    string: decimal digits for an integer below 10^21 in magnitude. *)
Definition floor_to_string (x : Number) : string :=
  match floorZ x with
  | Some n =>
      if (Z.abs n <? 10 ^ 21)%Z then
        (if (n <? 0)%Z then "-" ++ digits_of (Z.abs n) else digits_of n)
      else Number_toString x
  | None => Number_toString x
  end.

End Host.

End JS.

Import JS.

(* ===================================================================== *)
(** ** Data model *)
(* ===================================================================== *)

(** One entry of [this.data.e91_protocol]: [normal_operation] or
    [under_attack]. *)
Record Profile := {
  num_pairs : Z;
  matching_pairs : Z;
  shared_key_length : nat;
  qber : Number;
  eavesdrop_detected : bool;
  threat_level : string
}.

Definition normal_operation_default : Profile :=
  {| num_pairs := 100; matching_pairs := 19; shared_key_length := 19;
     qber := 0.02%float; eavesdrop_detected := false; threat_level := "LOW" |}.

Definition under_attack_default : Profile :=
  {| num_pairs := 100; matching_pairs := 16; shared_key_length := 16;
     qber := 0.28%float; eavesdrop_detected := true; threat_level := "HIGH" |}.

(** [this.data.ai_detection]. *)
Record AIDetection := {
  baseline_qber : Number;
  alert_threshold : Number;
  anomaly_scores : list Number;
  threat_levels : list string;
  recommendations : list string
}.

Definition ai_detection_default : AIDetection :=
  {| baseline_qber := 0.02%float;
     alert_threshold := 0.11%float;
     anomaly_scores := [0.1; 0.2; 0.8; 2.5]%float;
     threat_levels := ["LOW"; "LOW"; "MEDIUM"; "HIGH"];
     recommendations :=
       ["Continue key exchange - Normal operation";
        "Continue key exchange - Normal operation";
        "Monitor closely - Elevated error rate detected";
        "Abort key exchange - Possible eavesdropping detected"] |}.

(** The parts of [this.data] that the modelled methods read. *)
Record Data := {
  normal_operation : Profile;
  under_attack : Profile;
  ai_detection : AIDetection
}.

Definition data_default : Data :=
  {| normal_operation := normal_operation_default;
     under_attack := under_attack_default;
     ai_detection := ai_detection_default |}.

(** The chart object held in [currentState.qberChart]: the labels, the data
    of dataset 0 (QBER) and of dataset 1 (threshold). *)
Record Chart := {
  labels : list Z;
  dataset_data : list Number;
  threshold_data : list Number
}.

(** [this.currentState]. *)
Record CurrentState := {
  isUnderAttack : bool;
  qberChart : option Chart;
  monitoringActive : bool;
  e91Active : bool;
  anomalyScore : Number;
  currentTab : string
}.

Definition currentState_initial : CurrentState :=
  {| isUnderAttack := false; qberChart := None; monitoringActive := false;
     e91Active := false; anomalyScore := 0.1%float;
     currentTab := "rsa-vulnerability" |}.

(** A child of the [#security-alerts] container, as [addSecurityAlert]
    builds it: the class name and the contents of its two spans. *)
Record AlertElement := {
  className : string;
  alert_time : string;
  alert_message : string
}.

(** A transient notice appended to the body by [showAlert]. *)
Record Notice := {
  notice_class : string;
  notice_message : string
}.

(** The elements of the page that the modelled methods read or write.
    [security_alerts] is [None] when the page has no [#security-alerts]
    element, otherwise its children, first child first; [qber_chart_canvas]
    tells whether [#qber-chart] exists.  Elements that every method
    dereferences without a test are taken to exist. *)
Record Document := {
  security_alerts : option (list AlertElement);
  anomaly_score : string;
  threat_fill_left : Number;
  ai_recommendation : string;
  entangled_pairs : string;
  matching_pairs_text : string;
  qber_value : string;
  qber_value_class : string;
  threat_level_text : string;
  threat_level_class : string;
  key_progress_width : Number;
  quantum_key : string;
  qber_chart_canvas : bool;
  notices : list Notice
}.

(** The closure of one [setInterval] callback. *)
Inductive Timer :=
| MonitoringTimer
| E91Timer (progress : Number) (generatedKey : string).

(** The application object together with the host state it depends on. *)
Record App := {
  data : Data;
  currentState : CurrentState;
  document : Document;
  monitoringInterval : option nat;
  timers : list (nat * Timer);
  next_timer : nat;
  random_calls : nat;
  clock_reads : nat
}.

(** Errors a method can end with.  [TypeError] is what the host raises on a
    property access through [null]; [InvalidArgument] is the error named by
    the specification. *)
Inductive Error := TypeError | InvalidArgument.

(** The result of running an event handler: it returns, or it throws and
    leaves the state as it was when the error was raised. *)
Inductive Outcome :=
| Returned (app : App)
| Thrown (e : Error) (app : App).

Definition state_of (o : Outcome) : App :=
  match o with Returned a => a | Thrown _ a => a end.

(** *** Field updates *)

Definition set_isUnderAttack (v : bool) (s : CurrentState) : CurrentState :=
  {| isUnderAttack := v; qberChart := qberChart s;
     monitoringActive := monitoringActive s; e91Active := e91Active s;
     anomalyScore := anomalyScore s; currentTab := currentTab s |}.

Definition set_qberChart (v : option Chart) (s : CurrentState) : CurrentState :=
  {| isUnderAttack := isUnderAttack s; qberChart := v;
     monitoringActive := monitoringActive s; e91Active := e91Active s;
     anomalyScore := anomalyScore s; currentTab := currentTab s |}.

Definition set_monitoringActive (v : bool) (s : CurrentState) : CurrentState :=
  {| isUnderAttack := isUnderAttack s; qberChart := qberChart s;
     monitoringActive := v; e91Active := e91Active s;
     anomalyScore := anomalyScore s; currentTab := currentTab s |}.

Definition set_e91Active (v : bool) (s : CurrentState) : CurrentState :=
  {| isUnderAttack := isUnderAttack s; qberChart := qberChart s;
     monitoringActive := monitoringActive s; e91Active := v;
     anomalyScore := anomalyScore s; currentTab := currentTab s |}.

Definition set_anomalyScore (v : Number) (s : CurrentState) : CurrentState :=
  {| isUnderAttack := isUnderAttack s; qberChart := qberChart s;
     monitoringActive := monitoringActive s; e91Active := e91Active s;
     anomalyScore := v; currentTab := currentTab s |}.

Definition set_currentTab (v : string) (s : CurrentState) : CurrentState :=
  {| isUnderAttack := isUnderAttack s; qberChart := qberChart s;
     monitoringActive := monitoringActive s; e91Active := e91Active s;
     anomalyScore := anomalyScore s; currentTab := v |}.

Definition with_state (f : CurrentState -> CurrentState) (a : App) : App :=
  {| data := data a; currentState := f (currentState a);
     document := document a; monitoringInterval := monitoringInterval a;
     timers := timers a; next_timer := next_timer a;
     random_calls := random_calls a; clock_reads := clock_reads a |}.

Definition with_document (f : Document -> Document) (a : App) : App :=
  {| data := data a; currentState := currentState a;
     document := f (document a); monitoringInterval := monitoringInterval a;
     timers := timers a; next_timer := next_timer a;
     random_calls := random_calls a; clock_reads := clock_reads a |}.

Definition set_security_alerts (v : option (list AlertElement)) (d : Document) : Document :=
  {| security_alerts := v; anomaly_score := anomaly_score d;
     threat_fill_left := threat_fill_left d;
     ai_recommendation := ai_recommendation d;
     entangled_pairs := entangled_pairs d;
     matching_pairs_text := matching_pairs_text d;
     qber_value := qber_value d; qber_value_class := qber_value_class d;
     threat_level_text := threat_level_text d;
     threat_level_class := threat_level_class d;
     key_progress_width := key_progress_width d;
     quantum_key := quantum_key d; qber_chart_canvas := qber_chart_canvas d;
     notices := notices d |}.

Definition set_ai_display (score : string) (left : Number) (rec : string)
    (d : Document) : Document :=
  {| security_alerts := security_alerts d; anomaly_score := score;
     threat_fill_left := left; ai_recommendation := rec;
     entangled_pairs := entangled_pairs d;
     matching_pairs_text := matching_pairs_text d;
     qber_value := qber_value d; qber_value_class := qber_value_class d;
     threat_level_text := threat_level_text d;
     threat_level_class := threat_level_class d;
     key_progress_width := key_progress_width d;
     quantum_key := quantum_key d; qber_chart_canvas := qber_chart_canvas d;
     notices := notices d |}.

Definition set_e91_display (pairs matching q qclass level lclass : string)
    (d : Document) : Document :=
  {| security_alerts := security_alerts d; anomaly_score := anomaly_score d;
     threat_fill_left := threat_fill_left d;
     ai_recommendation := ai_recommendation d;
     entangled_pairs := pairs; matching_pairs_text := matching;
     qber_value := q; qber_value_class := qclass;
     threat_level_text := level; threat_level_class := lclass;
     key_progress_width := key_progress_width d;
     quantum_key := quantum_key d; qber_chart_canvas := qber_chart_canvas d;
     notices := notices d |}.

Definition set_key_progress_width (v : Number) (d : Document) : Document :=
  {| security_alerts := security_alerts d; anomaly_score := anomaly_score d;
     threat_fill_left := threat_fill_left d;
     ai_recommendation := ai_recommendation d;
     entangled_pairs := entangled_pairs d;
     matching_pairs_text := matching_pairs_text d;
     qber_value := qber_value d; qber_value_class := qber_value_class d;
     threat_level_text := threat_level_text d;
     threat_level_class := threat_level_class d;
     key_progress_width := v;
     quantum_key := quantum_key d; qber_chart_canvas := qber_chart_canvas d;
     notices := notices d |}.

Definition set_quantum_key (v : string) (d : Document) : Document :=
  {| security_alerts := security_alerts d; anomaly_score := anomaly_score d;
     threat_fill_left := threat_fill_left d;
     ai_recommendation := ai_recommendation d;
     entangled_pairs := entangled_pairs d;
     matching_pairs_text := matching_pairs_text d;
     qber_value := qber_value d; qber_value_class := qber_value_class d;
     threat_level_text := threat_level_text d;
     threat_level_class := threat_level_class d;
     key_progress_width := key_progress_width d;
     quantum_key := v; qber_chart_canvas := qber_chart_canvas d;
     notices := notices d |}.

Definition add_notice (n : Notice) (d : Document) : Document :=
  {| security_alerts := security_alerts d; anomaly_score := anomaly_score d;
     threat_fill_left := threat_fill_left d;
     ai_recommendation := ai_recommendation d;
     entangled_pairs := entangled_pairs d;
     matching_pairs_text := matching_pairs_text d;
     qber_value := qber_value d; qber_value_class := qber_value_class d;
     threat_level_text := threat_level_text d;
     threat_level_class := threat_level_class d;
     key_progress_width := key_progress_width d;
     quantum_key := quantum_key d; qber_chart_canvas := qber_chart_canvas d;
     notices := (notices d ++ [n])%list |}.

Definition set_monitoringInterval (v : option nat) (a : App) : App :=
  {| data := data a; currentState := currentState a;
     document := document a; monitoringInterval := v;
     timers := timers a; next_timer := next_timer a;
     random_calls := random_calls a; clock_reads := clock_reads a |}.

Definition set_timers (v : list (nat * Timer)) (a : App) : App :=
  {| data := data a; currentState := currentState a;
     document := document a; monitoringInterval := monitoringInterval a;
     timers := v; next_timer := next_timer a;
     random_calls := random_calls a; clock_reads := clock_reads a |}.

Definition bump_random (k : nat) (a : App) : App :=
  {| data := data a; currentState := currentState a;
     document := document a; monitoringInterval := monitoringInterval a;
     timers := timers a; next_timer := next_timer a;
     random_calls := random_calls a + k; clock_reads := clock_reads a |}.

Definition bump_clock (a : App) : App :=
  {| data := data a; currentState := currentState a;
     document := document a; monitoringInterval := monitoringInterval a;
     timers := timers a; next_timer := next_timer a;
     random_calls := random_calls a; clock_reads := S (clock_reads a) |}.

(** The string of an integer-valued number such as [num_pairs]. *)
Definition Z_to_string (n : Z) : string :=
  if (n <? 0)%Z then "-" ++ digits_of (Z.abs n) else digits_of n.

(** The alert log of the specification: the children of [#security-alerts],
    newest first, and no entries when the page has no such element. *)
Definition recentAlerts (a : App) : list AlertElement :=
  match security_alerts (document a) with
  | Some children => children
  | None => []
  end.

Definition inspect {A : Type} (x : A) : { y : A | x = y } := exist _ x eq_refl.

(** The loop at the end of [addSecurityAlert]:
    [while (children.length > 5) removeChild(lastChild)]. *)
Equations? trim_alerts (children : list AlertElement) : list AlertElement
  by wf (List.length children) lt :=
  trim_alerts children with inspect (5 <? List.length children)%nat := {
    | exist _ true _ => trim_alerts (removelast children)
    | exist _ false _ => children }.
Proof.
  apply Nat.ltb_lt in e.
  destruct children as [|c cs]; [simpl in e; lia|].
  rewrite (app_removelast_last (l := c :: cs) c) at 2 by discriminate.
  rewrite List.length_app. simpl. lia.
Qed.

(* ===================================================================== *)
(** ** The methods of [QuantumCryptoDemo] *)
(* ===================================================================== *)

Section Engine.

(** The host: the [k]-th value returned by [Math.random()], the [k]-th
    string returned by [new Date().toLocaleTimeString()], and
    [Number::toString]. *)
Variable Math_random : nat -> Number.
Variable toLocaleTimeString : nat -> string.
Variable Number_toString : Number -> string.

(** [Math.random()]. *)
Definition random (a : App) : Number * App :=
  (Math_random (random_calls a), bump_random 1 a).

(** [setInterval(callback, delay)]: the callback's closure is stored under a
    fresh handle. *)
Definition setInterval (t : Timer) (a : App) : nat * App :=
  (next_timer a,
   {| data := data a; currentState := currentState a;
      document := document a; monitoringInterval := monitoringInterval a;
      timers := (timers a ++ [(next_timer a, t)])%list;
      next_timer := S (next_timer a);
      random_calls := random_calls a; clock_reads := clock_reads a |}).

(** [clearInterval(id)]. *)
Definition clearInterval (id : nat) (a : App) : App :=
  set_timers (filter (fun '(i, _) => negb (Nat.eqb i id)) (timers a)) a.

(** [showAlert(message, type)]: appends a notice to the body.  Its removal
    four seconds later only changes the body and is left out. *)
Definition showAlert (message type : string) (a : App) : App :=
  with_document
    (add_notice {| notice_class := "alert alert-" ++ type;
                   notice_message := message |}) a.

(** [addSecurityAlert(message, type)]. *)
Definition addSecurityAlert (message type : string) (a : App) : App :=
  match security_alerts (document a) with
  | None => a
  | Some children =>
      let timestamp := toLocaleTimeString (clock_reads a) in
      let alertElement :=
        {| className := "alert alert-" ++ type;
           alert_time := timestamp;
           alert_message := message |} in
      let children := alertElement :: children in
      with_document (set_security_alerts (Some (trim_alerts children)))
        (bump_clock a)
  end.

(** The index computed by [updateAIDisplay]. *)
Definition recommendationIndex (anomalyScore : Number) : nat :=
  if (2.0 <? anomalyScore)%float then 3
  else if (1.0 <? anomalyScore)%float then 2
  else if (0.5 <? anomalyScore)%float then 1
  else 0.

(** [this.data.ai_detection.recommendations[recommendationIndex]]; a missing
    entry is [undefined], which a [textContent] assignment turns into the
    empty string. *)
Definition recommendationFor (d : Data) (anomalyScore : Number) : string :=
  nth (recommendationIndex anomalyScore) (recommendations (ai_detection d)) "".

(** [updateAIDisplay()]. *)
Definition updateAIDisplay (a : App) : App :=
  let score := anomalyScore (currentState a) in
  let threatPercentage := Math_min [100; (score / 3.0) * 100]%float in
  with_document
    (set_ai_display (toFixed Number_toString score 1) threatPercentage
       (recommendationFor (data a) score)) a.

(** [updateE91Display()]. *)
Definition updateE91Display (a : App) : App :=
  let operation :=
    if isUnderAttack (currentState a) then under_attack (data a)
    else normal_operation (data a) in
  with_document
    (set_e91_display
       (Z_to_string (num_pairs operation))
       (Z_to_string (matching_pairs operation))
       (toFixed Number_toString (qber operation) 2)
       (if (0.11 <? qber operation)%float then "qber-critical" else "qber-normal")
       (threat_level operation)
       ("status status--" ++
        (if String.eqb (threat_level operation) "LOW" then "success" else "error")))
    a.

(** [initializeQBERChart()]: twenty labels, twenty random points and twenty
    copies of the threshold. *)
Definition initializeQBERChart (a : App) : App :=
  if negb (qber_chart_canvas (document a)) then a
  else
    let chart :=
      {| labels := map (fun i => Z.of_nat i + 1)%Z (seq 0 20);
         dataset_data :=
           map (fun i => 0.02 + Math_random (random_calls a + i) * 0.01)%float
               (seq 0 20);
         threshold_data := repeat 0.11%float 20 |} in
    with_state (set_qberChart (Some chart)) (bump_random 20 a).

(** The tab button handler installed by [setupTabNavigation]. *)
Definition clickTab (targetTab : string) (a : App) : App :=
  let a := with_state (set_currentTab targetTab) a in
  if String.eqb targetTab "ai-security" &&
     match qberChart (currentState a) with None => true | Some _ => false end
  then initializeQBERChart a
  else a.

(** [startAIMonitoring()]. *)
Definition startAIMonitoring (a : App) : App :=
  let a := with_state (set_monitoringActive true) a in
  let a :=
    match qberChart (currentState a) with
    | Some _ =>
        let '(id, a) := setInterval MonitoringTimer a in
        set_monitoringInterval (Some id) a
    | None => a
    end in
  let a := addSecurityAlert "AI monitoring system activated" "success" a in
  showAlert "AI anomaly detection system is now active!" "success" a.

(** Lines 511 to 530 of [updateQBERChart]: what the method does with the new
    data point once it has one. *)
Definition recordSample (chart : Chart) (newValue : Number) (a : App) : App :=
  let data1 := (dataset_data chart ++ [newValue])%list in
  let labels1 := (labels chart ++ [Z.of_nat (List.length (labels chart)) + 1]%Z)%list in
  let chart :=
    if (20 <? List.length data1)%nat
    then {| labels := tl labels1; dataset_data := tl data1;
            threshold_data := threshold_data chart |}
    else {| labels := labels1; dataset_data := data1;
            threshold_data := threshold_data chart |} in
  let a := with_state (set_qberChart (Some chart)) a in
  let a :=
    if (0.11 <? newValue)%float then
      let a :=
        with_state
          (set_anomalyScore
             (Math_min [3.0; anomalyScore (currentState a) + 0.3]%float)) a in
      addSecurityAlert
        ("Elevated QBER detected: " ++ toFixed Number_toString newValue 3)
        "warning" a
    else
      with_state
        (set_anomalyScore
           (Math_max [0.1; anomalyScore (currentState a) - 0.1]%float)) a in
  updateAIDisplay a.

(** [updateQBERChart()], the callback of the monitoring interval. *)
Definition updateQBERChart (a : App) : App :=
  match qberChart (currentState a) with
  | None => a
  | Some chart =>
      if negb (monitoringActive (currentState a)) then a
      else
        let '(r, a) := random a in
        let newValue :=
          if isUnderAttack (currentState a)
          then (0.15 + r * 0.15)%float
          else (0.02 + r * 0.02)%float in
        recordSample chart newValue a
  end.

(** [observeErrorRateSample(sample)] of the specification:
    [updateQBERChart] with the data point supplied by the caller instead of
    drawn from [Math.random]. *)
Definition observeErrorRateSample (sample : Number) (a : App) : App :=
  match qberChart (currentState a) with
  | None => a
  | Some chart =>
      if negb (monitoringActive (currentState a)) then a
      else recordSample chart sample a
  end.

(** [triggerAnomaly()]. *)
Definition triggerAnomaly (a : App) : App :=
  let a := with_state (set_anomalyScore 2.5%float) a in
  let a := with_state (set_isUnderAttack true) a in
  let a := updateAIDisplay a in
  let a :=
    addSecurityAlert
      "CRITICAL: Anomaly detected - possible eavesdropping attempt!" "error" a in
  showAlert "Anomaly triggered! Check AI recommendations." "error" a.

(** [resetMonitoring()].  The assignment to [innerHTML] goes through the
    result of [getElementById] without a test. *)
Definition resetMonitoring (a : App) : Outcome :=
  let a := with_state (set_monitoringActive false) a in
  let a := with_state (set_isUnderAttack false) a in
  let a := with_state (set_anomalyScore 0.1%float) a in
  let a :=
    match monitoringInterval a with
    | Some id => if Nat.eqb id 0 then a else clearInterval id a
    | None => a
    end in
  let a :=
    match qberChart (currentState a) with
    | Some _ => initializeQBERChart (with_state (set_qberChart None) a)
    | None => a
    end in
  match security_alerts (document a) with
  | None => Thrown TypeError a
  | Some _ =>
      let a := with_document (set_security_alerts (Some [])) a in
      let a := updateAIDisplay a in
      let a := updateE91Display a in
      Returned (showAlert "Monitoring system reset successfully!" "success" a)
  end.

(** [simulateEavesdropping()]. *)
Definition simulateEavesdropping (a : App) : App :=
  let a := with_state (set_isUnderAttack true) a in
  let a :=
    with_document
      (fun d =>
         set_e91_display (entangled_pairs d)
           (Z_to_string (matching_pairs (under_attack (data a))))
           (toFixed Number_toString (qber (under_attack (data a))) 2)
           "qber-critical" "HIGH" "status status--error" d) a in
  let a :=
    showAlert
      "SECURITY BREACH DETECTED! Eavesdropping attempt identified through QBER analysis."
      "error" a in
  let a := with_state (set_anomalyScore 2.5%float) a in
  updateAIDisplay a.

(** [generateQuantumKey(length)]. *)
Definition generateQuantumKey (length : nat) (a : App) : string * App :=
  (String.concat ""
     (map (fun i => floor_to_string Number_toString
                      (Math_random (random_calls a + i) * 2)%float)
          (seq 0 length)),
   bump_random length a).

(** [startE91Protocol()]: the interval starts with [progress = 0] and
    [generatedKey = '']. *)
Definition startE91Protocol (a : App) : App :=
  let a := with_state (set_e91Active true) a in
  snd (setInterval (E91Timer 0%float "") a).

(** The callback that [startE91Protocol] hands to [setInterval], run for the
    interval [id] whose closure holds [progress] and [generatedKey]. *)
Definition e91Callback (id : nat) (progress : Number) (generatedKey : string)
    (a : App) : App :=
  let '(r, a) := random a in
  let progress := (progress + (r * 15 + 5))%float in
  let a :=
    with_document (set_key_progress_width (Math_min [progress; 100%float])) a in
  let '(r, a) := random a in
  let '(generatedKey, a) :=
    if (0.5 <? r)%float then
      let '(r, a) := random a in
      (generatedKey ++ floor_to_string Number_toString (r * 2)%float, a)
    else (generatedKey, a) in
  let a :=
    with_document
      (set_quantum_key
         (if String.eqb generatedKey "" then "Generating..." else generatedKey))
      a in
  if (100 <=? progress)%float then
    let a := clearInterval id a in
    let '(finalKey, a) :=
      generateQuantumKey (shared_key_length (normal_operation (data a))) a in
    let a := with_document (set_quantum_key finalKey) a in
    showAlert "E91 quantum key distribution completed successfully!" "success" a
  else
    set_timers
      (map (fun '(i, t) =>
              if Nat.eqb i id then (i, E91Timer progress generatedKey) else (i, t))
           (timers a)) a.

(** [startKeyExchange(pairCount)] of the specification: a call of
    [startE91Protocol], which declares no parameter, so that the argument is
    discarded. *)
Definition startKeyExchange (pairCount : Z) (a : App) : Outcome :=
  Returned (startE91Protocol a).

(** [resetCompleteDemo()].  The RSA panel, the two status labels and the
    modal it also resets are not part of the model. *)
Definition resetCompleteDemo (a : App) : Outcome :=
  let a := with_state (set_isUnderAttack false) a in
  let a := with_state (set_anomalyScore 0.1%float) a in
  let a := with_state (set_e91Active false) a in
  let a := updateE91Display a in
  let a := updateAIDisplay a in
  let a := with_document (set_quantum_key "-") a in
  let a := with_document (set_key_progress_width 0%float) a in
  let a :=
    match security_alerts (document a) with
    | Some _ => with_document (set_security_alerts (Some [])) a
    | None => a
    end in
  let finish a :=
    showAlert "Complete demonstration reset successfully!" "success" a in
  match qberChart (currentState a) with
  | Some _ =>
      match resetMonitoring a with
      | Returned a => Returned (finish a)
      | Thrown e a => Thrown e a
      end
  | None => Returned (finish a)
  end.

(** *** Events *)

(** What can happen to the page: a click on one of the buttons wired up by
    the [setup...] methods, an interval firing, or a direct call of one of
    the two operations of the specification that take an argument. *)
Inductive Event :=
| ClickTab (targetTab : string)
| ClickStartMonitoring
| ClickTriggerAnomaly
| ClickResetMonitoring
| ClickStartQKD
| ClickSimulateAttack
| ClickResetDemo
| IntervalFires (id : nat)
| ObserveErrorRateSample (sample : Number)
| StartKeyExchange (pairCount : Z).

Fixpoint find_timer (id : nat) (ts : list (nat * Timer)) : option Timer :=
  match ts with
  | [] => None
  | (i, t) :: rest => if Nat.eqb i id then Some t else find_timer id rest
  end.

Definition handle (ev : Event) (a : App) : Outcome :=
  match ev with
  | ClickTab targetTab => Returned (clickTab targetTab a)
  | ClickStartMonitoring => Returned (startAIMonitoring a)
  | ClickTriggerAnomaly => Returned (triggerAnomaly a)
  | ClickResetMonitoring => resetMonitoring a
  | ClickStartQKD => Returned (startE91Protocol a)
  | ClickSimulateAttack => Returned (simulateEavesdropping a)
  | ClickResetDemo => resetCompleteDemo a
  | IntervalFires id =>
      match find_timer id (timers a) with
      | Some MonitoringTimer => Returned (updateQBERChart a)
      | Some (E91Timer progress generatedKey) =>
          Returned (e91Callback id progress generatedKey a)
      | None => Returned a
      end
  | ObserveErrorRateSample sample => Returned (observeErrorRateSample sample a)
  | StartKeyExchange pairCount => startKeyExchange pairCount a
  end.

(** The page after a sequence of events; an error ends the handler that
    raised it and the page carries on from the state it left. *)
Fixpoint run (evs : list Event) (a : App) : App :=
  match evs with
  | [] => a
  | ev :: rest => run rest (state_of (handle ev a))
  end.

End Engine.

(** The page as the constructor leaves it, on a document that has the
    elements the methods look up. *)
Definition document_initial : Document :=
  {| security_alerts := Some [];
     anomaly_score := ""; threat_fill_left := 0%float;
     ai_recommendation := "";
     entangled_pairs := "100"; matching_pairs_text := "19";
     qber_value := "0.02"; qber_value_class := "qber-normal";
     threat_level_text := "LOW"; threat_level_class := "status status--success";
     key_progress_width := 0%float; quantum_key := "";
     qber_chart_canvas := true; notices := [] |}.

Definition app_initial : App :=
  {| data := data_default; currentState := currentState_initial;
     document := document_initial; monitoringInterval := None;
     timers := []; next_timer := 1; random_calls := 0; clock_reads := 0 |}.

(** The state of the specification's engine as seen through the page: the
    attack flag, the score, the two fixed reference points, the two
    key-exchange profiles and the alert log. *)
Record SimulationState := {
  sim_isUnderAttack : bool;
  sim_anomalyScore : Number;
  sim_qberBaseline : Number;
  sim_qberThreshold : Number;
  sim_keyExchangeStats : Profile * Profile;
  sim_recentAlerts : list AlertElement
}.

Definition simulationState (a : App) : SimulationState :=
  {| sim_isUnderAttack := isUnderAttack (currentState a);
     sim_anomalyScore := anomalyScore (currentState a);
     sim_qberBaseline := baseline_qber (ai_detection (data a));
     sim_qberThreshold := alert_threshold (ai_detection (data a));
     sim_keyExchangeStats := (normal_operation (data a), under_attack (data a));
     sim_recentAlerts := recentAlerts a |}.

(** The score lies in the closed interval from 0.1 to 3.0. *)
Definition score_in_range (x : Number) : bool :=
  ((0.1 <=? x) && (x <=? 3.0))%float.

(* ===================================================================== *)
(** ** Notions used in the statements and proofs *)
(* ===================================================================== *)

(** The element that [addSecurityAlert] builds in state [a]. *)
Definition alertElement_of (toLocaleTimeString : nat -> string)
    (message type : string) (a : App) : AlertElement :=
  {| className := "alert alert-" ++ type;
     alert_time := toLocaleTimeString (clock_reads a);
     alert_message := message |}.

(** The three distinct entries of the built-in recommendation table. *)
Definition continue_advice : string := "Continue key exchange - Normal operation".
Definition monitor_advice : string := "Monitor closely - Elevated error rate detected".
Definition abort_advice : string := "Abort key exchange - Possible eavesdropping detected".

(** The entry of [threat_levels] that stands beside the chosen
    recommendation in [this.data.ai_detection]. *)
Definition threat_level_beside (d : Data) (anomalyScore : Number) : string :=
  nth (recommendationIndex anomalyScore) (threat_levels (ai_detection d)) "".

Definition is_digit (c : ascii) : bool :=
  (48 <=? nat_of_ascii c)%nat && (nat_of_ascii c <=? 57)%nat.

Fixpoint all_digits (s : string) : bool :=
  match s with
  | EmptyString => true
  | String c rest => is_digit c && all_digits rest
  end.

(** The digits of [n], with zeros in front when there are no more than
    [f] of them. *)
Definition padded_digits (n : Z) (f : nat) : string :=
  let m := digits_of n in
  if (String.length m <=? f)%nat then zeros (f + 1 - String.length m) ++ m else m.

(** The number of binary digits of a mantissa. *)
Definition dig (p : positive) : Z := Zpos (digits2_pos p).

(** The last step of [binary_round_aux]: a finite result, or infinity when
    the exponent is too large. *)
Definition finite_or_inf (m : positive) (e : Z) : spec_float :=
  if (e <=? 971)%Z then S754_finite false m e else S754_infinity false.

(** The value of [m * 2^e] in units of [2^-1200]. *)
Definition val (m : positive) (e : Z) : Z := (Zpos m * 2 ^ (e + 1200))%Z.

(** The mantissas of 0.1, 0.3 and 3.0; their exponents are -56, -54 and
    -51. *)
Definition m_0_1 : positive := 7205759403792794.
Definition m_0_3 : positive := 5404319552844595.
Definition m_3_0 : positive := 6755399441055744.

(** *** A concrete host and page, for examples *)

(** A host whose [Math.random] always returns 0.75 and whose clock always
    reads noon. *)
Definition example_random (k : nat) : Number := 0.75%float.
Definition example_clock (k : nat) : string := "12:00:00".
Definition example_toString (x : Number) : string := "".

(** The page after the AI tab was opened and monitoring was started. *)
Definition example_monitoring : App :=
  run example_random example_clock example_toString
    [ClickTab "ai-security"; ClickStartMonitoring] app_initial.

(** A page that lacks the [#security-alerts] element. *)
Definition page_without_alerts : App :=
  with_document (set_security_alerts None) app_initial.

(** The events of one key exchange that takes seven ticks of its interval,
    whose handle is 1 on a fresh page. *)
Definition key_exchange_events : list Event :=
  StartKeyExchange 100 :: repeat (IntervalFires 1) 7.

(* ===================================================================== *)
(** ** Further notions: the chart window, the panels and the host contract *)
(* ===================================================================== *)

(** A chart holds twenty labels, twenty data points and twenty copies of
    the threshold. *)
Definition chart_full (c : Chart) : Prop :=
  List.length (labels c) = 20%nat /\
  List.length (dataset_data c) = 20%nat /\
  List.length (threshold_data c) = 20%nat.

(** The page has no chart, or a chart of twenty points. *)
Definition chart_window_ok (a : App) : Prop :=
  match qberChart (currentState a) with
  | None => True
  | Some c => chart_full c
  end.

(** The AI panel shows what [updateAIDisplay] would write for the current
    score: its text, the position of the threat bar and the advice. *)
Definition ai_panel_synced (Number_toString : Number -> string) (a : App) : Prop :=
  anomaly_score (document a) =
    toFixed Number_toString (anomalyScore (currentState a)) 1 /\
  threat_fill_left (document a) =
    Math_min [100; (anomalyScore (currentState a) / 3.0) * 100]%float /\
  ai_recommendation (document a) =
    recommendationFor (data a) (anomalyScore (currentState a)).

(** The fields of the page that [updateAIDisplay] writes. *)
Definition ai_panel (d : Document) : string * Number * string :=
  (anomaly_score d, threat_fill_left d, ai_recommendation d).

(** The fields of the page that [updateE91Display] writes. *)
Definition e91_panel (d : Document) : list string :=
  [entangled_pairs d; matching_pairs_text d; qber_value d; qber_value_class d;
   threat_level_text d; threat_level_class d].

(** What [updateAIDisplay] writes for a given table and score. *)
Definition ai_panel_of (Number_toString : Number -> string) (d : Data)
    (score : Number) : string * Number * string :=
  (toFixed Number_toString score 1,
   Math_min [100; (score / 3.0) * 100]%float,
   recommendationFor d score).

(** What [updateE91Display] writes for a given profile. *)
Definition e91_panel_of (Number_toString : Number -> string)
    (operation : Profile) : list string :=
  [Z_to_string (num_pairs operation);
   Z_to_string (matching_pairs operation);
   toFixed Number_toString (qber operation) 2;
   if (0.11 <? qber operation)%float then "qber-critical" else "qber-normal";
   threat_level operation;
   "status status--" ++
   (if String.eqb (threat_level operation) "LOW" then "success" else "error")].

(** What ECMA-262 promises of [Math.random]: every value is at least +0
    and below 1. *)
Definition random_in_unit_interval (Math_random : nat -> Number) : Prop :=
  forall k : nat,
    (0 <=? Math_random k)%float = true /\ (Math_random k <? 1)%float = true.

(* ===================================================================== *)
(** ** The other utility, and the RSA tab *)
(* ===================================================================== *)

(** [generateRandomHex], the utility beside [generateQuantumKey], and
    [generateRSAKeys] with the display it refreshes.  The RSA data and the
    six elements of the RSA tab are kept in a record of their own around
    [App]. *)

(** The characters of a key and of a hexadecimal string. *)
Definition is_bit (c : ascii) : bool := Ascii.eqb c "0" || Ascii.eqb c "1".

Definition is_hex_digit (c : ascii) : bool :=
  is_digit c || ((97 <=? nat_of_ascii c)%nat && (nat_of_ascii c <=? 102)%nat).

(** Every character of [s] passes the test [p]. *)
Fixpoint all_chars (p : ascii -> bool) (s : string) : bool :=
  match s with
  | EmptyString => true
  | String c rest => p c && all_chars p rest
  end.

Section Utilities.

Variable Math_random : nat -> Number.

(** [Number::toString(x, 16)] of the host, consulted only for a number that
    is not an integer from 0 to 15. *)
Variable Number_toString_16 : Number -> string.

(** The digit of [n] in base 16, for [n] from 0 to 15. *)
Definition hex_digit (n : Z) : string :=
  String (nth (Z.to_nat n) (list_ascii_of_string "0123456789abcdef") "0"%char) "".

(** [Math.floor(x).toString(16)]. *)
Definition floor_to_hex (x : Number) : string :=
  match floorZ x with
  | Some n =>
      if ((0 <=? n) && (n <? 16))%Z then hex_digit n else Number_toString_16 x
  | None => Number_toString_16 x
  end.

(** [generateRandomHex(length)]. *)
Definition generateRandomHex (length : nat) (a : App) : string * App :=
  (String.concat ""
     (map (fun i => floor_to_hex (Math_random (random_calls a + i) * 16)%float)
          (seq 0 length)),
   bump_random length a).

End Utilities.

(** [this.data.rsa_demo], without the two complexity labels, which no method
    reads.  The two factor lists are [None] when they hold [undefined]. *)
Record RSADemo := {
  public_key : list Z;
  private_key : list Z;
  n : Z;
  message : Z;
  encrypted : Z;
  decrypted : Z;
  classical_factors : option (list Z);
  quantum_factors : option (list Z)
}.

Definition rsa_demo_default : RSADemo :=
  {| public_key := [2263; 7]; private_key := [2263; 1543]; n := 2263;
     message := 7; encrypted := 2074; decrypted := 7;
     classical_factors := Some [31; 73]; quantum_factors := Some [31; 73] |}%Z.

(** The text of the six elements that [updateRSADisplay] writes, [None] for
    an element that the page lacks. *)
Record RSAPanel := {
  rsa_public_key : option string;
  rsa_private_key : option string;
  rsa_factors : option string;
  original_message : option string;
  encrypted_message : option string;
  decrypted_message : option string
}.

(** The part of the application that the RSA tab adds to [App]. *)
Record RSAPage := {
  rsa_demo : RSADemo;
  rsa_panel : RSAPanel;
  page : App
}.

Inductive RSAOutcome :=
| RSAReturned (p : RSAPage)
| RSAThrown (e : Error) (p : RSAPage).

(** [array.join(separator)] on an array of integers. *)
Definition join (separator : string) (array : list Z) : string :=
  String.concat separator (map Z_to_string array).

(** [array[Math.floor(x)]], [None] for [undefined]. *)
Definition element_at_floor {A : Type} (array : list A) (x : Number) : option A :=
  match floorZ x with
  | Some i => if (0 <=? i)%Z then nth_error array (Z.to_nat i) else None
  | None => None
  end.

(** [updateRSADisplay()]: [None] when [classical_factors.join] is applied to
    [undefined], which happens before any element is written. *)
Definition updateRSADisplay (d : RSADemo) (panel : RSAPanel) : option RSAPanel :=
  match classical_factors d with
  | None => None
  | Some factors =>
      let write (value : string) (element : option string) :=
        option_map (fun _ => value) element in
      Some
        {| rsa_public_key :=
             write ("(" ++ join ", " (public_key d) ++ ")") (rsa_public_key panel);
           rsa_private_key :=
             write ("(" ++ join ", " (private_key d) ++ ")") (rsa_private_key panel);
           rsa_factors := write (join " × " factors) (rsa_factors panel);
           original_message :=
             write (Z_to_string (message d)) (original_message panel);
           encrypted_message :=
             write (Z_to_string (encrypted d)) (encrypted_message panel);
           decrypted_message :=
             write (Z_to_string (decrypted d)) (decrypted_message panel) |}
  end.

(** A page for examples: the built-in RSA data on a page that has the six
    elements, still empty. *)
Definition example_rsa_page : RSAPage :=
  {| rsa_demo := rsa_demo_default;
     rsa_panel :=
       {| rsa_public_key := Some ""; rsa_private_key := Some "";
          rsa_factors := Some ""; original_message := Some "";
          encrypted_message := Some ""; decrypted_message := Some "" |};
     page := app_initial |}.

Section RSA.

Variable Math_random : nat -> Number.

Definition primes : list (list Z) := [[31; 73]; [37; 67]; [41; 61]; [43; 59]]%Z.

(** [generateRSAKeys()].  The products of the table are small integers, so
    that the product of two entries is exact. *)
Definition generateRSAKeys (p : RSAPage) : RSAOutcome :=
  let '(r, a) := random Math_random (page p) in
  let randomPrime := element_at_floor primes (r * 4)%float in
  let d := rsa_demo p in
  let d :=
    {| public_key := public_key d; private_key := private_key d; n := n d;
       message := message d; encrypted := encrypted d; decrypted := decrypted d;
       classical_factors := randomPrime; quantum_factors := randomPrime |} in
  match randomPrime with
  | None => RSAThrown TypeError {| rsa_demo := d; rsa_panel := rsa_panel p; page := a |}
  | Some factors =>
      let n' := (nth 0 factors 0 * nth 1 factors 0)%Z in
      let d :=
        {| public_key := [n'; 7%Z]; private_key := private_key d; n := n';
           message := message d; encrypted := encrypted d;
           decrypted := decrypted d;
           classical_factors := randomPrime; quantum_factors := randomPrime |} in
      match updateRSADisplay d (rsa_panel p) with
      | None => RSAThrown TypeError {| rsa_demo := d; rsa_panel := rsa_panel p; page := a |}
      | Some panel =>
          RSAReturned
            {| rsa_demo := d; rsa_panel := panel;
               page := showAlert "New RSA keys generated successfully!" "success" a |}
      end
  end.

End RSA.

(* ===================================================================== *)
(** ** Bounds on binary64 values *)
(* ===================================================================== *)

Section ValueNotions.

Local Open Scope Z_scope.

(** What [binary_round_aux] returns for a positive value once the mantissa
    [m1] at the exponent [et] has been chosen. *)
Definition rounded (m1 et : Z) : spec_float :=
  match m1 with
  | Z0 => S754_zero false
  | Zpos m =>
      if Zpos m <? 2 ^ 53 then finite_or_inf m et
      else finite_or_inf 4503599627370496 (et + 1)
  | Zneg _ => S754_nan
  end.

(** A number is at least [v], or at most [v], in units of 2^-1200.  A number
    that is at most some value is zero or positive and finite. *)
Definition at_least_sf (v : Z) (z : spec_float) : Prop :=
  match z with
  | S754_zero _ => v <= 0
  | S754_finite false m e => v <= val m e
  | S754_infinity false => True
  | _ => False
  end.

Definition at_most_sf (v : Z) (z : spec_float) : Prop :=
  match z with
  | S754_zero _ => 0 <= v
  | S754_finite false m e => val m e <= v
  | _ => False
  end.

Definition at_least (v : Z) (x : float) : Prop := at_least_sf v (Prim2SF x).
Definition at_most (v : Z) (x : float) : Prop := at_most_sf v (Prim2SF x).

(** A binary64 constant that is +0 or positive and normal, and its value
    in units of 2^-1200. *)
Definition plain (c : float) : bool :=
  match Prim2SF c with
  | S754_zero false => true
  | S754_finite false m e => (dig m =? 53) && (-1074 <=? e) && (e <=? 971)
  | _ => false
  end.

Definition value_of (c : float) : Z :=
  match Prim2SF c with
  | S754_finite false m e => val m e
  | _ => 0
  end.

(** What [valid_binary] says of a mantissa and its exponent. *)
Definition canon (m : positive) (e : Z) : Prop :=
  dig m <= 53 /\ -1074 <= e <= 971 /\ (-1074 < e -> dig m = 53).

(** The value of some binary64 constant. *)
Definition representable (v : Z) : Prop :=
  exists C : float, plain C = true /\ value_of C = v.

(** The lower bound on the score after [k] increases, in units of 2^-6:
    1/16 and 19/64 lie below 0.1 and 0.3. *)
Definition raised (k : nat) : Z := Z.min (4 + 19 * Z.of_nat k) 192 * 2 ^ 1194.

(** The upper bound on the score after [k] decreases: 51/512 lies below
    0.1. *)
Definition lowered (k : nat) : Z :=
  Z.max ((1536 - 51 * Z.of_nat k) * 2 ^ 1191) (value_of 0.1).

End ValueNotions.

(** The page [j] ticks into the exchange that [a] started under the handle
    [id]: the interval holds a progress between [5 * j] and [20 * j] and
    fewer than 20 ticks have passed, or at least 5 ticks have passed and the
    page shows a final key. *)
Definition exchange_after (a : App) (id j : nat) (b : App) : Prop :=
  data b = data a /\ e91Active (currentState b) = true /\
  match find_timer id (timers b) with
  | Some (E91Timer progress _) =>
      at_least (5 * Z.of_nat j * 2 ^ 1200) progress /\
      at_most (20 * Z.of_nat j * 2 ^ 1200) progress /\ (j < 20)%nat
  | Some MonitoringTimer => False
  | None =>
      (5 <= j)%nat /\
      String.length (quantum_key (document b)) =
        shared_key_length (normal_operation (data a)) /\
      all_chars is_bit (quantum_key (document b)) = true
  end.

(* ===================================================================== *)
(** ** Facts about binary64 comparison *)
(* ===================================================================== *)

Section Comparison.

Lemma SFcompare_antisym (x y : spec_float) :
  SFcompare y x = option_map CompOpp (SFcompare x y).
Proof.
  destruct x as [sx|sx| |sx mx ex], y as [sy|sy| |sy my ey]; simpl;
    try destruct sx; try destruct sy; try reflexivity;
    rewrite (Z.compare_antisym ex ey);
    destruct (ex ?= ey)%Z; simpl; try reflexivity;
    pose proof (Pos.compare_cont_antisym mx my Eq) as H; simpl in H;
    rewrite <- H; try rewrite CompOpp_involutive; reflexivity.
Qed.

Lemma ltb_leb (x y : float) : (x <? y)%float = true -> (x <=? y)%float = true.
Proof.
  rewrite ltb_spec, leb_spec. unfold SFltb, SFleb.
  destruct (SFcompare (Prim2SF x) (Prim2SF y)) as [[ | | ]|]; congruence.
Qed.

Lemma ltb_not_leb (x y : float) : (x <? y)%float = true -> (y <=? x)%float = false.
Proof.
  rewrite ltb_spec, leb_spec. unfold SFltb, SFleb.
  rewrite (SFcompare_antisym (Prim2SF x) (Prim2SF y)).
  destruct (SFcompare (Prim2SF x) (Prim2SF y)) as [[ | | ]|]; simpl; congruence.
Qed.

Lemma ltb_not_ltb (x y : float) : (x <? y)%float = true -> (y <? x)%float = false.
Proof.
  rewrite !ltb_spec. unfold SFltb.
  rewrite (SFcompare_antisym (Prim2SF x) (Prim2SF y)).
  destruct (SFcompare (Prim2SF x) (Prim2SF y)) as [[ | | ]|]; simpl; congruence.
Qed.

Lemma leb_not_ltb (x y : float) : (x <=? y)%float = true -> (y <? x)%float = false.
Proof.
  rewrite ltb_spec, leb_spec. unfold SFltb, SFleb.
  rewrite (SFcompare_antisym (Prim2SF x) (Prim2SF y)).
  destruct (SFcompare (Prim2SF x) (Prim2SF y)) as [[ | | ]|]; simpl; congruence.
Qed.

Lemma leb_not_nan (x y : float) : (x <=? y)%float = true -> is_nan x = false.
Proof.
  unfold is_nan. rewrite leb_spec, eqb_spec. unfold SFleb, SFeqb.
  destruct (Prim2SF x) as [sx|sx| |sx mx ex], (Prim2SF y) as [sy|sy| |sy my ey];
    simpl; try discriminate; try (destruct sx; reflexivity).
  all: intros _; destruct sx; rewrite Z.compare_refl, Pos.compare_cont_refl;
    reflexivity.
Qed.

Lemma leb_not_nan_r (x y : float) : (x <=? y)%float = true -> is_nan y = false.
Proof.
  unfold is_nan. rewrite leb_spec, eqb_spec. unfold SFleb, SFeqb.
  destruct (Prim2SF x) as [sx|sx| |sx mx ex], (Prim2SF y) as [sy|sy| |sy my ey];
    simpl; try discriminate; try (destruct sy; reflexivity);
    try (destruct sx; discriminate).
  all: intros _; destruct sy; rewrite Z.compare_refl, Pos.compare_cont_refl;
    reflexivity.
Qed.

(** Two finite non-zero numbers that compare neither below nor above each
    other are the same number. *)
Lemma leb_antisym_finite (x y : float) s m e :
  Prim2SF y = S754_finite s m e ->
  (x <=? y)%float = true -> (x <? y)%float = false -> x = y.
Proof.
  intros Hy. rewrite leb_spec, ltb_spec. unfold SFleb, SFltb.
  intros Hle Hlt. apply Prim2SF_inj. rewrite Hy in *.
  destruct (Prim2SF x) as [sx|sx| |sx mx ex]; simpl in *;
    try discriminate; try (destruct s; discriminate);
    try (destruct sx; discriminate).
  destruct sx, s; try discriminate;
    destruct (ex ?= e)%Z eqn:He; try discriminate;
    apply Z.compare_eq in He; subst;
    destruct (Pos.compare_cont Eq mx m) eqn:Hm; simpl in *; try discriminate;
    apply Pos.compare_eq in Hm; subst; reflexivity.
Qed.

Ltac compare_cases :=
  repeat match goal with
  | |- context [Z.compare ?a ?b] => destruct (Z.compare_spec a b)
  | |- context [PosDef.Pos.compare_cont Eq ?a ?b] =>
      change (PosDef.Pos.compare_cont Eq a b) with (Pos.compare a b);
      destruct (Pos.compare_spec a b)
  end.

Lemma SFleb_ltb_trans (x y z : spec_float) :
  SFleb x y = true -> SFltb y z = true -> SFltb x z = true.
Proof.
  unfold SFleb, SFltb.
  destruct x as [sx|sx| |sx mx ex], y as [sy|sy| |sy my ey],
           z as [sz|sz| |sz mz ez]; simpl;
    try destruct sx; try destruct sy; try destruct sz; simpl;
    try discriminate; try reflexivity.
  all: compare_cases; simpl; try discriminate; try reflexivity;
    intros; subst; try lia.
Qed.

Lemma leb_ltb_trans (x y z : float) :
  (x <=? y)%float = true -> (y <? z)%float = true -> (x <? z)%float = true.
Proof. rewrite leb_spec, !ltb_spec. apply SFleb_ltb_trans. Qed.

Lemma leb_antisym_finite_l (x y : float) s m e :
  Prim2SF x = S754_finite s m e ->
  (x <=? y)%float = true -> (x <? y)%float = false -> x = y.
Proof.
  intros Hx. rewrite leb_spec, ltb_spec. unfold SFleb, SFltb.
  intros Hle Hlt. apply Prim2SF_inj. rewrite Hx in *.
  destruct (Prim2SF y) as [sy|sy| |sy my ey]; simpl in *;
    try discriminate; try (destruct s; discriminate);
    try (destruct sy; discriminate).
  destruct sy, s; try discriminate;
    destruct (e ?= ey)%Z eqn:He; try discriminate;
    apply Z.compare_eq in He; subst;
    destruct (Pos.compare_cont Eq m my) eqn:Hm; simpl in *; try discriminate;
    apply Pos.compare_eq in Hm; subst; reflexivity.
Qed.

End Comparison.

(* ===================================================================== *)
(** ** What each method leaves alone *)
(* ===================================================================== *)

Section Frames.

Variable Math_random : nat -> Number.
Variable toLocaleTimeString : nat -> string.
Variable Number_toString : Number -> string.

Lemma addSecurityAlert_state message type a :
  currentState (addSecurityAlert toLocaleTimeString message type a) = currentState a.
Proof. unfold addSecurityAlert. destruct (security_alerts (document a)); reflexivity. Qed.

Lemma addSecurityAlert_data message type a :
  data (addSecurityAlert toLocaleTimeString message type a) = data a.
Proof. unfold addSecurityAlert. destruct (security_alerts (document a)); reflexivity. Qed.

Lemma initializeQBERChart_state a :
  let s := currentState (initializeQBERChart Math_random a) in
  isUnderAttack s = isUnderAttack (currentState a) /\
  monitoringActive s = monitoringActive (currentState a) /\
  anomalyScore s = anomalyScore (currentState a).
Proof.
  unfold initializeQBERChart. destruct (qber_chart_canvas (document a)); simpl; auto.
Qed.

Lemma initializeQBERChart_document a :
  document (initializeQBERChart Math_random a) = document a.
Proof.
  unfold initializeQBERChart. destruct (qber_chart_canvas (document a)); reflexivity.
Qed.

Lemma initializeQBERChart_data a :
  data (initializeQBERChart Math_random a) = data a.
Proof.
  unfold initializeQBERChart. destruct (qber_chart_canvas (document a)); reflexivity.
Qed.

(** What [resetMonitoring] establishes, whether it returns or throws. *)
Lemma resetMonitoring_fields a :
  let a' := state_of (resetMonitoring Math_random Number_toString a) in
  isUnderAttack (currentState a') = false /\
  monitoringActive (currentState a') = false /\
  anomalyScore (currentState a') = 0.1%float /\
  recentAlerts a' = [] /\
  data a' = data a.
Proof.
  unfold resetMonitoring.
  set (a1 := with_state (set_anomalyScore 0.1%float) _).
  set (a2 := match monitoringInterval a1 with
             | Some id => if Nat.eqb id 0 then a1 else clearInterval id a1
             | None => a1 end).
  assert (H2 : currentState a2 = currentState a1 /\ document a2 = document a1
               /\ data a2 = data a1).
  { unfold a2. destruct (monitoringInterval a1) as [id|]; auto.
    destruct (Nat.eqb id 0); auto. }
  destruct H2 as (Hs2 & Hd2 & Hdata2).
  set (a3 := match qberChart (currentState a2) with
             | Some _ => initializeQBERChart Math_random
                           (with_state (set_qberChart None) a2)
             | None => a2 end).
  assert (H3 : isUnderAttack (currentState a3) = false /\
               monitoringActive (currentState a3) = false /\
               anomalyScore (currentState a3) = 0.1%float /\
               document a3 = document a /\ data a3 = data a).
  { unfold a3. destruct (qberChart (currentState a2)).
    - destruct (initializeQBERChart_state (with_state (set_qberChart None) a2))
        as (E1 & E2 & E3).
      rewrite E1, E2, E3, initializeQBERChart_document, initializeQBERChart_data.
      simpl. rewrite Hs2, Hd2, Hdata2. simpl. auto.
    - rewrite Hs2, Hd2, Hdata2. simpl. auto. }
  destruct H3 as (E1 & E2 & E3 & Ed & Edata).
  unfold recentAlerts.
  destruct (security_alerts (document a3)) eqn:Hc; simpl.
  - rewrite E1, E2, E3, Edata. auto.
  - rewrite Hc, E1, E2, E3, Edata. auto.
Qed.

End Frames.

(* ===================================================================== *)
(** ** The alert log *)
(* ===================================================================== *)

Section AlertLog.

Variable Math_random : nat -> Number.
Variable toLocaleTimeString : nat -> string.
Variable Number_toString : Number -> string.

Lemma firstn_removelast {A : Type} (l : list A) :
  (5 < List.length l)%nat -> firstn 5 (removelast l) = firstn 5 l.
Proof.
  intros H. rewrite removelast_firstn_len, firstn_firstn.
  f_equal. lia.
Qed.

(** The removal loop keeps the first five children. *)
Lemma trim_alerts_firstn (children : list AlertElement) :
  trim_alerts children = firstn 5 children.
Proof.
  funelim (trim_alerts children).
  - rewrite H. apply firstn_removelast. now apply Nat.ltb_lt.
  - symmetry. apply firstn_all2. pose proof (proj1 (Nat.ltb_ge _ _) e). lia.
Qed.

Lemma trim_alerts_length (children : list AlertElement) :
  (List.length (trim_alerts children) <= 5)%nat.
Proof. rewrite trim_alerts_firstn. apply firstn_le_length. Qed.

Lemma addSecurityAlert_log message type a children :
  security_alerts (document a) = Some children ->
  recentAlerts (addSecurityAlert toLocaleTimeString message type a) =
  firstn 5 (alertElement_of toLocaleTimeString message type a :: children).
Proof.
  intros H. unfold addSecurityAlert, recentAlerts. rewrite H. simpl.
  apply trim_alerts_firstn.
Qed.

Lemma addSecurityAlert_bound message type a :
  (List.length (recentAlerts a) <= 5)%nat ->
  (List.length (recentAlerts (addSecurityAlert toLocaleTimeString message type a)) <= 5)%nat.
Proof.
  intros H. unfold addSecurityAlert, recentAlerts in *.
  destruct (security_alerts (document a)) as [children|] eqn:E.
  - simpl. apply trim_alerts_length.
  - rewrite E. exact H.
Qed.

Lemma updateAIDisplay_log a :
  recentAlerts (updateAIDisplay Number_toString a) = recentAlerts a.
Proof. reflexivity. Qed.

Lemma recordSample_bound chart newValue a :
  (List.length (recentAlerts a) <= 5)%nat ->
  (List.length (recentAlerts
     (recordSample toLocaleTimeString Number_toString chart newValue a)) <= 5)%nat.
Proof.
  intros H. unfold recordSample. rewrite updateAIDisplay_log.
  destruct (0.11 <? newValue)%float.
  - apply addSecurityAlert_bound. exact H.
  - exact H.
Qed.

Lemma e91Callback_log id progress generatedKey a :
  recentAlerts (e91Callback Math_random Number_toString id progress generatedKey a)
  = recentAlerts a.
Proof.
  unfold e91Callback, random. simpl.
  destruct (0.5 <? _)%float; simpl; destruct (100 <=? _)%float; reflexivity.
Qed.

Lemma handle_log_bound ev a :
  (List.length (recentAlerts a) <= 5)%nat ->
  (List.length (recentAlerts
     (state_of (handle Math_random toLocaleTimeString Number_toString ev a))) <= 5)%nat.
Proof.
  intros H. destruct ev; simpl.
  - unfold clickTab. destruct (_ && _); [|exact H].
    unfold recentAlerts. rewrite initializeQBERChart_document. exact H.
  - unfold startAIMonitoring.
    change (recentAlerts (showAlert ?m ?t ?x)) with (recentAlerts x).
    apply addSecurityAlert_bound.
    destruct (qberChart _); exact H.
  - unfold triggerAnomaly.
    change (recentAlerts (showAlert ?m ?t ?x)) with (recentAlerts x).
    apply addSecurityAlert_bound. exact H.
  - destruct (resetMonitoring_fields Math_random Number_toString a)
      as (_ & _ & _ & E & _).
    rewrite E. simpl. lia.
  - exact H.
  - exact H.
  - unfold resetCompleteDemo.
    set (a1 := match security_alerts _ with Some _ => _ | None => _ end).
    destruct (qberChart (currentState a1)).
    + destruct (resetMonitoring_fields Math_random Number_toString a1)
        as (_ & _ & _ & E & _).
      destruct (resetMonitoring Math_random Number_toString a1); simpl in *.
      * change (recentAlerts (showAlert ?m ?t ?x)) with (recentAlerts x).
        rewrite E. simpl. lia.
      * rewrite E. simpl. lia.
    + simpl. change (recentAlerts (showAlert ?m ?t ?x)) with (recentAlerts x).
      unfold a1, recentAlerts in *. simpl.
      destruct (security_alerts (document a)) eqn:E; simpl; rewrite ?E; simpl; lia.
  - destruct (find_timer id (timers a)) as [[|progress generatedKey]|]; simpl.
    + unfold updateQBERChart. destruct (qberChart _); [|exact H].
      destruct (negb _); [exact H|]. simpl.
      apply recordSample_bound. exact H.
    + rewrite e91Callback_log. exact H.
    + exact H.
  - unfold observeErrorRateSample. destruct (qberChart _); [|exact H].
    destruct (negb _); [exact H|]. apply recordSample_bound. exact H.
  - exact H.
Qed.

(** C8 -- The alert log holds at most five entries after every operation:
    [addSecurityAlert] puts the new entry first and keeps the first five of
    the result, so that the entries dropped are the oldest ones, and no
    sequence of events takes a log of at most five entries past five. *)
Theorem recentAlerts_bounded_newest_first :
  forall (message type : string) (a : App) (children : list AlertElement)
         (evs : list Event),
    security_alerts (document a) = Some children ->
    (List.length children <= 5)%nat ->
    let a' := addSecurityAlert toLocaleTimeString message type a in
    recentAlerts a' = firstn 5 (alertElement_of toLocaleTimeString message type a :: children) /\
    hd_error (recentAlerts a') = Some (alertElement_of toLocaleTimeString message type a) /\
    (List.length children = 5%nat ->
     recentAlerts a' = alertElement_of toLocaleTimeString message type a :: removelast children) /\
    (List.length (recentAlerts a') <= 5)%nat /\
    (List.length
       (recentAlerts (run Math_random toLocaleTimeString Number_toString evs a))
     <= 5)%nat.
Proof.
  intros message type a children evs Hc Hlen a'.
  assert (E : recentAlerts a' = firstn 5 (alertElement_of toLocaleTimeString message type a :: children))
    by (apply addSecurityAlert_log; exact Hc).
  repeat split.
  - exact E.
  - rewrite E. reflexivity.
  - intros H5. rewrite E, removelast_firstn_len, H5. reflexivity.
  - rewrite E. apply firstn_le_length.
  - assert (H0 : (List.length (recentAlerts a) <= 5)%nat)
      by (unfold recentAlerts; rewrite Hc; exact Hlen).
    clear - H0. revert a H0.
    induction evs as [|ev evs IH]; intros a H0; simpl.
    + exact H0.
    + apply IH. apply handle_log_bound. exact H0.
Qed.

End AlertLog.

(* ===================================================================== *)
(** ** Forced values, reset and the monitoring guard *)
(* ===================================================================== *)

Section ForcedValues.

Variable Math_random : nat -> Number.
Variable toLocaleTimeString : nat -> string.
Variable Number_toString : Number -> string.

Lemma triggerAnomaly_state a :
  currentState (triggerAnomaly toLocaleTimeString Number_toString a) =
  set_isUnderAttack true (set_anomalyScore 2.5%float (currentState a)).
Proof.
  unfold triggerAnomaly.
  change (currentState (showAlert ?m ?t ?x)) with (currentState x).
  rewrite addSecurityAlert_state. reflexivity.
Qed.

(** C6 -- Whatever the state before, [triggerAnomaly()] leaves
    [anomalyScore] at 2.5 and [isUnderAttack] at [true], and a second call
    leaves both fields exactly as the first one did. *)
Theorem triggerAnomaly_forces_score_and_attack :
  forall a : App,
    let a1 := triggerAnomaly toLocaleTimeString Number_toString a in
    let a2 := triggerAnomaly toLocaleTimeString Number_toString a1 in
    anomalyScore (currentState a1) = 2.5%float /\
    isUnderAttack (currentState a1) = true /\
    anomalyScore (currentState a2) = anomalyScore (currentState a1) /\
    isUnderAttack (currentState a2) = isUnderAttack (currentState a1).
Proof.
  intros a a1 a2. unfold a2, a1. rewrite !triggerAnomaly_state. simpl. auto.
Qed.

(** [resetMonitoring] returns normally on a page that has the alerts
    container. *)
Lemma resetMonitoring_returns a children :
  security_alerts (document a) = Some children ->
  exists a', resetMonitoring Math_random Number_toString a = Returned a'.
Proof.
  intros H. unfold resetMonitoring.
  match goal with |- context [security_alerts (document ?x)] =>
    assert (E : document x = document a) end.
  { destruct (monitoringInterval _) as [id|]; [destruct (Nat.eqb id 0)|];
      simpl; destruct (qberChart _); simpl;
      rewrite ?initializeQBERChart_document; reflexivity. }
  rewrite E, H. eexists. reflexivity.
Qed.

(** C7 -- Whatever the state before, [resetMonitoring()] leaves
    [isUnderAttack] at [false], [anomalyScore] at 0.1 and the alert log
    empty; a second reset right after the first leaves the same simulation
    state as the first. *)
Theorem resetMonitoring_restores_defaults :
  forall a : App,
    let a1 := state_of (resetMonitoring Math_random Number_toString a) in
    let a2 := state_of (resetMonitoring Math_random Number_toString a1) in
    isUnderAttack (currentState a1) = false /\
    anomalyScore (currentState a1) = 0.1%float /\
    recentAlerts a1 = [] /\
    simulationState a2 = simulationState a1.
Proof.
  intros a a1 a2.
  destruct (resetMonitoring_fields Math_random Number_toString a)
    as (E1 & _ & E3 & E4 & E5).
  destruct (resetMonitoring_fields Math_random Number_toString a1)
    as (F1 & _ & F3 & F4 & F5).
  fold a1 in E1, E3, E4, E5. fold a2 in F1, F3, F4, F5.
  repeat split; try assumption.
  unfold simulationState. rewrite E1, E3, E4, F1, F3, F4, F5. reflexivity.
Qed.

(** C10 -- While [monitoringActive] is [false], a sample is dropped: the
    whole state, and with it the score, the attack flag and the alert log,
    is what it was, whatever the sample.  The flag is [false] in the initial
    state and after every reset. *)
Theorem sample_dropped_while_monitoring_inactive :
  forall (sample : Number) (a a0 : App),
    monitoringActive (currentState a) = false ->
    observeErrorRateSample toLocaleTimeString Number_toString sample a = a /\
    updateQBERChart Math_random toLocaleTimeString Number_toString a = a /\
    monitoringActive (currentState app_initial) = false /\
    monitoringActive
      (currentState (state_of (resetMonitoring Math_random Number_toString a0)))
    = false.
Proof.
  intros sample a a0 H. repeat split.
  - unfold observeErrorRateSample. destruct (qberChart _); [|reflexivity].
    rewrite H. reflexivity.
  - unfold updateQBERChart. destruct (qberChart _); [|reflexivity].
    rewrite H. reflexivity.
  - apply (resetMonitoring_fields Math_random Number_toString a0).
Qed.

End ForcedValues.

(* ===================================================================== *)
(** ** The score update and the recommendation *)
(* ===================================================================== *)

Section Score.

Variable Math_random : nat -> Number.
Variable toLocaleTimeString : nat -> string.
Variable Number_toString : Number -> string.

Lemma Math_min_3 (y : Number) :
  Math_min [3.0; y]%float =
  if is_nan y then nan else if (y <? 3.0)%float then y else 3.0%float.
Proof.
  unfold Math_min, min_loop.
  change (is_nan 3.0%float) with false. change (is_neg_zero 3.0%float) with false.
  change (3.0 <? infinity)%float with true. cbv iota beta zeta. simpl andb.
  change (is_pos_zero 3.0%float) with false. rewrite andb_false_r. reflexivity.
Qed.

Lemma Math_max_01 (y : Number) :
  Math_max [0.1; y]%float =
  if is_nan y then nan else if (0.1 <? y)%float then y else 0.1%float.
Proof.
  unfold Math_max, max_loop.
  change (is_nan 0.1%float) with false. change (is_pos_zero 0.1%float) with false.
  change (neg_infinity <? 0.1)%float with true. cbv iota beta zeta. simpl andb.
  change (is_neg_zero 0.1%float) with false. rewrite andb_false_r. reflexivity.
Qed.

Lemma Math_min_3_le (y : Number) :
  (y <=? 3.0)%float = true -> Math_min [3.0; y]%float = y.
Proof.
  intros H. rewrite Math_min_3, (leb_not_nan _ _ H).
  destruct (y <? 3.0)%float eqn:Hlt; [reflexivity|].
  symmetry.
  apply (leb_antisym_finite y 3.0%float false 6755399441055744 (-51));
    [reflexivity | exact H | exact Hlt].
Qed.

Lemma Math_min_3_gt (y : Number) :
  (3.0 <? y)%float = true -> Math_min [3.0; y]%float = 3.0%float.
Proof.
  intros H. rewrite Math_min_3, (leb_not_nan_r _ _ (ltb_leb _ _ H)),
    (ltb_not_ltb _ _ H). reflexivity.
Qed.

Lemma Math_min_3_bound (y : Number) :
  (3.0 <? Math_min [3.0; y])%float = false.
Proof.
  rewrite Math_min_3. destruct (is_nan y); [reflexivity|].
  destruct (y <? 3.0)%float eqn:Hlt; [|reflexivity].
  apply ltb_not_ltb. exact Hlt.
Qed.

Lemma Math_max_01_ge (y : Number) :
  (0.1 <=? y)%float = true -> Math_max [0.1; y]%float = y.
Proof.
  intros H. rewrite Math_max_01, (leb_not_nan_r _ _ H).
  destruct (0.1 <? y)%float eqn:Hlt; [reflexivity|].
  apply (leb_antisym_finite_l 0.1%float y false 7205759403792794 (-56));
    [reflexivity | exact H | exact Hlt].
Qed.

Lemma Math_max_01_lt (y : Number) :
  (y <? 0.1)%float = true -> Math_max [0.1; y]%float = 0.1%float.
Proof.
  intros H. rewrite Math_max_01, (leb_not_nan _ _ (ltb_leb _ _ H)),
    (ltb_not_ltb _ _ H). reflexivity.
Qed.

Lemma Math_max_01_bound (y : Number) :
  (Math_max [0.1; y] <? 0.1)%float = false.
Proof.
  rewrite Math_max_01. destruct (is_nan y); [reflexivity|].
  destruct (0.1 <? y)%float eqn:Hlt; [|reflexivity].
  apply ltb_not_ltb. exact Hlt.
Qed.

(** The score that [recordSample] leaves. *)
Lemma recordSample_score chart newValue a :
  anomalyScore
    (currentState (recordSample toLocaleTimeString Number_toString chart newValue a))
  = if (0.11 <? newValue)%float
    then Math_min [3.0; anomalyScore (currentState a) + 0.3]%float
    else Math_max [0.1; anomalyScore (currentState a) - 0.1]%float.
Proof.
  unfold recordSample.
  change (currentState (updateAIDisplay ?n ?x)) with (currentState x).
  destruct (0.11 <? newValue)%float.
  - rewrite addSecurityAlert_state. reflexivity.
  - reflexivity.
Qed.

Lemma recordSample_attack chart newValue a :
  isUnderAttack
    (currentState (recordSample toLocaleTimeString Number_toString chart newValue a))
  = isUnderAttack (currentState a).
Proof.
  unfold recordSample.
  change (currentState (updateAIDisplay ?n ?x)) with (currentState x).
  destruct (0.11 <? newValue)%float.
  - rewrite addSecurityAlert_state. reflexivity.
  - reflexivity.
Qed.

(** Past its guard, [updateQBERChart] is [observeErrorRateSample] at the
    data point it draws: 0.15 + r * 0.15 under attack and 0.02 + r * 0.02
    otherwise, for the next random number [r]. *)
Lemma updateQBERChart_observes chart a :
  qberChart (currentState a) = Some chart ->
  monitoringActive (currentState a) = true ->
  updateQBERChart Math_random toLocaleTimeString Number_toString a =
  observeErrorRateSample toLocaleTimeString Number_toString
    (if isUnderAttack (currentState a)
     then 0.15 + Math_random (random_calls a) * 0.15
     else 0.02 + Math_random (random_calls a) * 0.02)%float
    (bump_random 1 a).
Proof.
  intros Hc Hm. unfold updateQBERChart, observeErrorRateSample, random.
  cbn [currentState bump_random]. rewrite Hc, Hm. reflexivity.
Qed.

(** C1 -- With monitoring running, a sample above 0.11 replaces the score by
    [Math.min(3.0, score + 0.3)]: the score plus 0.3 when that is at most
    3.0, and 3.0 when it is more, so never more than 3.0.  A sample of at
    most 0.11 replaces it by [Math.max(0.1, score - 0.1)]: the score minus
    0.1 when that is at least 0.1, and 0.1 when it is less, so never less
    than 0.1.  Sums and differences are those of binary64 arithmetic. *)
Theorem observeErrorRateSample_score_step :
  forall (sample : Number) (chart : Chart) (a : App),
    qberChart (currentState a) = Some chart ->
    monitoringActive (currentState a) = true ->
    let old := anomalyScore (currentState a) in
    let new :=
      anomalyScore
        (currentState
           (observeErrorRateSample toLocaleTimeString Number_toString sample a)) in
    ((0.11 <? sample)%float = true ->
       new = Math_min [3.0; old + 0.3]%float /\
       ((old + 0.3 <=? 3.0)%float = true -> new = (old + 0.3)%float) /\
       ((3.0 <? old + 0.3)%float = true -> new = 3.0%float) /\
       (3.0 <? new)%float = false) /\
    ((sample <=? 0.11)%float = true ->
       new = Math_max [0.1; old - 0.1]%float /\
       ((0.1 <=? old - 0.1)%float = true -> new = (old - 0.1)%float) /\
       ((old - 0.1 <? 0.1)%float = true -> new = 0.1%float) /\
       (new <? 0.1)%float = false).
Proof.
  intros sample chart a Hc Hm old new.
  assert (E : new = if (0.11 <? sample)%float
                    then Math_min [3.0; old + 0.3]%float
                    else Math_max [0.1; old - 0.1]%float).
  { unfold new, observeErrorRateSample. rewrite Hc, Hm. simpl negb.
    apply recordSample_score. }
  split; intros Hs.
  - rewrite Hs in E. rewrite E. repeat split.
    + apply Math_min_3_le.
    + apply Math_min_3_gt.
    + apply Math_min_3_bound.
  - rewrite (leb_not_ltb _ _ Hs) in E. rewrite E. repeat split.
    + apply Math_max_01_ge.
    + apply Math_max_01_lt.
    + apply Math_max_01_bound.
Qed.

Lemma recommendationIndex_low (score : Number) :
  (score <=? 0.5)%float = true -> recommendationIndex score = 0%nat.
Proof.
  intros H. unfold recommendationIndex.
  rewrite (ltb_not_ltb _ _ (leb_ltb_trans score 0.5 2.0 H eq_refl)).
  rewrite (ltb_not_ltb _ _ (leb_ltb_trans score 0.5 1.0 H eq_refl)).
  rewrite (leb_not_ltb _ _ H). reflexivity.
Qed.

Lemma recommendationIndex_second (score : Number) :
  (0.5 <? score)%float = true -> (score <=? 1.0)%float = true ->
  recommendationIndex score = 1%nat.
Proof.
  intros H1 H2. unfold recommendationIndex.
  rewrite (ltb_not_ltb _ _ (leb_ltb_trans score 1.0 2.0 H2 eq_refl)).
  rewrite (leb_not_ltb _ _ H2), H1. reflexivity.
Qed.

Lemma recommendationIndex_third (score : Number) :
  (1.0 <? score)%float = true -> (score <=? 2.0)%float = true ->
  recommendationIndex score = 2%nat.
Proof.
  intros H1 H2. unfold recommendationIndex.
  rewrite (leb_not_ltb _ _ H2), H1. reflexivity.
Qed.

Lemma recommendationIndex_high (score : Number) :
  (2.0 <? score)%float = true -> recommendationIndex score = 3%nat.
Proof. intros H. unfold recommendationIndex. rewrite H. reflexivity. Qed.

(** C3, at the inputs where it fails -- At score 0.8 the code picks entry 1
    of the table, whose advice is to continue and whose level is LOW, not the
    "Monitor closely" advice; at score 2.0, which is not above 2.0, it picks
    entry 2, "Monitor closely", not the "Abort" advice. *)
Lemma recommendation_at_0_8_and_2_0 :
  recommendationFor data_default 0.8%float = continue_advice /\
  String.eqb (recommendationFor data_default 0.8%float) monitor_advice = false /\
  threat_level_beside data_default 0.8%float = "LOW" /\
  (2.0 <=? 2.0)%float = true /\
  recommendationFor data_default 2.0%float = monitor_advice /\
  String.eqb (recommendationFor data_default 2.0%float) abort_advice = false.
Proof. repeat split. Qed.

(** C3, amended -- [updateAIDisplay] shows entry [i] of the recommendation
    table, where [i] is 3 for a score above 2.0, 2 for a score above 1.0 and
    at most 2.0, 1 for a score above 0.5 and at most 1.0, and 0 for a score
    of at most 0.5.  With the built-in table: at most 1.0 gives the advice
    to continue (level LOW beside it), above 1.0 and at most 2.0 gives
    "Monitor closely" (MEDIUM), above 2.0 gives "Abort key exchange" (HIGH);
    so 0.1 and 0.8 give the advice to continue and 2.5 the advice to
    abort. *)
Theorem recommendation_brackets :
  forall (score : Number) (a : App),
    ai_recommendation (document (updateAIDisplay Number_toString a)) =
      recommendationFor (data a) (anomalyScore (currentState a)) /\
    ((score <=? 0.5)%float = true ->
       recommendationIndex score = 0%nat /\
       recommendationFor data_default score = continue_advice /\
       threat_level_beside data_default score = "LOW") /\
    ((0.5 <? score)%float = true -> (score <=? 1.0)%float = true ->
       recommendationIndex score = 1%nat /\
       recommendationFor data_default score = continue_advice /\
       threat_level_beside data_default score = "LOW") /\
    ((1.0 <? score)%float = true -> (score <=? 2.0)%float = true ->
       recommendationIndex score = 2%nat /\
       recommendationFor data_default score = monitor_advice /\
       threat_level_beside data_default score = "MEDIUM") /\
    ((2.0 <? score)%float = true ->
       recommendationIndex score = 3%nat /\
       recommendationFor data_default score = abort_advice /\
       threat_level_beside data_default score = "HIGH") /\
    recommendationFor data_default 0.1%float = continue_advice /\
    recommendationFor data_default 0.8%float = continue_advice /\
    recommendationFor data_default 2.5%float = abort_advice.
Proof.
  intros score a. split; [reflexivity|].
  unfold recommendationFor, threat_level_beside.
  split; [intros H; rewrite (recommendationIndex_low _ H); auto|].
  split; [intros H1 H2; rewrite (recommendationIndex_second _ H1 H2); auto|].
  split; [intros H1 H2; rewrite (recommendationIndex_third _ H1 H2); auto|].
  split; [intros H; rewrite (recommendationIndex_high _ H); auto|].
  repeat split.
Qed.

End Score.

(* ===================================================================== *)
(** ** The shape of [toFixed] *)
(* ===================================================================== *)

Section Formatting.

Variable Number_toString : Number -> string.

Lemma length_app_string (s1 s2 : string) :
  String.length (s1 ++ s2) = (String.length s1 + String.length s2)%nat.
Proof. induction s1 as [|c s1 IH]; simpl; [reflexivity | now rewrite IH]. Qed.

Lemma all_digits_app (s1 s2 : string) :
  all_digits (s1 ++ s2) = all_digits s1 && all_digits s2.
Proof.
  induction s1 as [|c s1 IH]; simpl; [reflexivity|].
  now rewrite IH, andb_assoc.
Qed.

Lemma length_zeros k : String.length (zeros k) = k.
Proof. induction k; simpl; congruence. Qed.

Lemma all_digits_zeros k : all_digits (zeros k) = true.
Proof. induction k; simpl; auto. Qed.

Lemma substring_all (s : string) : substring 0 (String.length s) s = s.
Proof. induction s as [|c s IH]; simpl; [reflexivity | now rewrite IH]. Qed.

Lemma substring_split (s : string) (n : nat) :
  (n <= String.length s)%nat ->
  s = substring 0 n s ++ substring n (String.length s - n) s.
Proof.
  revert n. induction s as [|c s IH]; intros n H; simpl in *.
  - assert (n = 0%nat) by lia. subst. reflexivity.
  - destruct n as [|n]; simpl.
    + f_equal. symmetry. apply substring_all.
    + f_equal. apply IH. lia.
Qed.

Lemma length_substring (s : string) (n m : nat) :
  (n + m <= String.length s)%nat -> String.length (substring n m s) = m.
Proof.
  revert n m. induction s as [|c s IH]; intros n m H; simpl in *.
  - destruct n, m; simpl; lia.
  - destruct n as [|n].
    + destruct m as [|m]; simpl; [reflexivity|]. f_equal. apply IH. simpl. lia.
    + apply IH. lia.
Qed.

Lemma all_digits_string_of_uint (d : Decimal.uint) :
  all_digits (NilEmpty.string_of_uint d) = true.
Proof. induction d; simpl; auto. Qed.

Lemma all_digits_digits_of (n : Z) : all_digits (digits_of n) = true.
Proof.
  unfold digits_of, NilZero.string_of_uint.
  destruct (N.to_uint (Z.to_N n)); try reflexivity;
    apply (all_digits_string_of_uint (_ _)).
Qed.

Lemma padded_digits_length (n : Z) (f : nat) :
  (f + 1 <= String.length (padded_digits n f))%nat.
Proof.
  unfold padded_digits.
  destruct (String.length (digits_of n) <=? f)%nat eqn:E.
  - apply Nat.leb_le in E. rewrite length_app_string, length_zeros. lia.
  - apply Nat.leb_gt in E. lia.
Qed.

(** [fixed_digits] splits the padded digits before the last [f]: at least
    one digit, the point, and exactly [f] digits. *)
Lemma fixed_digits_shape (n : Z) (f : nat) :
  (0 < f)%nat ->
  exists whole frac : string,
    fixed_digits n f = whole ++ "." ++ frac /\
    String.length frac = f /\
    (1 <= String.length whole)%nat /\
    all_digits whole = true /\ all_digits frac = true /\
    whole ++ frac = padded_digits n f.
Proof.
  intros Hf. unfold fixed_digits. destruct f as [|f']; [lia|].
  fold (padded_digits n (S f')).
  set (p := padded_digits n (S f')).
  pose proof (padded_digits_length n (S f')) as Hlen. fold p in Hlen.
  exists (substring 0 (String.length p - S f') p),
         (substring (String.length p - S f') (S f') p).
  assert (Hsplit : p = substring 0 (String.length p - S f') p ++
                       substring (String.length p - S f') (S f') p).
  { rewrite (substring_split p (String.length p - S f')) at 1 by lia.
    do 2 f_equal. lia. }
  assert (Hd : all_digits p = true).
  { unfold p, padded_digits. destruct (_ <=? _)%nat.
    - rewrite all_digits_app, all_digits_zeros, all_digits_digits_of. reflexivity.
    - apply all_digits_digits_of. }
  rewrite Hsplit, all_digits_app in Hd. apply andb_prop in Hd.
  repeat split.
  - apply length_substring. lia.
  - rewrite length_substring by lia. lia.
  - apply Hd.
  - apply Hd.
  - symmetry. exact Hsplit.
Qed.

(** The integer chosen by [nearest_scaled] is within one half of the scaled
    value [m * 10^f / 2^p], and is the upper one of two candidates at equal
    distance. *)
Lemma nearest_scaled_is_nearest (m p : positive) (f : nat) :
  let num := (Zpos m * 10 ^ Z.of_nat f)%Z in
  let n := nearest_scaled m (Zneg p) f in
  (- 2 ^ Zpos p < 2 * (n * 2 ^ Zpos p - num) <= 2 ^ Zpos p)%Z.
Proof.
  intros num n. unfold n, nearest_scaled. fold num.
  assert (Hp : (0 < 2 ^ Zpos p)%Z) by (apply Z.pow_pos_nonneg; lia).
  replace (2 ^ (Zpos p + 1))%Z with (2 * 2 ^ Zpos p)%Z
    by (rewrite Z.pow_add_r by lia; lia).
  set (d := (2 * 2 ^ Zpos p)%Z). set (x := (2 * num + 2 ^ Zpos p)%Z).
  pose proof (Z.div_mod x d ltac:(unfold d; lia)) as Hdm.
  pose proof (Z.mod_pos_bound x d ltac:(unfold d; lia)) as Hb.
  unfold d, x in *. lia.
Qed.

(** A sample above 0.11 is a positive number, finite or infinite. *)
Lemma above_threshold_positive (sample : Number) :
  (0.11 <? sample)%float = true ->
  (exists m e, Prim2SF sample = S754_finite false m e) \/
  Prim2SF sample = S754_infinity false.
Proof.
  rewrite ltb_spec. unfold SFltb.
  change (Prim2SF 0.11) with (S754_finite false 7926335344172073 (-56)).
  destruct (Prim2SF sample) as [s|s| |s m e]; simpl; try discriminate.
  - destruct s; [discriminate|]. auto.
  - destruct s; [discriminate|]. intros _. left. eauto.
Qed.

(** For a finite sample above 0.11 and below 10^21, [toFixed(3)] is at
    least one digit, a point and exactly three digits: the digits of the
    multiple of 1/1000 nearest to the sample. *)
Lemma toFixed_3_shape (sample : Number) :
  (0.11 <? sample)%float = true ->
  (abs sample <? 1e21)%float = true ->
  exists (m : positive) (e : Z) (whole frac : string),
    Prim2SF sample = S754_finite false m e /\
    toFixed Number_toString sample 3 = whole ++ "." ++ frac /\
    String.length frac = 3%nat /\
    (1 <= String.length whole)%nat /\
    all_digits whole = true /\ all_digits frac = true /\
    whole ++ frac = padded_digits (nearest_scaled m e 3) 3.
Proof.
  intros Hs Hb.
  destruct (above_threshold_positive sample Hs) as [(m & e & E)|E].
  - destruct (fixed_digits_shape (nearest_scaled m e 3) 3 ltac:(lia))
      as (whole & frac & H1 & H2 & H3 & H4 & H5 & H6).
    exists m, e, whole, frac. repeat split; try assumption.
    unfold toFixed. rewrite E, (ltb_not_leb _ _ Hb). exact H1.
  - exfalso. revert Hb. rewrite ltb_spec, abs_spec, E. discriminate.
Qed.

End Formatting.

(* ===================================================================== *)
(** ** Alerts raised by a sample *)
(* ===================================================================== *)

Section SampleAlert.

Variable Math_random : nat -> Number.
Variable toLocaleTimeString : nat -> string.
Variable Number_toString : Number -> string.

(** C9 -- With monitoring running on a page that has the alerts container,
    a sample above 0.11 puts one alert at the front of the log: its class is
    that of a warning and its message is "Elevated QBER detected: "
    followed by [sample.toFixed(3)], which for a finite sample below 10^21 is
    one or more digits, a point and exactly three digits.  A sample that is
    not above 0.11, in particular one that is at most 0.11, leaves the log
    as it was.  No notice is shown in either case. *)
Theorem observeErrorRateSample_alert :
  forall (sample : Number) (chart : Chart) (children : list AlertElement) (a : App),
    qberChart (currentState a) = Some chart ->
    monitoringActive (currentState a) = true ->
    security_alerts (document a) = Some children ->
    let a' := observeErrorRateSample toLocaleTimeString Number_toString sample a in
    ((0.11 <? sample)%float = true ->
       recentAlerts a' =
         firstn 5
           ({| className := "alert alert-warning";
               alert_time := toLocaleTimeString (clock_reads a);
               alert_message :=
                 "Elevated QBER detected: " ++ toFixed Number_toString sample 3 |}
            :: children) /\
       ((abs sample <? 1e21)%float = true ->
        exists whole frac : string,
          toFixed Number_toString sample 3 = whole ++ "." ++ frac /\
          String.length frac = 3%nat /\ (1 <= String.length whole)%nat /\
          all_digits whole = true /\ all_digits frac = true)) /\
    ((0.11 <? sample)%float = false -> recentAlerts a' = children) /\
    ((sample <=? 0.11)%float = true -> recentAlerts a' = children) /\
    notices (document a') = notices (document a).
Proof.
  intros sample chart children a Hc Hm Hs a'.
  assert (Hno : (0.11 <? sample)%float = false -> recentAlerts a' = children).
  { intros H. unfold a', observeErrorRateSample. rewrite Hc, Hm. simpl negb.
    unfold recordSample. rewrite H.
    unfold recentAlerts. simpl. rewrite Hs. reflexivity. }
  split; [|split; [exact Hno|split]].
  - intros H. split.
    + unfold a', observeErrorRateSample. rewrite Hc, Hm. simpl negb.
      unfold recordSample. rewrite H.
      change (recentAlerts (updateAIDisplay ?n ?x)) with (recentAlerts x).
      erewrite addSecurityAlert_log by (simpl; exact Hs). reflexivity.
    + intros Hb.
      destruct (toFixed_3_shape Number_toString sample H Hb)
        as (m & e & whole & frac & _ & H1 & H2 & H3 & H4 & H5 & _).
      exists whole, frac. auto.
  - intros H. apply Hno. apply leb_not_ltb. exact H.
  - unfold a', observeErrorRateSample. rewrite Hc, Hm. simpl negb.
    unfold recordSample.
    change (notices (document (updateAIDisplay ?n ?x))) with (notices (document x)).
    destruct (0.11 <? sample)%float; [|reflexivity].
    unfold addSecurityAlert. simpl. rewrite Hs. reflexivity.
Qed.

End SampleAlert.

(* ===================================================================== *)
(** ** Key exchange and errors *)
(* ===================================================================== *)

Section KeyExchange.

Variable Math_random : nat -> Number.
Variable toLocaleTimeString : nat -> string.
Variable Number_toString : Number -> string.

(** C5, at the inputs where it fails -- Called with 0 and with -5,
    [startKeyExchange] returns normally, having done what
    [startE91Protocol()] does; it does not end with [InvalidArgument]. *)
Lemma startKeyExchange_accepts_0_and_minus_5 :
  startKeyExchange 0 app_initial = Returned (startE91Protocol app_initial) /\
  startKeyExchange (-5) app_initial = Returned (startE91Protocol app_initial) /\
  e91Active (currentState (state_of (startKeyExchange 0 app_initial))) = true.
Proof. repeat split. Qed.

(** C5, amended -- [startKeyExchange(pairCount)] returns normally for every
    [pairCount], below 1 or not: the argument is discarded, so that the call
    does what [startE91Protocol()] does, the same as for 100, and it ends with
    no error, [InvalidArgument] or other. *)
Theorem startKeyExchange_never_fails :
  forall (pairCount : Z) (a : App),
    startKeyExchange pairCount a = Returned (startE91Protocol a) /\
    startKeyExchange pairCount a = startKeyExchange 100 a /\
    (forall (e : Error) (a' : App), startKeyExchange pairCount a <> Thrown e a').
Proof.
  intros pairCount a. unfold startKeyExchange.
  split; [reflexivity|]. split; [reflexivity|].
  intros e a' H. discriminate H.
Qed.

End KeyExchange.

(* ===================================================================== *)
(** ** Rounding of binary64 sums and differences *)
(* ===================================================================== *)

Section Rounding.

Local Open Scope Z_scope.

Lemma dig_pos p : 1 <= dig p.
Proof. unfold dig. lia. Qed.

Lemma dig_bounds (p : positive) : 2 ^ (dig p - 1) <= Zpos p < 2 ^ dig p.
Proof.
  unfold dig. induction p as [p IH|p IH|]; simpl digits2_pos.
  - rewrite Pos2Z.inj_succ.
    replace (Z.succ (Zpos (digits2_pos p)) - 1) with (Z.succ (Zpos (digits2_pos p) - 1)) by lia.
    rewrite !Z.pow_succ_r by lia. lia.
  - rewrite Pos2Z.inj_succ.
    replace (Z.succ (Zpos (digits2_pos p)) - 1) with (Z.succ (Zpos (digits2_pos p) - 1)) by lia.
    rewrite !Z.pow_succ_r by lia. lia.
  - simpl. lia.
Qed.

Lemma dig_unique (p : positive) (k : Z) :
  2 ^ (k - 1) <= Zpos p < 2 ^ k -> dig p = k.
Proof.
  intros [H1 H2]. pose proof (dig_bounds p) as [B1 B2]. pose proof (dig_pos p).
  assert (0 < k).
  { destruct (Z_lt_le_dec 0 k); [assumption|].
    assert (2 ^ k <= 2 ^ 0) by (apply Z.pow_le_mono_r; lia). simpl in *. lia. }
  destruct (Z_lt_le_dec (dig p) k).
  - assert (2 ^ dig p <= 2 ^ (k - 1)) by (apply Z.pow_le_mono_r; lia). lia.
  - destruct (Z_lt_le_dec k (dig p)); [|lia].
    assert (2 ^ k <= 2 ^ (dig p - 1)) by (apply Z.pow_le_mono_r; lia). lia.
Qed.

Lemma iter_pos_nat {A} (f : A -> A) (n : positive) (x : A) :
  iter_pos f n x = Nat.iter (Pos.to_nat n) f x.
Proof.
  revert x. induction n as [n IH|n IH|]; intros x; simpl iter_pos.
  - rewrite !IH, Pos2Nat.inj_xI, Nat.iter_succ_r.
    replace (2 * Pos.to_nat n)%nat with (Pos.to_nat n + Pos.to_nat n)%nat by lia.
    now rewrite Nat.iter_add.
  - rewrite !IH, Pos2Nat.inj_xO.
    replace (2 * Pos.to_nat n)%nat with (Pos.to_nat n + Pos.to_nat n)%nat by lia.
    now rewrite Nat.iter_add.
  - reflexivity.
Qed.


Lemma shr_1_nonneg (m : Z) (r s : bool) :
  0 <= m ->
  shr_1 {| shr_m := m; shr_r := r; shr_s := s |} =
  {| shr_m := m / 2; shr_r := Z.odd m; shr_s := r || s |}.
Proof.
  intros H. destruct m as [|p|p]; [reflexivity| |lia].
  destruct p as [p|p|]; unfold shr_1.
  - f_equal. rewrite Pos2Z.inj_xI. apply (Z.div_unique _ _ _ 1); lia.
  - f_equal. rewrite Pos2Z.inj_xO. apply (Z.div_unique _ _ _ 0); lia.
  - reflexivity.
Qed.

Lemma shr_iter (k : nat) (m : Z) :
  0 <= m ->
  let r := Nat.iter k shr_1 {| shr_m := m; shr_r := false; shr_s := false |} in
  shr_m r = m / 2 ^ Z.of_nat k /\
  (m mod 2 ^ Z.of_nat k = 0 -> shr_r r = false /\ shr_s r = false).
Proof.
  intros Hm. induction k as [|k IH].
  - simpl. rewrite Z.div_1_r. auto.
  - cbv zeta in *. rewrite Nat2Z.inj_succ, Z.pow_succ_r by lia.
    simpl Nat.iter.
    destruct (Nat.iter k shr_1 _) as [mk rk sk]. simpl in IH.
    destruct IH as [IH1 IH2].
    assert (Hp : 0 < 2 ^ Z.of_nat k) by (apply Z.pow_pos_nonneg; lia).
    assert (Hmk : 0 <= mk) by (rewrite IH1; apply Z.div_pos; assumption).
    rewrite (shr_1_nonneg mk rk sk Hmk).
    cbn [shr_m shr_r shr_s]. split.
    + subst mk. rewrite Z.div_div by lia. f_equal. lia.
    + intros H0.
      assert (Hk : m mod 2 ^ Z.of_nat k = 0).
      { apply Z.mod_divide in H0; [|lia]. apply Z.mod_divide; [lia|].
        destruct H0 as [t Ht]. exists (t * 2). lia. }
      destruct (IH2 Hk) as [-> ->]. split; [|reflexivity].
      subst mk. apply Z.mod_divide in H0; [|lia]. destruct H0 as [t Ht].
      replace m with ((t * 2) * 2 ^ Z.of_nat k) by lia.
      rewrite Z.div_mul by lia. rewrite Z.mul_comm, Z.odd_mul. reflexivity.
Qed.

Lemma round_nearest_even_bounds (q : Z) (l : location) :
  q <= round_nearest_even q l <= q + 1.
Proof.
  destruct l as [|[ | | ]]; simpl; try lia. destruct (Z.even q); lia.
Qed.

Lemma iter_xO (p d : positive) :
  Zpos (Pos.iter xO p d) = Zpos p * 2 ^ Zpos d.
Proof.
  induction d as [|d IH] using Pos.peano_ind.
  - simpl. lia.
  - rewrite Pos.iter_succ, Pos2Z.inj_xO, IH, Pos2Z.inj_succ, Z.pow_succ_r by lia. lia.
Qed.

Lemma dig_iter_xO (p d : positive) :
  dig (Pos.iter xO p d) = dig p + Zpos d.
Proof.
  unfold dig. induction d as [|d IH] using Pos.peano_ind.
  - simpl. lia.
  - rewrite Pos.iter_succ. simpl digits2_pos. rewrite Pos2Z.inj_succ, IH. lia.
Qed.

Lemma fexp_normal (x : Z) : -1074 <= x - 53 -> fexp prec emax x = x - 53.
Proof. unfold fexp, SpecFloat.emin, prec, emax. lia. Qed.

Lemma shr_fexp_first (mz : positive) (c : Z) :
  53 <= dig mz -> -1074 <= c + (dig mz - 53) ->
  exists mrs : shr_record,
    shr_fexp prec emax (Zpos mz) c loc_Exact = (mrs, c + (dig mz - 53)) /\
    shr_m mrs = Zpos mz / 2 ^ (dig mz - 53) /\
    (Zpos mz mod 2 ^ (dig mz - 53) = 0 -> loc_of_shr_record mrs = loc_Exact).
Proof.
  intros Hd He. unfold shr_fexp. 
  change (Zdigits2 (Zpos mz)) with (dig mz).
  rewrite fexp_normal by lia.
  replace (dig mz + c - 53 - c) with (dig mz - 53) by lia.
  destruct (dig mz - 53) as [|n|n] eqn:En; [| |lia].
  - eexists. split; [simpl; f_equal; lia|]. simpl. rewrite Z.div_1_r. auto.
  - unfold shr. rewrite iter_pos_nat. cbn [shr_record_of_loc].
    destruct (shr_iter (Pos.to_nat n) (Zpos mz) ltac:(lia)) as [H1 H2].
    rewrite positive_nat_Z in H1, H2.
    eexists. split; [reflexivity|]. split; [exact H1|].
    intros H0. destruct (H2 H0) as [Hr Hs].
    destruct (Nat.iter _ _ _) as [m r s]. simpl in *. subst. reflexivity.
Qed.

Lemma binary_round_aux_normal (mz : positive) (c : Z) :
  53 <= dig mz -> -1074 <= c + (dig mz - 53) ->
  let n := dig mz - 53 in
  let q := Zpos mz / 2 ^ n in
  exists m1 : positive,
    q <= Zpos m1 <= q + 1 /\
    (Zpos mz mod 2 ^ n = 0 -> Zpos m1 = q) /\
    2 ^ 52 <= q < 2 ^ 53 /\
    binary_round_aux prec emax false (Zpos mz) c loc_Exact =
      if Zpos m1 <? 2 ^ 53 then finite_or_inf m1 (c + n)
      else finite_or_inf 4503599627370496 (c + n + 1).
Proof.
  intros Hd He n q.
  destruct (shr_fexp_first mz c Hd He) as (mrs & E1 & Hm & Hl).
  fold n in E1, Hm, Hl. fold q in Hm.
  assert (Hn : 0 <= n) by (unfold n; lia).
  assert (Hq : 2 ^ 52 <= q < 2 ^ 53).
  { pose proof (dig_bounds mz) as [B1 B2].
    assert (Hpn : 0 < 2 ^ n) by (apply Z.pow_pos_nonneg; lia).
    replace (dig mz - 1) with (52 + n) in B1 by (unfold n; lia).
    replace (dig mz) with (53 + n) in B2 by (unfold n; lia).
    rewrite Z.pow_add_r in B1, B2 by lia.
    unfold q. split.
    - apply Z.div_le_lower_bound; lia.
    - apply Z.div_lt_upper_bound; lia. }
  pose proof (round_nearest_even_bounds q (loc_of_shr_record mrs)) as Hr.
  destruct (round_nearest_even q (loc_of_shr_record mrs)) as [|m1|m1] eqn:Em1;
    [lia| |lia].
  exists m1. split; [exact Hr|]. split.
  { intros H0. rewrite (Hl H0) in Em1. simpl in Em1. lia. }
  split; [exact Hq|].
  unfold binary_round_aux. rewrite E1, Hm, Em1.
  destruct (Zpos m1 <? 2 ^ 53) eqn:Hlt.
  - apply Z.ltb_lt in Hlt.
    assert (Hd1 : dig m1 = 53) by (apply dig_unique; lia).
    unfold shr_fexp. change (Zdigits2 (Zpos m1)) with (dig m1).
    rewrite Hd1, fexp_normal by lia.
    replace (53 + (c + n) - 53 - (c + n)) with 0 by lia.
    simpl. unfold finite_or_inf. reflexivity.
  - apply Z.ltb_ge in Hlt.
    assert (Hm1 : Zpos m1 = 2 ^ 53) by lia.
    assert (Hd1 : dig m1 = 54) by (apply dig_unique; lia).
    unfold shr_fexp. change (Zdigits2 (Zpos m1)) with (dig m1).
    rewrite Hd1, fexp_normal by lia.
    replace (54 + (c + n) - 53 - (c + n)) with 1 by lia.
    change (2 ^ 53) with 9007199254740992 in Hm1. injection Hm1 as ->.
    simpl. unfold finite_or_inf.
    reflexivity.
Qed.

Lemma binary_round_normal (p : positive) (ez : Z) :
  -1074 <= dig p + ez - 53 ->
  exists (mz : positive) (c : Z),
    binary_round prec emax false p ez =
      binary_round_aux prec emax false (Zpos mz) c loc_Exact /\
    53 <= dig mz /\ c + (dig mz - 53) = dig p + ez - 53 /\
    c <= ez /\ (c = ez \/ c = dig p + ez - 53) /\
    Zpos mz = Zpos p * 2 ^ (ez - c).
Proof.
  intros He. unfold binary_round.
  change (Zpos (digits2_pos p)) with (dig p).
  rewrite fexp_normal by lia. unfold shl_align.
  destruct (dig p + ez - 53 - ez) as [|d|d] eqn:Ed.
  - exists p, ez. replace (ez - ez) with 0 by lia. simpl Z.pow.
    repeat split; try lia; auto.
  - exists p, ez. replace (ez - ez) with 0 by lia. simpl Z.pow.
    repeat split; try lia; auto.
  - exists (Pos.iter xO p d), (dig p + ez - 53).
    rewrite dig_iter_xO, iter_xO.
    replace (ez - (dig p + ez - 53)) with (Zpos d) by lia.
    repeat split; try lia; auto.
Qed.

Lemma val_bounds (m : positive) (e : Z) :
  -1200 <= e -> 2 ^ (dig m - 1 + (e + 1200)) <= val m e < 2 ^ (dig m + (e + 1200)).
Proof.
  intros He. unfold val. pose proof (dig_bounds m) as [B1 B2]. pose proof (dig_pos m).
  assert (0 < 2 ^ (e + 1200)) by (apply Z.pow_pos_nonneg; lia).
  rewrite (Z.pow_add_r 2 (dig m - 1) (e + 1200)),
    (Z.pow_add_r 2 (dig m) (e + 1200)) by lia. split.
  - apply Z.mul_le_mono_nonneg_r; lia.
  - apply Z.mul_lt_mono_pos_r; lia.
Qed.

Lemma val_shift (p : positive) (ez c : Z) (mz : positive) :
  -1200 <= c -> c <= ez -> Zpos mz = Zpos p * 2 ^ (ez - c) -> val mz c = val p ez.
Proof.
  intros H1 H2 E. unfold val.
  rewrite E, <- Z.mul_assoc, <- (Z.pow_add_r 2 (ez - c) (c + 1200)) by lia.
  do 2 f_equal. lia.
Qed.

Lemma pow2_lt_inv (a b : Z) : 0 <= b -> 2 ^ a < 2 ^ b -> a < b.
Proof.
  intros Hb H. destruct (Z_lt_le_dec a b); [assumption|].
  assert (2 ^ b <= 2 ^ a) by (apply Z.pow_le_mono_r; lia). lia.
Qed.

Lemma SFleb_finite_or_inf_r (mb : positive) (eb : Z) (m : positive) (e : Z) :
  eb < e \/ (eb = e /\ Zpos mb <= Zpos m) ->
  SFleb (S754_finite false mb eb) (finite_or_inf m e) = true.
Proof.
  intros H. unfold finite_or_inf. destruct (e <=? 971); [|reflexivity].
  unfold SFleb, SFcompare. destruct H as [H|[-> H]].
  - rewrite (proj2 (Z.compare_lt_iff eb e) H). reflexivity.
  - rewrite Z.compare_refl.
    change (PosDef.Pos.compare_cont Eq mb m) with (Pos.compare mb m).
    destruct (Pos.compare_spec mb m); try reflexivity. lia.
Qed.

Lemma SFleb_finite_or_inf_l (mb : positive) (eb : Z) (m : positive) (e : Z) :
  eb <= 971 ->
  e < eb \/ (e = eb /\ Zpos m <= Zpos mb) ->
  SFleb (finite_or_inf m e) (S754_finite false mb eb) = true.
Proof.
  intros Hb H. unfold finite_or_inf.
  replace (e <=? 971) with true by (symmetry; apply Z.leb_le; lia).
  unfold SFleb, SFcompare. destruct H as [H|[-> H]].
  - rewrite (proj2 (Z.compare_lt_iff e eb) H). reflexivity.
  - rewrite Z.compare_refl.
    change (PosDef.Pos.compare_cont Eq m mb) with (Pos.compare m mb).
    destruct (Pos.compare_spec m mb); try reflexivity. lia.
Qed.

(** Rounding never takes a value below a binary64 number it is not below. *)
Lemma binary_round_ge (p : positive) (ez : Z) (mb : positive) (eb : Z) :
  dig mb = 53 -> -1074 <= eb -> -1074 <= ez ->
  val mb eb <= val p ez ->
  SFleb (S754_finite false mb eb) (binary_round prec emax false p ez) = true.
Proof.
  intros Hdb Heb Hez Hv.
  pose proof (val_bounds mb eb ltac:(lia)) as [Bb1 Bb2].
  pose proof (val_bounds p ez ltac:(lia)) as [Bp1 Bp2].
  pose proof (dig_pos p) as Hdp.
  assert (Het : eb <= dig p + ez - 53).
  { assert (dig mb - 1 + (eb + 1200) < dig p + (ez + 1200))
      by (apply pow2_lt_inv; lia). lia. }
  destruct (binary_round_normal p ez ltac:(lia))
    as (mz & c & -> & Hdz & Hc & Hcez & Hcc & Emz).
  destruct (binary_round_aux_normal mz c Hdz ltac:(lia))
    as (m1 & Hm1 & _ & Hq & ->).
  set (n := dig mz - 53) in *.
  assert (Hvz : val mz c = val p ez) by (apply val_shift; lia).
  destruct (Zpos m1 <? 2 ^ 53); apply SFleb_finite_or_inf_r.
  - destruct (Z_lt_le_dec eb (c + n)) as [Hlt|Hge]; [left; exact Hlt|].
    right. split; [lia|].
    assert (E : eb = c + n) by lia.
    assert (Hn : 0 <= n) by (unfold n; lia).
    assert (Hle : Zpos mb * 2 ^ n <= Zpos mz).
    { unfold val in Hv, Hvz. rewrite <- Hvz, E in Hv.
      replace (c + n + 1200) with (n + (c + 1200)) in Hv by lia.
      rewrite (Z.pow_add_r 2 n (c + 1200)), Z.mul_assoc in Hv by lia.
      apply Z.mul_le_mono_pos_r in Hv; [exact Hv|].
      apply Z.pow_pos_nonneg; lia. }
    assert (Zpos mb <= Zpos mz / 2 ^ n).
    { apply Z.div_le_lower_bound; [apply Z.pow_pos_nonneg; lia|]. lia. }
    lia.
  - left. lia.
Qed.

(** Rounding never takes a value above a binary64 number it is not above. *)
Lemma binary_round_le (p : positive) (ez : Z) (mb : positive) (eb : Z) :
  dig mb = 53 -> -1074 <= eb <= 971 -> -1074 <= ez ->
  -1074 <= dig p + ez - 53 ->
  val p ez <= val mb eb ->
  SFleb (binary_round prec emax false p ez) (S754_finite false mb eb) = true.
Proof.
  intros Hdb Heb Hez Hnorm Hv.
  pose proof (val_bounds mb eb ltac:(lia)) as [Bb1 Bb2].
  pose proof (val_bounds p ez ltac:(lia)) as [Bp1 Bp2].
  pose proof (dig_pos p) as Hdp.
  assert (Het : dig p + ez - 53 <= eb).
  { assert (dig p - 1 + (ez + 1200) < dig mb + (eb + 1200))
      by (apply pow2_lt_inv; lia). lia. }
  destruct (binary_round_normal p ez ltac:(lia))
    as (mz & c & -> & Hdz & Hc & Hcez & Hcc & Emz).
  destruct (binary_round_aux_normal mz c Hdz ltac:(lia))
    as (m1 & Hm1 & Hex & Hq & ->).
  set (n := dig mz - 53) in *.
  assert (Hn : 0 <= n) by (unfold n; lia).
  assert (Hpn : 0 < 2 ^ n) by (apply Z.pow_pos_nonneg; lia).
  assert (Hvz : val mz c = val p ez) by (apply val_shift; lia).
  pose proof (dig_bounds mb) as [Db1 Db2]. rewrite Hdb in Db1, Db2.
  assert (Hsame : eb = c + n -> Zpos m1 <= Zpos mb).
  { intros E.
    assert (Hle : Zpos mz <= Zpos mb * 2 ^ n).
    { unfold val in Hv, Hvz. rewrite <- Hvz, E in Hv.
      replace (c + n + 1200) with (n + (c + 1200)) in Hv by lia.
      rewrite (Z.pow_add_r 2 n (c + 1200)), Z.mul_assoc in Hv by lia.
      apply Z.mul_le_mono_pos_r in Hv; [exact Hv|].
      apply Z.pow_pos_nonneg; lia. }
    assert (Hqle : Zpos mz / 2 ^ n <= Zpos mb).
    { apply Z.div_le_upper_bound; lia. }
    destruct (Z.eq_dec (Zpos mz / 2 ^ n) (Zpos mb)) as [Heq|Hne]; [|lia].
    assert (Hmod : Zpos mz mod 2 ^ n = 0).
    { pose proof (Z.div_mod (Zpos mz) (2 ^ n) ltac:(lia)) as Hdm.
      pose proof (Z.mod_pos_bound (Zpos mz) (2 ^ n) Hpn) as Hmb.
      rewrite Heq in Hdm. lia. }
    rewrite (Hex Hmod). exact Hqle. }
  destruct (Zpos m1 <? 2 ^ 53) eqn:Hlt; apply SFleb_finite_or_inf_l; lia.
Qed.
Lemma lex_val (m1 : positive) (e1 : Z) (m2 : positive) (e2 : Z) :
  dig m1 = 53 -> dig m2 = 53 -> -1200 <= e1 -> -1200 <= e2 ->
  e1 < e2 \/ (e1 = e2 /\ Zpos m1 <= Zpos m2) -> val m1 e1 <= val m2 e2.
Proof.
  intros D1 D2 H1 H2 [H|[-> H]].
  - pose proof (val_bounds m1 e1 H1) as [_ B1].
    pose proof (val_bounds m2 e2 H2) as [B2 _].
    rewrite D1 in B1. rewrite D2 in B2.
    assert (2 ^ (53 + (e1 + 1200)) <= 2 ^ (53 - 1 + (e2 + 1200)))
      by (apply Z.pow_le_mono_r; lia).
    lia.
  - unfold val. apply Z.mul_le_mono_nonneg_r; [|exact H].
    apply Z.pow_nonneg. lia.
Qed.

Lemma SFleb_finite_inv (m1 : positive) (e1 : Z) (m2 : positive) (e2 : Z) :
  SFleb (S754_finite false m1 e1) (S754_finite false m2 e2) = true ->
  e1 < e2 \/ (e1 = e2 /\ Zpos m1 <= Zpos m2).
Proof.
  unfold SFleb, SFcompare.
  destruct (Z.compare_spec e1 e2) as [E|E|E]; [|auto|discriminate].
  change (PosDef.Pos.compare_cont Eq m1 m2) with (Pos.compare m1 m2).
  destruct (Pos.compare_spec m1 m2); try discriminate; intros _; right; split; lia.
Qed.

Lemma valid_normal_digits (m : positive) (e : Z) :
  valid_binary (S754_finite false m e) = true -> -1074 < e -> dig m = 53.
Proof.
  unfold SpecFloat.valid_binary, bounded, canonical_mantissa.
  intros H He. apply andb_prop in H. destruct H as [H _].
  apply Z.eqb_eq in H. unfold fexp, SpecFloat.emin, prec, emax in H.
  unfold dig. lia.
Qed.

(** A score in range is a positive normal number between the mantissa and
    exponent pairs of 0.1 and 3.0. *)
Lemma score_in_range_spec (s : float) :
  ((0.1 <=? s) && (s <=? 3.0))%float = true ->
  exists (m : positive) (e : Z),
    Prim2SF s = S754_finite false m e /\ dig m = 53 /\ -56 <= e <= -51 /\
    val m_0_1 (-56) <= val m e /\ val m e <= val m_3_0 (-51).
Proof.
  intros H. apply andb_prop in H. destruct H as [H1 H2].
  rewrite leb_spec in H1, H2.
  change (Prim2SF 0.1) with (S754_finite false m_0_1 (-56)) in H1.
  change (Prim2SF 3.0) with (S754_finite false m_3_0 (-51)) in H2.
  pose proof (Prim2SF_valid s) as Hv.
  destruct (Prim2SF s) as [sg|sg| |sg m e]; try discriminate.
  - destruct sg; discriminate.
  - destruct sg; [discriminate|].
    apply SFleb_finite_inv in H1. apply SFleb_finite_inv in H2.
    assert (Hd : dig m = 53) by (apply (valid_normal_digits m e Hv); lia).
    exists m, e. repeat split; try lia.
    + apply lex_val; try reflexivity; try assumption; lia.
    + apply lex_val; try reflexivity; try assumption; lia.
Qed.

Lemma shl_align_val (m : positive) (e ez : Z) :
  ez <= e -> Zpos (fst (shl_align m e ez)) = Zpos m * 2 ^ (e - ez).
Proof.
  intros H. unfold shl_align. destruct (ez - e) as [|d|d] eqn:E; simpl fst.
  - replace (e - ez) with 0 by lia. simpl. lia.
  - lia.
  - rewrite iter_xO. f_equal. f_equal. lia.
Qed.

Lemma val_aligned (m : positive) (e ez : Z) :
  -1200 <= ez -> ez <= e ->
  Zpos (fst (shl_align m e ez)) * 2 ^ (ez + 1200) = val m e.
Proof.
  intros H1 H2. rewrite shl_align_val by exact H2. unfold val.
  rewrite <- Z.mul_assoc, <- (Z.pow_add_r 2 (e - ez) (ez + 1200)) by lia.
  do 2 f_equal. lia.
Qed.

(** Adding 0.3 to a score in range gives at least 0.1. *)
Lemma add_0_3_lower (s : float) :
  ((0.1 <=? s) && (s <=? 3.0))%float = true -> (0.1 <=? s + 0.3)%float = true.
Proof.
  intros H. destruct (score_in_range_spec s H) as (m & e & Es & Hd & He & Hlo & Hhi).
  rewrite leb_spec, add_spec, Es.
  change (Prim2SF 0.1) with (S754_finite false m_0_1 (-56)).
  change (Prim2SF 0.3) with (S754_finite false m_0_3 (-54)).
  unfold SF64add, SFadd. cbn [cond_Zopp].
  set (ez := Z.min e (-54)).
  pose proof (val_aligned m e ez ltac:(unfold ez; lia) ltac:(unfold ez; lia)) as V1.
  pose proof (val_aligned m_0_3 (-54) ez ltac:(unfold ez; lia) ltac:(unfold ez; lia)) as V2.
  destruct (fst (shl_align m e ez)) as [a|a|] eqn:Ea;
  destruct (fst (shl_align m_0_3 (-54) ez)) as [b|b|] eqn:Eb;
  cbn [Z.add binary_normalize];
  (apply binary_round_ge; [reflexivity | lia | unfold ez; lia |]);
  (match goal with |- _ <= val ?p _ =>
     assert (Hp : val p ez = val m e + val m_0_3 (-54))
       by (unfold val at 1; rewrite <- V1, <- V2; rewrite <- Z.mul_add_distr_r;
           f_equal) end);
  rewrite Hp; unfold val at 3; 
  assert (0 < 2 ^ (-54 + 1200)) by (apply Z.pow_pos_nonneg; lia); lia.
Qed.

(** Taking 0.1 from a score in range gives at most 3.0. *)
Lemma sub_0_1_upper (s : float) :
  ((0.1 <=? s) && (s <=? 3.0))%float = true -> (s - 0.1 <=? 3.0)%float = true.
Proof.
  intros H. destruct (score_in_range_spec s H) as (m & e & Es & Hd & He & Hlo & Hhi).
  rewrite leb_spec, sub_spec, Es.
  change (Prim2SF 0.1) with (S754_finite false m_0_1 (-56)).
  change (Prim2SF 3.0) with (S754_finite false m_3_0 (-51)).
  unfold SF64sub, SFsub. cbn [cond_Zopp].
  set (ez := Z.min e (-56)).
  pose proof (val_aligned m e ez ltac:(unfold ez; lia) ltac:(unfold ez; lia)) as V1.
  pose proof (val_aligned m_0_1 (-56) ez ltac:(unfold ez; lia) ltac:(unfold ez; lia)) as V2.
  set (a := fst (shl_align m e ez)) in *.
  set (b := fst (shl_align m_0_1 (-56) ez)) in *.
  assert (Hpos : 0 < 2 ^ (ez + 1200)) by (apply Z.pow_pos_nonneg; unfold ez; lia).
  assert (HD : (Zpos a - Zpos b) * 2 ^ (ez + 1200) = val m e - val m_0_1 (-56))
    by (rewrite Z.mul_sub_distr_r; lia).
  destruct (Zpos a - Zpos b) as [|p|p] eqn:ED; cbn [binary_normalize].
  - reflexivity.
  - apply binary_round_le.
    + reflexivity.
    + lia.
    + unfold ez; lia.
    + pose proof (dig_pos p). unfold ez. lia.
    + unfold val at 1. rewrite HD.
      assert (0 < val m_0_1 (-56)) by (unfold val; apply Z.mul_pos_pos; [lia|apply Z.pow_pos_nonneg; lia]).
      lia.
  - exfalso.
    assert (Zneg p * 2 ^ (ez + 1200) < 0) by (apply Z.mul_neg_pos; lia).
    lia.
Qed.

End Rounding.

(* ===================================================================== *)
(** ** The score stays in range *)
(* ===================================================================== *)

Section ScoreInvariant.

Variable Math_random : nat -> Number.
Variable toLocaleTimeString : nat -> string.
Variable Number_toString : Number -> string.

Lemma increase_in_range (s : Number) :
  score_in_range s = true ->
  score_in_range (Math_min [3.0; s + 0.3]%float) = true.
Proof.
  intros H. pose proof (add_0_3_lower s H) as Hlo.
  rewrite Math_min_3, (leb_not_nan_r _ _ Hlo).
  destruct (s + 0.3 <? 3.0)%float eqn:Hlt; [|reflexivity].
  unfold score_in_range. rewrite Hlo, (ltb_leb _ _ Hlt). reflexivity.
Qed.

Lemma decrease_in_range (s : Number) :
  score_in_range s = true ->
  score_in_range (Math_max [0.1; s - 0.1]%float) = true.
Proof.
  intros H. pose proof (sub_0_1_upper s H) as Hhi.
  rewrite Math_max_01, (leb_not_nan _ _ Hhi).
  destruct (0.1 <? s - 0.1)%float eqn:Hlt; [|reflexivity].
  unfold score_in_range. rewrite Hhi, (ltb_leb _ _ Hlt). reflexivity.
Qed.

Lemma recordSample_in_range chart newValue a :
  score_in_range (anomalyScore (currentState a)) = true ->
  score_in_range
    (anomalyScore
       (currentState
          (recordSample toLocaleTimeString Number_toString chart newValue a)))
  = true.
Proof.
  intros H. rewrite recordSample_score.
  destruct (0.11 <? newValue)%float.
  - apply increase_in_range. exact H.
  - apply decrease_in_range. exact H.
Qed.

Lemma e91Callback_score id progress generatedKey a :
  anomalyScore
    (currentState (e91Callback Math_random Number_toString id progress generatedKey a))
  = anomalyScore (currentState a).
Proof.
  unfold e91Callback, random. simpl.
  destruct (0.5 <? _)%float; simpl; destruct (100 <=? _)%float; reflexivity.
Qed.

Lemma handle_in_range ev a :
  score_in_range (anomalyScore (currentState a)) = true ->
  score_in_range
    (anomalyScore
       (currentState
          (state_of (handle Math_random toLocaleTimeString Number_toString ev a))))
  = true.
Proof.
  intros H. destruct ev; cbn [handle state_of].
  - unfold clickTab. destruct (_ && _); [|exact H].
    destruct (initializeQBERChart_state Math_random
                (with_state (set_currentTab targetTab) a)) as (_ & _ & ->).
    exact H.
  - unfold startAIMonitoring.
    change (currentState (showAlert ?m ?t ?x)) with (currentState x).
    rewrite addSecurityAlert_state. destruct (qberChart _); exact H.
  - rewrite triggerAnomaly_state. reflexivity.
  - destruct (resetMonitoring_fields Math_random Number_toString a)
      as (_ & _ & -> & _). reflexivity.
  - exact H.
  - reflexivity.
  - unfold resetCompleteDemo.
    set (a1 := match security_alerts _ with Some _ => _ | None => _ end).
    assert (H1 : anomalyScore (currentState a1) = 0.1%float).
    { unfold a1. destruct (security_alerts _); reflexivity. }
    destruct (qberChart (currentState a1)).
    + destruct (resetMonitoring_fields Math_random Number_toString a1)
        as (_ & _ & E & _).
      destruct (resetMonitoring Math_random Number_toString a1);
        cbn [state_of] in *;
        change (currentState (showAlert ?m ?t ?x)) with (currentState x);
        rewrite E; reflexivity.
    + cbn [state_of].
      change (currentState (showAlert ?m ?t ?x)) with (currentState x).
      rewrite H1. reflexivity.
  - destruct (find_timer id (timers a)) as [[|progress generatedKey]|];
      cbn [state_of].
    + unfold updateQBERChart. destruct (qberChart _); [|exact H].
      destruct (negb _); [exact H|]. unfold random. cbn [fst snd].
      apply recordSample_in_range. exact H.
    + rewrite e91Callback_score. exact H.
    + exact H.
  - unfold observeErrorRateSample. destruct (qberChart _); [|exact H].
    destruct (negb _); [exact H|]. apply recordSample_in_range. exact H.
  - exact H.
Qed.

Lemma run_in_range evs a :
  score_in_range (anomalyScore (currentState a)) = true ->
  score_in_range
    (anomalyScore
       (currentState (run Math_random toLocaleTimeString Number_toString evs a)))
  = true.
Proof.
  revert a. induction evs as [|ev evs IH]; intros a H; simpl.
  - exact H.
  - apply IH. apply handle_in_range. exact H.
Qed.

(** C2 -- From the state a reset leaves, and likewise from the initial
    state, the score after any finite sequence of events is at least 0.1 and
    at most 3.0.  The events are the clicks, the firing of any interval and
    direct calls of the two operations that take an argument. *)
Theorem anomalyScore_stays_in_range :
  forall (evs : list Event) (a : App),
    let reset := state_of (resetMonitoring Math_random Number_toString a) in
    let after_reset :=
      run Math_random toLocaleTimeString Number_toString evs reset in
    let after_start :=
      run Math_random toLocaleTimeString Number_toString evs app_initial in
    ((0.1 <=? anomalyScore (currentState after_reset))%float = true /\
     (anomalyScore (currentState after_reset) <=? 3.0)%float = true) /\
    ((0.1 <=? anomalyScore (currentState after_start))%float = true /\
     (anomalyScore (currentState after_start) <=? 3.0)%float = true).
Proof.
  intros evs a reset after_reset after_start. split.
  - apply andb_prop. apply run_in_range. unfold reset.
    destruct (resetMonitoring_fields Math_random Number_toString a)
      as (_ & _ & -> & _). reflexivity.
  - apply andb_prop. apply run_in_range. reflexivity.
Qed.

End ScoreInvariant.

(* ===================================================================== *)
(** ** The key produced under attack, and examples *)
(* ===================================================================== *)

Section FinalKey.

Variable Math_random : nat -> Number.
Variable Number_toString : Number -> string.

(** When a tick completes the exchange, the key written to the page has as
    many pieces as [normal_operation.shared_key_length] says, whatever
    [isUnderAttack] is, and the flag is left as it was. *)
Lemma e91Callback_final_key id progress generatedKey a :
  (100 <=? progress + (Math_random (random_calls a) * 15 + 5))%float = true ->
  let a' := e91Callback Math_random Number_toString id progress generatedKey a in
  exists k : nat,
    quantum_key (document a') =
      String.concat ""
        (map (fun i => floor_to_string Number_toString (Math_random (k + i) * 2)%float)
             (seq 0 (shared_key_length (normal_operation (data a))))) /\
    isUnderAttack (currentState a') = isUnderAttack (currentState a).
Proof.
  intros H a'. unfold a', e91Callback, random. cbn [fst snd].
  change (random_calls (with_document ?f ?x)) with (random_calls x).
  change (random_calls (bump_random 1 a)) with (random_calls a + 1)%nat.
  destruct (0.5 <? Math_random (random_calls a + 1))%float; cbn [fst snd];
    rewrite H; unfold generateQuantumKey; cbn [fst snd]; eexists;
    (split; [reflexivity|reflexivity]).
Qed.

End FinalKey.

(** C4 -- On a page under attack the exchange still ends with a key of the
    length of the normal profile, 19, where the profile selected by
    [isUnderAttack] has [shared_key_length] 16; on a page not under attack
    the key has length 19 as well.  The exchange leaves [isUnderAttack] as it
    was in both runs. *)
Theorem key_exchange_ignores_isUnderAttack :
  let host := run example_random example_clock example_toString in
  let attacked := simulateEavesdropping example_toString app_initial in
  let after_attacked := host key_exchange_events attacked in
  let after_normal := host key_exchange_events app_initial in
  isUnderAttack (currentState attacked) = true /\
  isUnderAttack (currentState after_attacked) = true /\
  timers after_attacked = [] /\
  quantum_key (document after_attacked) = "1111111111111111111" /\
  String.length (quantum_key (document after_attacked)) = 19%nat /\
  shared_key_length (under_attack (data after_attacked)) = 16%nat /\
  isUnderAttack (currentState after_normal) = false /\
  String.length (quantum_key (document after_normal)) = 19%nat.
Proof. vm_compute. repeat split. Qed.

(** C1, at one input: with monitoring running and the score at 0.1, the
    sample 0.2 takes the score to 0.1 + 0.3. *)
Lemma observeErrorRateSample_score_step_example :
  monitoringActive (currentState example_monitoring) = true /\
  anomalyScore
    (currentState
       (observeErrorRateSample example_clock example_toString 0.2%float
          example_monitoring))
  = (0.1 + 0.3)%float.
Proof.
  split; [reflexivity|].
  assert (Hc : exists c, qberChart (currentState example_monitoring) = Some c)
    by (eexists; reflexivity).
  destruct Hc as [c Hc].
  destruct (observeErrorRateSample_score_step example_clock example_toString
              0.2%float c example_monitoring Hc eq_refl) as [Hup _].
  destruct (Hup eq_refl) as (_ & Hexact & _).
  exact (Hexact eq_refl).
Defined.

(** C3, at one input: the score 1.5 lies above 1.0 and is at most 2.0, and
    the advice is to monitor closely. *)
Lemma recommendation_brackets_example :
  (1.0 <? 1.5)%float = true /\ (1.5 <=? 2.0)%float = true /\
  recommendationFor data_default 1.5%float = monitor_advice.
Proof.
  split; [reflexivity|]. split; [reflexivity|].
  destruct (recommendation_brackets example_toString 1.5%float app_initial)
    as (_ & _ & _ & H & _).
  exact (proj1 (proj2 (H eq_refl eq_refl))).
Defined.

(** C8, at one input: a sixth alert on a log of five puts the new alert
    first and drops the last one. *)
Lemma recentAlerts_bounded_example :
  let a :=
    run example_random example_clock example_toString
      (repeat ClickTriggerAnomaly 5) app_initial in
  let a' := addSecurityAlert example_clock "sixth" "warning" a in
  List.length (recentAlerts a) = 5%nat /\
  List.length (recentAlerts a') = 5%nat /\
  hd_error (recentAlerts a') =
    Some (alertElement_of example_clock "sixth" "warning" a).
Proof.
  intros a a'. split; [reflexivity|].
  assert (Hc : exists c, security_alerts (document a) = Some c /\
                         List.length c = 5%nat)
    by (eexists; split; reflexivity).
  destruct Hc as (c & Hc & Hlen).
  destruct (recentAlerts_bounded_newest_first example_random example_clock
              example_toString "sixth" "warning" a c [] Hc
              (Nat.eq_le_incl _ _ Hlen)) as (_ & Hhd & Hevict & _ & _).
  split; [|exact Hhd].
  subst a'. rewrite (Hevict Hlen). simpl. f_equal.
  rewrite removelast_firstn_len, List.length_firstn, Hlen. reflexivity.
Defined.

(** C9, at one input: with monitoring running, the sample 0.2 puts the
    warning "Elevated QBER detected: 0.200" first in the log. *)
Lemma observeErrorRateSample_alert_example :
  monitoringActive (currentState example_monitoring) = true /\
  hd_error
    (recentAlerts
       (observeErrorRateSample example_clock example_toString 0.2%float
          example_monitoring))
  = Some {| className := "alert alert-warning";
            alert_time := "12:00:00";
            alert_message := "Elevated QBER detected: 0.200" |}.
Proof.
  split; [reflexivity|].
  assert (Hc : exists c, qberChart (currentState example_monitoring) = Some c)
    by (eexists; reflexivity).
  destruct Hc as [c Hc].
  assert (Hs : exists l, security_alerts (document example_monitoring) = Some l)
    by (eexists; reflexivity).
  destruct Hs as [l Hs].
  destruct (observeErrorRateSample_alert example_clock example_toString
              0.2%float c l example_monitoring Hc eq_refl Hs) as [Hup _].
  destruct (Hup eq_refl) as [Hlog _].
  rewrite Hlog. reflexivity.
Defined.

(** C10, at one input: on the initial page, where monitoring has not been
    started, the sample 0.5 changes nothing. *)
Lemma sample_dropped_example :
  monitoringActive (currentState app_initial) = false /\
  observeErrorRateSample example_clock example_toString 0.5%float app_initial
  = app_initial.
Proof.
  split; [reflexivity|].
  exact (proj1 (sample_dropped_while_monitoring_inactive example_random
                  example_clock example_toString 0.5%float app_initial
                  app_initial eq_refl)).
Defined.

(* ===================================================================== *)
(** ** The state and the page after each method *)
(* ===================================================================== *)

Section AfterEachMethod.

Variable Math_random : nat -> Number.
Variable toLocaleTimeString : nat -> string.
Variable Number_toString : Number -> string.

Local Abbreviation handle' :=
  (handle Math_random toLocaleTimeString Number_toString).

Lemma handle_ClickTab targetTab a :
  handle' (ClickTab targetTab) a = Returned (clickTab Math_random targetTab a).
Proof. unfold handle. reflexivity. Qed.

Lemma handle_ClickStartMonitoring a :
  handle' ClickStartMonitoring a =
  Returned (startAIMonitoring toLocaleTimeString a).
Proof. unfold handle. reflexivity. Qed.

Lemma handle_ClickTriggerAnomaly a :
  handle' ClickTriggerAnomaly a =
  Returned (triggerAnomaly toLocaleTimeString Number_toString a).
Proof. unfold handle. reflexivity. Qed.

Lemma handle_ClickResetMonitoring a :
  handle' ClickResetMonitoring a = resetMonitoring Math_random Number_toString a.
Proof. unfold handle. reflexivity. Qed.

Lemma handle_ClickStartQKD a :
  handle' ClickStartQKD a = Returned (startE91Protocol a).
Proof. unfold handle. reflexivity. Qed.

Lemma handle_ClickSimulateAttack a :
  handle' ClickSimulateAttack a = Returned (simulateEavesdropping Number_toString a).
Proof. unfold handle. reflexivity. Qed.

Lemma handle_IntervalFires id a :
  handle' (IntervalFires id) a =
  match find_timer id (timers a) with
  | Some MonitoringTimer =>
      Returned (updateQBERChart Math_random toLocaleTimeString Number_toString a)
  | Some (E91Timer progress generatedKey) =>
      Returned (e91Callback Math_random Number_toString id progress generatedKey a)
  | None => Returned a
  end.
Proof. unfold handle. reflexivity. Qed.

Lemma handle_ObserveErrorRateSample sample a :
  handle' (ObserveErrorRateSample sample) a =
  Returned (observeErrorRateSample toLocaleTimeString Number_toString sample a).
Proof. unfold handle. reflexivity. Qed.

Lemma handle_StartKeyExchange pairCount a :
  handle' (StartKeyExchange pairCount) a = Returned (startE91Protocol a).
Proof. unfold handle. reflexivity. Qed.

Lemma handle_ResetDemo a :
  handle' ClickResetDemo a = resetCompleteDemo Math_random Number_toString a.
Proof. unfold handle. reflexivity. Qed.

Lemma run_cons ev evs a :
  run Math_random toLocaleTimeString Number_toString (ev :: evs) a =
  run Math_random toLocaleTimeString Number_toString evs (state_of (handle' ev a)).
Proof. reflexivity. Qed.

Lemma run_app evs1 evs2 a :
  run Math_random toLocaleTimeString Number_toString (evs1 ++ evs2)%list a =
  run Math_random toLocaleTimeString Number_toString evs2
    (run Math_random toLocaleTimeString Number_toString evs1 a).
Proof.
  revert a. induction evs1 as [|ev evs1 IH]; intros a; [reflexivity|].
  rewrite <- app_comm_cons, !run_cons. apply IH.
Qed.

(** *** The state *)

Lemma startAIMonitoring_state a :
  currentState (startAIMonitoring toLocaleTimeString a) =
  set_monitoringActive true (currentState a).
Proof.
  unfold startAIMonitoring.
  change (currentState (showAlert ?m ?t ?x)) with (currentState x).
  rewrite addSecurityAlert_state.
  destruct (qberChart (currentState (with_state (set_monitoringActive true) a)));
    reflexivity.
Qed.

Lemma recordSample_state chart newValue a :
  currentState (recordSample toLocaleTimeString Number_toString chart newValue a) =
  set_anomalyScore
    (if (0.11 <? newValue)%float
     then Math_min [3.0; anomalyScore (currentState a) + 0.3]%float
     else Math_max [0.1; anomalyScore (currentState a) - 0.1]%float)
    (set_qberChart
       (Some
          (if (20 <? List.length (dataset_data chart ++ [newValue]))%nat
           then {| labels :=
                     tl (labels chart ++
                         [Z.of_nat (List.length (labels chart)) + 1]%Z);
                   dataset_data := tl (dataset_data chart ++ [newValue]);
                   threshold_data := threshold_data chart |}
           else {| labels :=
                     labels chart ++
                     [Z.of_nat (List.length (labels chart)) + 1]%Z;
                   dataset_data := dataset_data chart ++ [newValue];
                   threshold_data := threshold_data chart |})%list)
       (currentState a)).
Proof.
  unfold recordSample.
  change (currentState (updateAIDisplay ?n ?x)) with (currentState x).
  destruct (0.11 <? newValue)%float.
  - rewrite addSecurityAlert_state. reflexivity.
  - reflexivity.
Qed.

Lemma simulateEavesdropping_state a :
  currentState (simulateEavesdropping Number_toString a) =
  set_anomalyScore 2.5%float (set_isUnderAttack true (currentState a)).
Proof. reflexivity. Qed.

Lemma e91Callback_state id progress generatedKey a :
  currentState (e91Callback Math_random Number_toString id progress generatedKey a)
  = currentState a.
Proof.
  unfold e91Callback, random. cbn [fst snd].
  destruct (0.5 <? _)%float; cbn [fst snd]; destruct (100 <=? _)%float;
    reflexivity.
Qed.

Lemma e91Callback_data id progress generatedKey a :
  data (e91Callback Math_random Number_toString id progress generatedKey a)
  = data a.
Proof.
  unfold e91Callback, random. cbn [fst snd].
  destruct (0.5 <? _)%float; cbn [fst snd]; destruct (100 <=? _)%float;
    reflexivity.
Qed.

(** *** The chart *)

Lemma initializeQBERChart_chart a :
  qberChart (currentState (initializeQBERChart Math_random a)) =
  if qber_chart_canvas (document a)
  then Some {| labels := map (fun i => Z.of_nat i + 1)%Z (seq 0 20);
               dataset_data :=
                 map (fun i => 0.02 + Math_random (random_calls a + i) * 0.01)%float
                     (seq 0 20);
               threshold_data := repeat 0.11%float 20 |}
  else qberChart (currentState a).
Proof.
  unfold initializeQBERChart. destruct (qber_chart_canvas (document a)); reflexivity.
Qed.

Lemma initializeQBERChart_window a :
  chart_window_ok a -> chart_window_ok (initializeQBERChart Math_random a).
Proof.
  intros H. unfold chart_window_ok. rewrite initializeQBERChart_chart.
  destruct (qber_chart_canvas (document a)); [|exact H].
  unfold chart_full. cbn [labels dataset_data threshold_data].
  rewrite !length_map, length_seq, repeat_length. auto.
Qed.

Lemma resetMonitoring_window a :
  chart_window_ok (state_of (resetMonitoring Math_random Number_toString a)).
Proof.
  unfold resetMonitoring.
  set (a1 := with_state (set_anomalyScore 0.1%float) _).
  set (a2 := match monitoringInterval a1 with
             | Some id => if Nat.eqb id 0 then a1 else clearInterval id a1
             | None => a1 end).
  assert (Hs2 : currentState a2 = currentState a1).
  { unfold a2. destruct (monitoringInterval a1) as [id|]; [|reflexivity].
    destruct (Nat.eqb id 0); reflexivity. }
  set (a3 := match qberChart (currentState a2) with
             | Some _ => initializeQBERChart Math_random
                           (with_state (set_qberChart None) a2)
             | None => a2 end).
  assert (H3 : chart_window_ok a3).
  { unfold a3. destruct (qberChart (currentState a2)) eqn:E.
    - apply initializeQBERChart_window. exact I.
    - unfold chart_window_ok. rewrite E. exact I. }
  destruct (security_alerts (document a3)); exact H3.
Qed.

Lemma recordSample_window chart newValue a :
  chart_full chart ->
  chart_window_ok
    (recordSample toLocaleTimeString Number_toString chart newValue a).
Proof.
  intros (H1 & H2 & H3). unfold chart_window_ok. rewrite recordSample_state.
  cbn [qberChart set_anomalyScore set_qberChart].
  rewrite List.length_app, H2. cbn [List.length Nat.add Nat.ltb Nat.leb].
  unfold chart_full. cbn [labels dataset_data threshold_data].
  destruct (labels chart) as [|l ls]; [discriminate H1|].
  destruct (dataset_data chart) as [|d ds]; [discriminate H2|].
  cbn [tl app]. rewrite !List.length_app. cbn [List.length] in *. lia.
Qed.

Lemma handle_window ev a :
  chart_window_ok a -> chart_window_ok (state_of (handle' ev a)).
Proof.
  intros H. destruct ev.
  - rewrite handle_ClickTab. cbn [state_of]. unfold clickTab.
    destruct (_ && _); [|exact H]. apply initializeQBERChart_window. exact H.
  - rewrite handle_ClickStartMonitoring. cbn [state_of].
    unfold chart_window_ok. rewrite startAIMonitoring_state. exact H.
  - rewrite handle_ClickTriggerAnomaly. cbn [state_of].
    unfold chart_window_ok. rewrite triggerAnomaly_state. exact H.
  - rewrite handle_ClickResetMonitoring. apply resetMonitoring_window.
  - rewrite handle_ClickStartQKD. exact H.
  - rewrite handle_ClickSimulateAttack. exact H.
  - rewrite handle_ResetDemo. unfold resetCompleteDemo.
    set (a1 := match security_alerts _ with Some _ => _ | None => _ end).
    assert (H1 : qberChart (currentState a1) = qberChart (currentState a)).
    { unfold a1. destruct (security_alerts _); reflexivity. }
    destruct (qberChart (currentState a1)) eqn:E.
    + pose proof (resetMonitoring_window a1) as Hw.
      destruct (resetMonitoring Math_random Number_toString a1); exact Hw.
    + cbn [state_of]. unfold chart_window_ok.
      change (currentState (showAlert ?m ?t ?x)) with (currentState x).
      rewrite E. exact I.
  - rewrite handle_IntervalFires.
    destruct (find_timer id (timers a)) as [[|progress generatedKey]|];
      cbn [state_of].
    + unfold updateQBERChart. unfold chart_window_ok in H.
      destruct (qberChart (currentState a)) eqn:E.
      * destruct (negb _); [unfold chart_window_ok; rewrite E; exact H|].
        unfold random. cbn [fst snd]. apply recordSample_window. exact H.
      * unfold chart_window_ok. rewrite E. exact I.
    + unfold chart_window_ok. rewrite e91Callback_state. exact H.
    + exact H.
  - rewrite handle_ObserveErrorRateSample. cbn [state_of].
    unfold observeErrorRateSample. unfold chart_window_ok in H.
    destruct (qberChart (currentState a)) eqn:E.
    + destruct (negb _); [unfold chart_window_ok; rewrite E; exact H|].
      apply recordSample_window. exact H.
    + unfold chart_window_ok. rewrite E. exact I.
  - rewrite handle_StartKeyExchange. exact H.
Qed.

(** X1 -- The chart always holds exactly twenty points: from a page
    without a chart, or with a chart of twenty labels and twenty data
    points, every sequence of events leads to a page without a chart or
    with a chart of twenty labels and twenty data points. *)
Theorem chart_keeps_twenty_points :
  forall (evs : list Event) (a : App),
    chart_window_ok a ->
    chart_window_ok (run Math_random toLocaleTimeString Number_toString evs a).
Proof.
  induction evs as [|ev evs IH]; intros a H; [exact H|].
  rewrite run_cons. apply IH. apply handle_window. exact H.
Qed.

(** X2 -- With monitoring running on a chart of twenty points, a tick of
    the monitoring interval drops the oldest data point and label and puts
    the point it draws last; the label it appends is always 21, the length
    of the label list before the push plus one. *)
Theorem updateQBERChart_slides_window :
  forall (chart : Chart) (a : App),
    qberChart (currentState a) = Some chart ->
    monitoringActive (currentState a) = true ->
    chart_full chart ->
    let newValue :=
      (if isUnderAttack (currentState a)
       then 0.15 + Math_random (random_calls a) * 0.15
       else 0.02 + Math_random (random_calls a) * 0.02)%float in
    qberChart
      (currentState
         (updateQBERChart Math_random toLocaleTimeString Number_toString a)) =
    Some {| labels := (tl (labels chart) ++ [21%Z])%list;
            dataset_data := (tl (dataset_data chart) ++ [newValue])%list;
            threshold_data := threshold_data chart |}.
Proof.
  intros chart a Hc Hm (H1 & H2 & H3) newValue.
  unfold updateQBERChart, random. rewrite Hc, Hm. cbn [negb fst snd].
  rewrite recordSample_state. cbn [qberChart set_anomalyScore set_qberChart].
  rewrite List.length_app, H2, H1. cbn [List.length Nat.add Nat.ltb Nat.leb].
  destruct (labels chart) as [|l ls]; [discriminate H1|].
  destruct (dataset_data chart) as [|d ds]; [discriminate H2|].
  reflexivity.
Qed.

(** *** The panels *)

Lemma ai_panel_synced_iff a :
  ai_panel_synced Number_toString a <->
  ai_panel (document a) =
  ai_panel_of Number_toString (data a) (anomalyScore (currentState a)).
Proof.
  unfold ai_panel_synced, ai_panel, ai_panel_of. split.
  - intros (-> & -> & ->). reflexivity.
  - intros H. injection H as H1 H2 H3. auto.
Qed.

Lemma addSecurityAlert_ai_panel message type a :
  ai_panel (document (addSecurityAlert toLocaleTimeString message type a)) =
  ai_panel (document a).
Proof. unfold addSecurityAlert. destruct (security_alerts (document a)); reflexivity. Qed.

Lemma addSecurityAlert_e91_panel message type a :
  e91_panel (document (addSecurityAlert toLocaleTimeString message type a)) =
  e91_panel (document a).
Proof. unfold addSecurityAlert. destruct (security_alerts (document a)); reflexivity. Qed.

Lemma addSecurityAlert_container message type a :
  security_alerts (document a) <> None ->
  security_alerts (document (addSecurityAlert toLocaleTimeString message type a))
  <> None.
Proof.
  unfold addSecurityAlert. destruct (security_alerts (document a)); [|auto].
  intros _. discriminate.
Qed.

Lemma e91Callback_ai_panel id progress generatedKey a :
  ai_panel (document
    (e91Callback Math_random Number_toString id progress generatedKey a))
  = ai_panel (document a).
Proof.
  unfold e91Callback, random. cbn [fst snd].
  destruct (0.5 <? _)%float; cbn [fst snd]; destruct (100 <=? _)%float;
    reflexivity.
Qed.

Lemma e91Callback_container id progress generatedKey a :
  security_alerts (document
    (e91Callback Math_random Number_toString id progress generatedKey a))
  = security_alerts (document a).
Proof.
  unfold e91Callback, random. cbn [fst snd].
  destruct (0.5 <? _)%float; cbn [fst snd]; destruct (100 <=? _)%float;
    reflexivity.
Qed.

Lemma recordSample_ai_panel chart newValue a :
  ai_panel_synced Number_toString
    (recordSample toLocaleTimeString Number_toString chart newValue a).
Proof.
  unfold recordSample. set (a1 := if (0.11 <? newValue)%float then _ else _).
  unfold ai_panel_synced. auto.
Qed.

Lemma recordSample_container chart newValue a :
  security_alerts (document a) <> None ->
  security_alerts
    (document (recordSample toLocaleTimeString Number_toString chart newValue a))
  <> None.
Proof.
  intros H. unfold recordSample.
  change (security_alerts (document (updateAIDisplay ?n ?x)))
    with (security_alerts (document x)).
  destruct (0.11 <? newValue)%float; [|exact H].
  apply addSecurityAlert_container. exact H.
Qed.

Lemma triggerAnomaly_ai_panel a :
  ai_panel_synced Number_toString
    (triggerAnomaly toLocaleTimeString Number_toString a).
Proof.
  apply ai_panel_synced_iff. rewrite triggerAnomaly_state. unfold triggerAnomaly.
  change (document (showAlert ?m ?t ?x)) with (add_notice
    {| notice_class := "alert alert-" ++ t; notice_message := m |} (document x)).
  change (ai_panel (add_notice ?n ?d)) with (ai_panel d).
  change (data (showAlert ?m ?t ?x)) with (data x).
  rewrite addSecurityAlert_ai_panel, addSecurityAlert_data. reflexivity.
Qed.

(** What [resetMonitoring] leaves when the page has the alerts container:
    it returns, and both panels show the defaults. *)
Lemma resetMonitoring_returned a children :
  security_alerts (document a) = Some children ->
  exists a',
    resetMonitoring Math_random Number_toString a = Returned a' /\
    security_alerts (document a') = Some [] /\
    ai_panel (document a') = ai_panel_of Number_toString (data a) 0.1%float /\
    e91_panel (document a') = e91_panel_of Number_toString (normal_operation (data a)).
Proof.
  intros Hc. unfold resetMonitoring.
  set (a1 := with_state (set_anomalyScore 0.1%float) _).
  set (a2 := match monitoringInterval a1 with
             | Some id => if Nat.eqb id 0 then a1 else clearInterval id a1
             | None => a1 end).
  assert (H2 : currentState a2 = currentState a1 /\ document a2 = document a
               /\ data a2 = data a).
  { unfold a2. destruct (monitoringInterval a1) as [id|]; auto.
    destruct (Nat.eqb id 0); auto. }
  destruct H2 as (Hs2 & Hd2 & Hdata2).
  set (a3 := match qberChart (currentState a2) with
             | Some _ => initializeQBERChart Math_random
                           (with_state (set_qberChart None) a2)
             | None => a2 end).
  assert (H3 : isUnderAttack (currentState a3) = false /\
               anomalyScore (currentState a3) = 0.1%float /\
               document a3 = document a /\ data a3 = data a).
  { unfold a3. destruct (qberChart (currentState a2)).
    - destruct (initializeQBERChart_state Math_random
                  (with_state (set_qberChart None) a2)) as (E1 & _ & E3).
      rewrite E1, E3, initializeQBERChart_document, initializeQBERChart_data.
      cbn [currentState document data with_state isUnderAttack anomalyScore
           set_qberChart].
      rewrite Hs2, Hd2, Hdata2. auto.
    - rewrite Hs2, Hd2, Hdata2. auto. }
  destruct H3 as (E1 & E3 & Ed & Edata).
  rewrite Ed, Hc. eexists. split; [reflexivity|].
  unfold updateE91Display, updateAIDisplay, showAlert.
  cbn [document currentState data with_document with_state security_alerts
       add_notice set_e91_display set_ai_display set_security_alerts
       ai_panel e91_panel anomaly_score threat_fill_left ai_recommendation
       entangled_pairs matching_pairs_text qber_value qber_value_class
       threat_level_text threat_level_class].
  rewrite E1, E3, Edata. auto.
Qed.

Lemma resetMonitoring_thrown a :
  security_alerts (document a) = None ->
  exists a',
    resetMonitoring Math_random Number_toString a = Thrown TypeError a' /\
    document a' = document a.
Proof.
  intros Hc. unfold resetMonitoring.
  match goal with |- context [security_alerts (document ?x)] =>
    assert (E : document x = document a) end.
  { destruct (monitoringInterval _) as [id|]; [destruct (Nat.eqb id 0)|];
      cbn [currentState with_state clearInterval set_timers];
      destruct (qberChart _);
      rewrite ?initializeQBERChart_document; reflexivity. }
  rewrite E, Hc. eexists. split; [reflexivity|exact E].
Qed.

End AfterEachMethod.

(* ===================================================================== *)
(** ** The panels and the two resets *)
(* ===================================================================== *)

Section PanelsAndResets.

Variable Math_random : nat -> Number.
Variable toLocaleTimeString : nat -> string.
Variable Number_toString : Number -> string.

Local Abbreviation handle' :=
  (handle Math_random toLocaleTimeString Number_toString).

Ltac reset_cases a :=
  unfold resetMonitoring, initializeQBERChart, clearInterval;
  cbn [currentState document monitoringInterval with_state with_document
       set_timers set_monitoringActive set_isUnderAttack set_anomalyScore
       set_qberChart qberChart];
  destruct (monitoringInterval a) as [?id|] eqn:?Hinterval;
    [destruct (Nat.eqb _ 0)|];
  cbn [currentState document monitoringInterval with_state with_document
       set_timers set_monitoringActive set_isUnderAttack set_anomalyScore
       set_qberChart qberChart];
  destruct (qberChart (currentState a));
  cbn [currentState document monitoringInterval with_state with_document
       set_timers set_monitoringActive set_isUnderAttack set_anomalyScore
       set_qberChart qberChart];
  try destruct (qber_chart_canvas (document a));
  cbn [negb currentState document monitoringInterval with_state with_document
       set_timers set_monitoringActive set_isUnderAttack set_anomalyScore
       set_qberChart qberChart bump_random];
  destruct (security_alerts (document a));
  cbn [state_of].

(** What [resetMonitoring] leaves alone. *)
Lemma resetMonitoring_frame a :
  let a' := state_of (resetMonitoring Math_random Number_toString a) in
  e91Active (currentState a') = e91Active (currentState a) /\
  currentTab (currentState a') = currentTab (currentState a) /\
  quantum_key (document a') = quantum_key (document a) /\
  key_progress_width (document a') = key_progress_width (document a) /\
  monitoringInterval a' = monitoringInterval a /\
  next_timer a' = next_timer a.
Proof. reset_cases a; repeat split; try reflexivity; exact Hinterval. Qed.

Lemma resetMonitoring_timer id t a :
  find_timer id (timers a) = Some t ->
  monitoringInterval a <> Some id ->
  find_timer id
    (timers (state_of (resetMonitoring Math_random Number_toString a))) = Some t.
Proof.
  intros Hf Hne.
  assert (Hfilter : forall id0, id0 <> id ->
            find_timer id
              (filter (fun '(i, _) => negb (Nat.eqb i id0)) (timers a)) = Some t).
  { intros id0 Hid. revert Hf. induction (timers a) as [|[i t0] ts IH]; simpl.
    - discriminate.
    - destruct (Nat.eqb i id) eqn:Ei.
      + apply Nat.eqb_eq in Ei. subst i. intros H.
        assert (E0 : Nat.eqb id id0 = false) by (apply Nat.eqb_neq; congruence).
        rewrite E0. simpl. rewrite Nat.eqb_refl. exact H.
      + intros H. destruct (negb (Nat.eqb i id0)); simpl; [rewrite Ei|]; auto. }
  reset_cases a; try exact Hf; apply Hfilter; congruence.
Qed.

Lemma resetCompleteDemo_prefix_container a :
  security_alerts (document a) <> None ->
  forall a1,
    a1 = match security_alerts (document a) with
         | Some _ => with_document (set_security_alerts (Some [])) a
         | None => a
         end ->
    security_alerts (document a1) = Some [].
Proof.
  intros H a1 ->. destruct (security_alerts (document a)); [reflexivity|].
  contradiction.
Qed.

(** What [resetCompleteDemo] leaves on a page that has the alerts
    container: it returns, and the AI panel shows the default score. *)
Lemma resetCompleteDemo_returned a :
  security_alerts (document a) <> None ->
  exists a',
    resetCompleteDemo Math_random Number_toString a = Returned a' /\
    security_alerts (document a') = Some [] /\
    anomalyScore (currentState a') = 0.1%float /\
    data a' = data a /\
    ai_panel (document a') = ai_panel_of Number_toString (data a) 0.1%float /\
    e91_panel (document a') = e91_panel_of Number_toString (normal_operation (data a)).
Proof.
  intros Hc. unfold resetCompleteDemo.
  set (a0 := with_document (set_key_progress_width 0%float) _).
  assert (Hc0 : security_alerts (document a0) = security_alerts (document a))
    by reflexivity.
  rewrite Hc0.
  destruct (security_alerts (document a)) as [children|] eqn:E; [|contradiction].
  set (a1 := with_document (set_security_alerts (Some [])) a0).
  destruct (qberChart (currentState a1)) eqn:Eq.
  - destruct (resetMonitoring_returned Math_random Number_toString a1 [] eq_refl) as (a' & R & H1 & H2 & H3).
    pose proof (resetMonitoring_fields Math_random Number_toString a1)
      as (_ & _ & F3 & _ & F5).
    rewrite R in *. cbn [state_of] in F3, F5.
    eexists. split; [reflexivity|].
    split; [exact H1|]. split; [exact F3|]. split; [exact F5|].
    split; [exact H2|exact H3].
  - eexists. split; [reflexivity|]. repeat split.
Qed.

Lemma handle_synced ev a :
  security_alerts (document a) <> None ->
  ai_panel_synced Number_toString a ->
  security_alerts (document (state_of (handle' ev a))) <> None /\
  ai_panel_synced Number_toString (state_of (handle' ev a)).
Proof.
  intros Hc Hs. destruct ev.
  - rewrite handle_ClickTab. cbn [state_of]. unfold clickTab.
    destruct (_ && _); [|split; assumption].
    split.
    + rewrite initializeQBERChart_document. exact Hc.
    + apply ai_panel_synced_iff. apply ai_panel_synced_iff in Hs.
      rewrite initializeQBERChart_document, initializeQBERChart_data.
      destruct (initializeQBERChart_state Math_random
                  (with_state (set_currentTab targetTab) a)) as (_ & _ & ->).
      exact Hs.
  - rewrite handle_ClickStartMonitoring. cbn [state_of]. split.
    + unfold startAIMonitoring.
      change (security_alerts (document (showAlert ?m ?t ?x)))
        with (security_alerts (document x)).
      apply addSecurityAlert_container.
      destruct (qberChart _); exact Hc.
    + apply ai_panel_synced_iff. apply ai_panel_synced_iff in Hs.
      rewrite startAIMonitoring_state. unfold startAIMonitoring.
      change (document (showAlert ?m ?t ?x)) with (add_notice
        {| notice_class := "alert alert-" ++ t; notice_message := m |}
        (document x)).
      change (ai_panel (add_notice ?n ?d)) with (ai_panel d).
      change (data (showAlert ?m ?t ?x)) with (data x).
      rewrite addSecurityAlert_ai_panel, addSecurityAlert_data.
      destruct (qberChart _); exact Hs.
  - rewrite handle_ClickTriggerAnomaly. cbn [state_of]. split.
    + unfold triggerAnomaly.
      change (security_alerts (document (showAlert ?m ?t ?x)))
        with (security_alerts (document x)).
      apply addSecurityAlert_container. exact Hc.
    + apply triggerAnomaly_ai_panel.
  - rewrite handle_ClickResetMonitoring.
    destruct (security_alerts (document a)) as [children|] eqn:E;
      [|contradiction].
    destruct (resetMonitoring_returned Math_random Number_toString a children E) as (a' & R & H1 & H2 & _).
    pose proof (resetMonitoring_fields Math_random Number_toString a)
      as (_ & _ & F3 & _ & F5).
    rewrite R in *. cbn [state_of] in *. split.
    + rewrite H1. discriminate.
    + apply ai_panel_synced_iff. rewrite F3, F5. exact H2.
  - rewrite handle_ClickStartQKD. split; assumption.
  - rewrite handle_ClickSimulateAttack. cbn [state_of]. split.
    + exact Hc.
    + unfold ai_panel_synced. auto.
  - rewrite handle_ResetDemo.
    destruct (resetCompleteDemo_returned a Hc) as (a' & -> & H1 & H2 & H3 & H4 & _).
    cbn [state_of]. split.
    + rewrite H1. discriminate.
    + apply ai_panel_synced_iff. rewrite H2, H3. exact H4.
  - rewrite handle_IntervalFires.
    destruct (find_timer id (timers a)) as [[|progress generatedKey]|];
      cbn [state_of].
    + unfold updateQBERChart. destruct (qberChart _); [|split; assumption].
      destruct (negb _); [split; assumption|].
      unfold random. cbn [fst snd]. split.
      * apply recordSample_container. exact Hc.
      * apply recordSample_ai_panel.
    + split.
      * rewrite e91Callback_container. exact Hc.
      * apply ai_panel_synced_iff. apply ai_panel_synced_iff in Hs.
        rewrite e91Callback_ai_panel, e91Callback_state, e91Callback_data.
        exact Hs.
    + split; assumption.
  - rewrite handle_ObserveErrorRateSample. cbn [state_of].
    unfold observeErrorRateSample. destruct (qberChart _); [|split; assumption].
    destruct (negb _); [split; assumption|]. split.
    + apply recordSample_container. exact Hc.
    + apply recordSample_ai_panel.
  - rewrite handle_StartKeyExchange. split; assumption.
Qed.

(** X3 -- On a page that has the alerts container, the AI panel never
    goes stale: if it shows the text, the bar position and the advice of the
    current score, it still does so after any sequence of events; and a
    triggered anomaly, a simulated attack and a reset each leave it showing
    those of the score they set. *)
Theorem ai_panel_stays_synced :
  forall (evs : list Event) (a : App),
    security_alerts (document a) <> None ->
    (ai_panel_synced Number_toString a ->
     ai_panel_synced Number_toString
       (run Math_random toLocaleTimeString Number_toString evs a)) /\
    ai_panel_synced Number_toString
      (triggerAnomaly toLocaleTimeString Number_toString a) /\
    ai_panel_synced Number_toString (simulateEavesdropping Number_toString a) /\
    ai_panel_synced Number_toString
      (state_of (resetMonitoring Math_random Number_toString a)).
Proof.
  intros evs a Hc. split; [|split; [|split]].
  - revert a Hc. induction evs as [|ev evs IH]; intros a Hc Hs; [exact Hs|].
    rewrite run_cons. destruct (handle_synced ev a Hc Hs) as [Hc' Hs'].
    apply IH; assumption.
  - apply triggerAnomaly_ai_panel.
  - unfold ai_panel_synced. auto.
  - destruct (security_alerts (document a)) as [children|] eqn:E;
      [|contradiction].
    destruct (resetMonitoring_returned Math_random Number_toString a children E) as (a' & R & _ & H2 & _).
    pose proof (resetMonitoring_fields Math_random Number_toString a)
      as (_ & _ & F3 & _ & F5).
    rewrite R in *. cbn [state_of] in *.
    apply ai_panel_synced_iff. rewrite F3, F5. exact H2.
Qed.

(** X4 -- On a page without the alerts container, [resetMonitoring()] ends
    with a [TypeError] part of the way through.  By then it has put the
    attack flag, the monitoring flag and the score at their defaults, cleared
    the stored interval and, on a page with a chart, destroyed the chart and,
    where the canvas exists, drawn a new one from twenty new random points.
    What follows the failing line is not reached: the AI panel and the E91
    panel keep the text they had, and no notice is shown. *)
Theorem resetMonitoring_without_container :
  forall a : App,
    security_alerts (document a) = None ->
    exists a' : App,
      resetMonitoring Math_random Number_toString a = Thrown TypeError a' /\
      isUnderAttack (currentState a') = false /\
      monitoringActive (currentState a') = false /\
      anomalyScore (currentState a') = 0.1%float /\
      timers a' =
        match monitoringInterval a with
        | Some id =>
            if Nat.eqb id 0 then timers a
            else filter (fun '(i, _) => negb (Nat.eqb i id)) (timers a)
        | None => timers a
        end /\
      match qberChart (currentState a) with
      | Some _ =>
          if qber_chart_canvas (document a) then
            qberChart (currentState a') =
              Some {| labels := map (fun i => Z.of_nat i + 1)%Z (seq 0 20);
                      dataset_data :=
                        map (fun i =>
                               0.02 + Math_random (random_calls a + i) * 0.01)%float
                            (seq 0 20);
                      threshold_data := repeat 0.11%float 20 |} /\
            random_calls a' = (random_calls a + 20)%nat
          else
            qberChart (currentState a') = None /\
            random_calls a' = random_calls a
      | None =>
          qberChart (currentState a') = None /\
          random_calls a' = random_calls a
      end /\
      ai_panel (document a') = ai_panel (document a) /\
      e91_panel (document a') = e91_panel (document a) /\
      notices (document a') = notices (document a).
Proof.
  intros a Hc.
  unfold resetMonitoring, initializeQBERChart, clearInterval.
  cbn [currentState document monitoringInterval with_state with_document
       set_timers set_monitoringActive set_isUnderAttack set_anomalyScore
       set_qberChart qberChart].
  destruct (monitoringInterval a) as [id|]; [destruct (Nat.eqb id 0)|];
    cbn [currentState document monitoringInterval with_state with_document
         set_timers set_monitoringActive set_isUnderAttack set_anomalyScore
         set_qberChart qberChart];
    destruct (qberChart (currentState a)) eqn:Eq;
    cbn [currentState document monitoringInterval with_state with_document
         set_timers set_monitoringActive set_isUnderAttack set_anomalyScore
         set_qberChart qberChart];
    try destruct (qber_chart_canvas (document a));
    cbn [negb currentState document monitoringInterval with_state
         with_document set_timers set_monitoringActive set_isUnderAttack
         set_anomalyScore set_qberChart qberChart bump_random];
    rewrite Hc; eexists; (split; [reflexivity|]); repeat split;
    cbn [currentState with_state set_timers set_monitoringActive
         set_isUnderAttack set_anomalyScore qberChart]; exact Eq.
Qed.

(** X5 -- On a page that has the alerts container, both resets return and
    leave the E91 panel showing the normal profile (its pair counts, its
    QBER to two decimals and its threat level), whatever the attack flag and
    the panel were before. *)
Theorem resets_show_normal_profile :
  forall a : App,
    security_alerts (document a) <> None ->
    (exists a1 : App,
       resetMonitoring Math_random Number_toString a = Returned a1 /\
       e91_panel (document a1) =
         e91_panel_of Number_toString (normal_operation (data a))) /\
    (exists a2 : App,
       resetCompleteDemo Math_random Number_toString a = Returned a2 /\
       e91_panel (document a2) =
         e91_panel_of Number_toString (normal_operation (data a))).
Proof.
  intros a Hc. split.
  - destruct (security_alerts (document a)) as [children|] eqn:E;
      [|contradiction].
    destruct (resetMonitoring_returned Math_random Number_toString a children E) as (a' & R & _ & _ & H).
    exists a'. auto.
  - destruct (resetCompleteDemo_returned a Hc) as (a' & R & _ & _ & _ & _ & H).
    exists a'. auto.
Qed.

(** X6 -- [triggerAnomaly()] and [simulateEavesdropping()] leave the same
    [currentState] (attack flag raised, score 2.5), but they differ on the
    page: the simulated attack leaves the alert log as it was and rewrites
    the E91 panel, the triggered anomaly leaves the E91 panel as it was and,
    on a page with the container, puts an alert of class "alert alert-error"
    first in the log. *)
Theorem triggerAnomaly_versus_simulateEavesdropping :
  forall (a : App) (children : list AlertElement),
    security_alerts (document a) = Some children ->
    let t := triggerAnomaly toLocaleTimeString Number_toString a in
    let s := simulateEavesdropping Number_toString a in
    currentState t = currentState s /\
    recentAlerts s = children /\
    hd_error (recentAlerts t) =
      Some {| className := "alert alert-error";
              alert_time := toLocaleTimeString (clock_reads a);
              alert_message :=
                "CRITICAL: Anomaly detected - possible eavesdropping attempt!" |} /\
    e91_panel (document t) = e91_panel (document a) /\
    e91_panel (document s) =
      [entangled_pairs (document a);
       Z_to_string (matching_pairs (under_attack (data a)));
       toFixed Number_toString (qber (under_attack (data a))) 2;
       "qber-critical"; "HIGH"; "status status--error"].
Proof.
  intros a children Hc t s. repeat split.
  - unfold t. rewrite triggerAnomaly_state. reflexivity.
  - unfold s, recentAlerts. cbn. rewrite Hc. reflexivity.
  - unfold t, triggerAnomaly.
    change (recentAlerts (showAlert ?m ?ty ?x)) with (recentAlerts x).
    erewrite addSecurityAlert_log by (cbn; exact Hc). reflexivity.
  - unfold t, triggerAnomaly.
    change (document (showAlert ?m ?ty ?x)) with (add_notice
      {| notice_class := "alert alert-" ++ ty; notice_message := m |}
      (document x)).
    change (e91_panel (add_notice ?n ?d)) with (e91_panel d).
    rewrite addSecurityAlert_e91_panel. reflexivity.
Qed.

(** *** Intervals across resets *)

Lemma resetMonitoring_timers a :
  timers (state_of (resetMonitoring Math_random Number_toString a)) =
  match monitoringInterval a with
  | Some id =>
      if Nat.eqb id 0 then timers a
      else filter (fun '(i, _) => negb (Nat.eqb i id)) (timers a)
  | None => timers a
  end.
Proof. reset_cases a; reflexivity. Qed.

Lemma find_timer_app id ts1 ts2 :
  find_timer id (ts1 ++ ts2)%list =
  match find_timer id ts1 with
  | Some t => Some t
  | None => find_timer id ts2
  end.
Proof.
  induction ts1 as [|[i t] ts1 IH]; simpl; [reflexivity|].
  destruct (Nat.eqb i id); [reflexivity|exact IH].
Qed.

Lemma find_timer_filter_same id ts :
  find_timer id (filter (fun '(i, _) => negb (Nat.eqb i id)) ts) = None.
Proof.
  induction ts as [|[i t] ts IH]; simpl; [reflexivity|].
  destruct (Nat.eqb i id) eqn:E; simpl; [exact IH|].
  rewrite E. exact IH.
Qed.

Lemma find_timer_filter_other id id0 ts :
  id0 <> id ->
  find_timer id (filter (fun '(i, _) => negb (Nat.eqb i id0)) ts) =
  find_timer id ts.
Proof.
  intros Hne. induction ts as [|[i t] ts IH]; simpl; [reflexivity|].
  destruct (Nat.eqb i id0) eqn:E0; simpl.
  - apply Nat.eqb_eq in E0. subst i.
    assert (E : Nat.eqb id0 id = false) by (apply Nat.eqb_neq; exact Hne).
    rewrite E. exact IH.
  - destruct (Nat.eqb i id); [reflexivity|exact IH].
Qed.

Lemma addSecurityAlert_timers message type a :
  timers (addSecurityAlert toLocaleTimeString message type a) = timers a /\
  next_timer (addSecurityAlert toLocaleTimeString message type a) = next_timer a /\
  monitoringInterval (addSecurityAlert toLocaleTimeString message type a) =
    monitoringInterval a.
Proof.
  unfold addSecurityAlert. destruct (security_alerts (document a)); auto.
Qed.

(** With a chart on the page, [startAIMonitoring] adds an interval under
    the next handle and remembers that handle only. *)
Lemma startAIMonitoring_timers a chart :
  qberChart (currentState a) = Some chart ->
  timers (startAIMonitoring toLocaleTimeString a) =
    (timers a ++ [(next_timer a, MonitoringTimer)])%list /\
  next_timer (startAIMonitoring toLocaleTimeString a) = S (next_timer a) /\
  monitoringInterval (startAIMonitoring toLocaleTimeString a) =
    Some (next_timer a).
Proof.
  intros Hc. unfold startAIMonitoring.
  change (timers (showAlert ?m ?t ?x)) with (timers x).
  change (next_timer (showAlert ?m ?t ?x)) with (next_timer x).
  change (monitoringInterval (showAlert ?m ?t ?x)) with (monitoringInterval x).
  match goal with |- context [addSecurityAlert _ ?m ?t ?x] =>
    destruct (addSecurityAlert_timers m t x) as (-> & -> & ->) end.
  cbn [currentState with_state set_monitoringActive qberChart].
  rewrite Hc. auto.
Qed.

(** X7 -- Starting monitoring twice loses an interval: with a chart on the
    page and the next handle unused, the second [startAIMonitoring()]
    overwrites the stored handle, so that the [resetMonitoring()] that
    follows clears the second interval only and the first stays scheduled. *)
Theorem second_start_leaks_first_interval :
  forall (a : App) (chart : Chart),
    qberChart (currentState a) = Some chart ->
    find_timer (next_timer a) (timers a) = None ->
    let a2 :=
      startAIMonitoring toLocaleTimeString
        (startAIMonitoring toLocaleTimeString a) in
    let a3 := state_of (resetMonitoring Math_random Number_toString a2) in
    monitoringInterval a2 = Some (S (next_timer a)) /\
    find_timer (next_timer a) (timers a3) = Some MonitoringTimer /\
    find_timer (S (next_timer a)) (timers a3) = None.
Proof.
  intros a chart Hc Hfresh a2 a3.
  destruct (startAIMonitoring_timers a chart Hc) as (T1 & N1 & M1).
  assert (Hc1 : qberChart (currentState (startAIMonitoring toLocaleTimeString a))
                = Some chart)
    by (rewrite startAIMonitoring_state; exact Hc).
  destruct (startAIMonitoring_timers _ chart Hc1) as (T2 & N2 & M2).
  fold a2 in T2, N2, M2. rewrite T1, N1 in T2. rewrite N1 in M2.
  split; [exact M2|].
  unfold a3. rewrite resetMonitoring_timers, M2, T2. cbn [Nat.eqb].
  split.
  - rewrite find_timer_filter_other by lia.
    rewrite !find_timer_app, Hfresh. cbn [find_timer].
    rewrite Nat.eqb_refl. reflexivity.
  - apply find_timer_filter_same.
Qed.

(** X8 -- [resetCompleteDemo()] always leaves the attack flag down, the
    score at 0.1, [e91Active] false, the alert log empty and the key field
    at "-".  It clears [monitoringActive] only through [resetMonitoring()],
    that is only when the page has a chart: without a chart the flag is left
    as it was.  It never clears the interval of a key exchange, which stays
    scheduled with its progress and its bits. *)
Theorem resetCompleteDemo_effects :
  forall a : App,
    let a' := state_of (resetCompleteDemo Math_random Number_toString a) in
    isUnderAttack (currentState a') = false /\
    anomalyScore (currentState a') = 0.1%float /\
    e91Active (currentState a') = false /\
    recentAlerts a' = [] /\
    quantum_key (document a') = "-" /\
    monitoringActive (currentState a') =
      match qberChart (currentState a) with
      | Some _ => false
      | None => monitoringActive (currentState a)
      end /\
    (forall id progress generatedKey,
       find_timer id (timers a) = Some (E91Timer progress generatedKey) ->
       monitoringInterval a <> Some id ->
       find_timer id (timers a') = Some (E91Timer progress generatedKey)).
Proof.
  intros a a'. unfold a', resetCompleteDemo.
  set (a0 := with_document (set_key_progress_width 0%float) _).
  set (a1 := match security_alerts (document a0) with
             | Some _ => with_document (set_security_alerts (Some [])) a0
             | None => a0 end).
  assert (H1 : currentState a1 = currentState a0 /\
               recentAlerts a1 = [] /\
               quantum_key (document a1) = "-" /\
               timers a1 = timers a /\
               monitoringInterval a1 = monitoringInterval a).
  { unfold a1, recentAlerts.
    destruct (security_alerts (document a0)) eqn:E.
    - repeat split.
    - rewrite E. repeat split. }
  destruct H1 as (Hs1 & Hl1 & Hk1 & Ht1 & Hm1).
  rewrite Hs1.
  change (qberChart (currentState a0)) with (qberChart (currentState a)).
  assert (Hshow : forall m t x,
            currentState (showAlert m t x) = currentState x /\
            recentAlerts (showAlert m t x) = recentAlerts x /\
            quantum_key (document (showAlert m t x)) = quantum_key (document x) /\
            timers (showAlert m t x) = timers x)
    by (intros; repeat split).
  destruct (qberChart (currentState a)) eqn:Eq.
  - pose proof (resetMonitoring_fields Math_random Number_toString a1)
      as (F1 & F2 & F3 & F4 & _).
    pose proof (resetMonitoring_frame a1) as (G1 & _ & G3 & _).
    assert (Gt : forall id progress generatedKey,
               find_timer id (timers a) = Some (E91Timer progress generatedKey) ->
               monitoringInterval a <> Some id ->
               find_timer id
                 (timers (state_of
                    (resetMonitoring Math_random Number_toString a1)))
               = Some (E91Timer progress generatedKey)).
    { intros id p k Hf Hne. apply resetMonitoring_timer.
      - rewrite Ht1. exact Hf.
      - rewrite Hm1. exact Hne. }
    rewrite Hs1 in G1. rewrite Hk1 in G3.
    destruct (resetMonitoring Math_random Number_toString a1) as [r|e r];
      cbn [state_of] in *.
    + destruct (Hshow "Complete demonstration reset successfully!" "success" r)
        as (-> & -> & -> & ->).
      split; [exact F1|]. split; [exact F3|]. split; [exact G1|].
      split; [exact F4|]. split; [exact G3|]. split; [exact F2|]. exact Gt.
    + split; [exact F1|]. split; [exact F3|]. split; [exact G1|].
      split; [exact F4|]. split; [exact G3|]. split; [exact F2|]. exact Gt.
  - cbn [state_of].
    destruct (Hshow "Complete demonstration reset successfully!" "success" a1)
      as (-> & -> & -> & ->).
    rewrite Hs1.
    split; [reflexivity|]. split; [reflexivity|]. split; [reflexivity|].
    split; [exact Hl1|]. split; [exact Hk1|]. split; [reflexivity|].
    intros id p k Hf _. rewrite Ht1. exact Hf.
Qed.

End PanelsAndResets.

(* ===================================================================== *)
(** ** Rounding of a positive value, normal or not *)
(* ===================================================================== *)

Section RoundingAnyResult.

Local Open Scope Z_scope.

Lemma fexp_eq (x : Z) : fexp prec emax x = Z.max (x - 53) (-1074).
Proof. unfold fexp, SpecFloat.emin, prec, emax. lia. Qed.

Lemma shr_fexp_any (mz : positive) (c : Z) :
  let et := Z.max (dig mz + c - 53) (-1074) in
  c <= et ->
  exists mrs : shr_record,
    shr_fexp prec emax (Zpos mz) c loc_Exact = (mrs, et) /\
    shr_m mrs = Zpos mz / 2 ^ (et - c) /\
    (Zpos mz mod 2 ^ (et - c) = 0 -> loc_of_shr_record mrs = loc_Exact).
Proof.
  intros et He. unfold shr_fexp.
  change (Zdigits2 (Zpos mz)) with (dig mz).
  rewrite fexp_eq. fold et.
  destruct (et - c) as [|n|n] eqn:En; [| |lia].
  - eexists. split; [simpl; f_equal; lia|]. simpl. rewrite Z.div_1_r. auto.
  - unfold shr. rewrite iter_pos_nat. cbn [shr_record_of_loc].
    destruct (shr_iter (Pos.to_nat n) (Zpos mz) ltac:(lia)) as [H1 H2].
    rewrite positive_nat_Z in H1, H2.
    eexists. split; [f_equal; lia|]. split; [exact H1|].
    intros H0. destruct (H2 H0) as [Hr Hs].
    destruct (Nat.iter _ _ _) as [m r s]. simpl in *. subst. reflexivity.
Qed.

Lemma binary_round_aux_any (mz : positive) (c : Z) :
  let et := Z.max (dig mz + c - 53) (-1074) in
  c <= et ->
  let q := Zpos mz / 2 ^ (et - c) in
  exists m1 : Z,
    q <= m1 <= q + 1 /\
    (Zpos mz mod 2 ^ (et - c) = 0 -> m1 = q) /\
    0 <= q < 2 ^ 53 /\
    (-1074 < et -> 2 ^ 52 <= q) /\
    binary_round_aux prec emax false (Zpos mz) c loc_Exact = rounded m1 et.
Proof.
  intros et He q.
  destruct (shr_fexp_any mz c He) as (mrs & E1 & Hm & Hl).
  fold et in E1, Hm, Hl. fold q in Hm.
  set (n := et - c) in *.
  assert (Hn : 0 <= n) by (unfold n; lia).
  assert (Hpn : 0 < 2 ^ n) by (apply Z.pow_pos_nonneg; lia).
  pose proof (dig_bounds mz) as [B1 B2]. pose proof (dig_pos mz) as Hdp.
  assert (Hq : 0 <= q < 2 ^ 53).
  { unfold q. split; [apply Z.div_pos; lia|].
    apply Z.div_lt_upper_bound; [lia|].
    assert (2 ^ dig mz <= 2 ^ (n + 53)) by (apply Z.pow_le_mono_r; unfold n, et; lia).
    rewrite Z.pow_add_r in H by lia. lia. }
  assert (Hqn : -1074 < et -> 2 ^ 52 <= q).
  { intros Hnorm. unfold q. apply Z.div_le_lower_bound; [lia|].
    assert (En : dig mz - 1 = 52 + n) by (unfold n, et in *; lia).
    rewrite En, Z.pow_add_r in B1 by lia. lia. }
  pose proof (round_nearest_even_bounds q (loc_of_shr_record mrs)) as Hr.
  exists (round_nearest_even q (loc_of_shr_record mrs)).
  split; [exact Hr|]. split.
  { intros H0. rewrite (Hl H0). simpl. reflexivity. }
  split; [exact Hq|]. split; [exact Hqn|].
  unfold binary_round_aux. rewrite E1, Hm.
  destruct (round_nearest_even q (loc_of_shr_record mrs)) as [|m1|m1] eqn:Em1;
    [| |lia].
  - unfold shr_fexp. simpl Zdigits2. rewrite fexp_eq.
    assert (E0 : Z.max (0 + et - 53) (-1074) - et <= 0) by (unfold et; lia).
    unfold shr. destruct (Z.max (0 + et - 53) (-1074) - et); [reflexivity|lia|reflexivity].
  - unfold rounded. destruct (Zpos m1 <? 2 ^ 53) eqn:Hlt.
    + apply Z.ltb_lt in Hlt.
      assert (Hd1 : dig m1 <= 53).
      { pose proof (dig_bounds m1) as [D1 _].
        assert (dig m1 - 1 < 53) by (apply pow2_lt_inv; lia). lia. }
      assert (Hd2 : -1074 < et -> dig m1 = 53).
      { intros Hnorm. apply dig_unique. specialize (Hqn Hnorm). lia. }
      unfold shr_fexp. change (Zdigits2 (Zpos m1)) with (dig m1).
      rewrite fexp_eq.
      assert (E0 : Z.max (dig m1 + et - 53) (-1074) - et = 0) by (unfold et in *; lia).
      rewrite E0. simpl. unfold finite_or_inf. reflexivity.
    + apply Z.ltb_ge in Hlt.
      assert (Hm1 : Zpos m1 = 2 ^ 53) by lia.
      assert (Hd1 : dig m1 = 54) by (apply dig_unique; lia).
      unfold shr_fexp. change (Zdigits2 (Zpos m1)) with (dig m1).
      rewrite Hd1, fexp_eq.
      assert (Het : -1074 <= et) by (unfold et; lia).
      replace (Z.max (54 + et - 53) (-1074) - et) with 1 by lia.
      change (2 ^ 53) with 9007199254740992 in Hm1. injection Hm1 as ->.
      simpl. unfold finite_or_inf. reflexivity.
Qed.

Lemma SFleb_zero_rounded (m1 et : Z) :
  0 <= m1 -> SFleb (S754_zero false) (rounded m1 et) = true.
Proof.
  intros H. unfold rounded, finite_or_inf. destruct m1 as [|m|m]; [reflexivity| |lia].
  destruct (Zpos m <? 2 ^ 53); [destruct (et <=? 971)|destruct (et + 1 <=? 971)];
    reflexivity.
Qed.

Lemma SFleb_rounded_l (m1 et : Z) (mb : positive) (eb : Z) :
  0 <= m1 <= 2 ^ 53 -> dig mb = 53 -> eb <= 971 ->
  et < eb \/ (et = eb /\ m1 <= Zpos mb) ->
  SFleb (rounded m1 et) (S754_finite false mb eb) = true.
Proof.
  intros Hm Hd Heb H. pose proof (dig_bounds mb) as [D1 D2]. rewrite Hd in D1, D2.
  unfold rounded. destruct m1 as [|m|m]; [reflexivity| |lia].
  destruct (Zpos m <? 2 ^ 53) eqn:Hlt.
  - apply SFleb_finite_or_inf_l; [exact Heb|exact H].
  - apply Z.ltb_ge in Hlt. apply SFleb_finite_or_inf_l; [exact Heb|].
    destruct H as [H|[_ H]]; [|lia].
    destruct (Z.eq_dec (et + 1) eb); [right|left; lia].
    split; [assumption|]. change (2 ^ (53 - 1)) with 4503599627370496 in D1. lia.
Qed.

Lemma SFleb_rounded_r (m1 et : Z) (mb : positive) (eb : Z) :
  0 < m1 ->
  eb < et \/ (eb = et /\ Zpos mb <= m1) ->
  SFleb (S754_finite false mb eb) (rounded m1 et) = true.
Proof.
  intros Hm H. unfold rounded. destruct m1 as [|m|m]; [lia| |lia].
  destruct (Zpos m <? 2 ^ 53) eqn:Hlt; apply SFleb_finite_or_inf_r.
  - exact H.
  - left. lia.
Qed.

(** Rounding a positive value: never above a binary64 number it is not
    above, whether the result is normal or not. *)
Lemma binary_round_aux_le (mz : positive) (c : Z) (mb : positive) (eb : Z) :
  c <= Z.max (dig mz + c - 53) (-1074) -> -1200 <= c ->
  dig mb = 53 -> -1074 <= eb <= 971 ->
  val mz c <= val mb eb ->
  SFleb (binary_round_aux prec emax false (Zpos mz) c loc_Exact)
        (S754_finite false mb eb) = true.
Proof.
  intros He Hc Hdb Heb Hv.
  destruct (binary_round_aux_any mz c He) as (m1 & Hm1 & Hex & Hq & _ & ->).
  set (et := Z.max (dig mz + c - 53) (-1074)) in *.
  set (n := et - c) in *.
  assert (Hn : 0 <= n) by (unfold n; lia).
  assert (Hpn : 0 < 2 ^ n) by (apply Z.pow_pos_nonneg; lia).
  pose proof (val_bounds mb eb ltac:(lia)) as [Bb1 Bb2].
  pose proof (val_bounds mz c Hc) as [Bp1 Bp2].
  pose proof (dig_pos mz) as Hdp.
  assert (Het : et <= eb).
  { assert (dig mz - 1 + (c + 1200) < dig mb + (eb + 1200))
      by (apply pow2_lt_inv; lia). unfold et. lia. }
  apply SFleb_rounded_l; [lia|exact Hdb|lia|].
  destruct (Z_lt_le_dec et eb) as [Hlt|Hge]; [left; exact Hlt|right].
  assert (E : eb = et) by lia. split; [lia|].
  assert (Hle : Zpos mz <= Zpos mb * 2 ^ n).
  { unfold val in Hv. rewrite E in Hv.
    replace (et + 1200) with (n + (c + 1200)) in Hv by (unfold n; lia).
    rewrite (Z.pow_add_r 2 n (c + 1200)), Z.mul_assoc in Hv by lia.
    apply Z.mul_le_mono_pos_r in Hv; [exact Hv|].
    apply Z.pow_pos_nonneg; lia. }
  assert (Hqle : Zpos mz / 2 ^ n <= Zpos mb).
  { apply Z.div_le_upper_bound; lia. }
  destruct (Z.eq_dec (Zpos mz / 2 ^ n) (Zpos mb)) as [Heq|Hne]; [|lia].
  assert (Hmod : Zpos mz mod 2 ^ n = 0).
  { pose proof (Z.div_mod (Zpos mz) (2 ^ n) ltac:(lia)) as Hdm.
    pose proof (Z.mod_pos_bound (Zpos mz) (2 ^ n) Hpn) as Hmb.
    rewrite Heq in Hdm. lia. }
  rewrite (Hex Hmod). exact Hqle.
Qed.

(** Rounding a positive value: never below a binary64 number it is not
    below. *)
Lemma binary_round_aux_ge (mz : positive) (c : Z) (mb : positive) (eb : Z) :
  c <= Z.max (dig mz + c - 53) (-1074) -> -1200 <= c ->
  dig mb = 53 -> -1074 <= eb ->
  val mb eb <= val mz c ->
  SFleb (S754_finite false mb eb)
        (binary_round_aux prec emax false (Zpos mz) c loc_Exact) = true.
Proof.
  intros He Hc Hdb Heb Hv.
  destruct (binary_round_aux_any mz c He) as (m1 & Hm1 & Hex & Hq & Hqn & ->).
  set (et := Z.max (dig mz + c - 53) (-1074)) in *.
  set (n := et - c) in *.
  assert (Hn : 0 <= n) by (unfold n; lia).
  assert (Hpn : 0 < 2 ^ n) by (apply Z.pow_pos_nonneg; lia).
  pose proof (val_bounds mb eb ltac:(lia)) as [Bb1 Bb2].
  pose proof (val_bounds mz c Hc) as [Bp1 Bp2].
  pose proof (dig_bounds mb) as [Db1 Db2]. rewrite Hdb in Db1, Db2.
  pose proof (dig_pos mz) as Hdp.
  assert (Het : eb <= et).
  { assert (dig mb - 1 + (eb + 1200) < dig mz + (c + 1200))
      by (apply pow2_lt_inv; lia). unfold et. lia. }
  destruct (Z_lt_le_dec eb et) as [Hlt|Hge].
  - apply SFleb_rounded_r; [|left; exact Hlt].
    assert (2 ^ 52 <= Zpos mz / 2 ^ n) by (apply Hqn; lia). lia.
  - assert (E : eb = et) by lia.
    assert (Hle : Zpos mb * 2 ^ n <= Zpos mz).
    { unfold val in Hv. rewrite E in Hv.
      replace (et + 1200) with (n + (c + 1200)) in Hv by (unfold n; lia).
      rewrite (Z.pow_add_r 2 n (c + 1200)), Z.mul_assoc in Hv by lia.
      apply Z.mul_le_mono_pos_r in Hv; [exact Hv|].
      apply Z.pow_pos_nonneg; lia. }
    assert (Zpos mb <= Zpos mz / 2 ^ n).
    { apply Z.div_le_lower_bound; lia. }
    apply SFleb_rounded_r; [lia|right; split; [exact E|lia]].
Qed.

Lemma binary_round_aligned (p : positive) (ez : Z) :
  exists (mz : positive) (c : Z),
    binary_round prec emax false p ez =
      binary_round_aux prec emax false (Zpos mz) c loc_Exact /\
    c <= Z.max (dig mz + c - 53) (-1074) /\
    c <= ez /\ (c = ez \/ -1074 <= c) /\
    Zpos mz = Zpos p * 2 ^ (ez - c).
Proof.
  unfold binary_round.
  change (Zpos (digits2_pos p)) with (dig p).
  rewrite fexp_eq. unfold shl_align.
  destruct (Z.max (dig p + ez - 53) (-1074) - ez) as [|d|d] eqn:Ed.
  - exists p, ez. replace (ez - ez) with 0 by lia. simpl Z.pow.
    repeat split; try lia; auto.
  - exists p, ez. replace (ez - ez) with 0 by lia. simpl Z.pow.
    repeat split; try lia; auto.
  - exists (Pos.iter xO p d), (Z.max (dig p + ez - 53) (-1074)).
    rewrite dig_iter_xO, iter_xO.
    replace (ez - Z.max (dig p + ez - 53) (-1074)) with (Zpos d) by lia.
    repeat split; try lia; auto.
Qed.

Lemma binary_round_le_any (p : positive) (ez : Z) (mb : positive) (eb : Z) :
  dig mb = 53 -> -1074 <= eb <= 971 -> -1200 <= ez ->
  val p ez <= val mb eb ->
  SFleb (binary_round prec emax false p ez) (S754_finite false mb eb) = true.
Proof.
  intros Hdb Heb Hez Hv.
  destruct (binary_round_aligned p ez) as (mz & c & -> & Hc & Hcez & Hcc & Emz).
  assert (Hc' : -1200 <= c) by lia.
  apply binary_round_aux_le; try assumption.
  rewrite (val_shift p ez c mz Hc' Hcez Emz). exact Hv.
Qed.

Lemma binary_round_ge_any (p : positive) (ez : Z) (mb : positive) (eb : Z) :
  dig mb = 53 -> -1074 <= eb -> -1200 <= ez ->
  val mb eb <= val p ez ->
  SFleb (S754_finite false mb eb) (binary_round prec emax false p ez) = true.
Proof.
  intros Hdb Heb Hez Hv.
  destruct (binary_round_aligned p ez) as (mz & c & -> & Hc & Hcez & Hcc & Emz).
  assert (Hc' : -1200 <= c) by lia.
  apply binary_round_aux_ge; try assumption.
  rewrite (val_shift p ez c mz Hc' Hcez Emz). exact Hv.
Qed.

End RoundingAnyResult.

(* ===================================================================== *)
(** ** Comparisons and values *)
(* ===================================================================== *)

Ltac plain_cases C HC :=
  unfold plain, value_of in *;
  destruct (Prim2SF C) as [[|]|[|]| |[|] mC eC] eqn:EC; try discriminate HC;
  [|apply andb_prop in HC; destruct HC as [HC HC3];
    apply andb_prop in HC; destruct HC as [HC1 HC2];
    apply Z.eqb_eq in HC1; apply Z.leb_le in HC2; apply Z.leb_le in HC3].

Section Values.

Local Open Scope Z_scope.

Lemma valid_canon (s : bool) (m : positive) (e : Z) :
  valid_binary (S754_finite s m e) = true -> canon m e.
Proof.
  unfold SpecFloat.valid_binary, bounded, canonical_mantissa.
  intros H. apply andb_prop in H. destruct H as [H1 H2].
  apply Z.eqb_eq in H1. apply Z.leb_le in H2.
  rewrite fexp_eq in H1. change (Zpos (digits2_pos m)) with (dig m) in H1.
  unfold prec, emax in H2. unfold canon. lia.
Qed.

Lemma val_pos (m : positive) (e : Z) : -1200 <= e -> 0 < val m e.
Proof.
  intros H. unfold val. apply Z.mul_pos_pos; [lia|].
  apply Z.pow_pos_nonneg; lia.
Qed.

Lemma lex_val_canon (m1 : positive) (e1 : Z) (m2 : positive) (e2 : Z) :
  dig m1 <= 53 -> -1200 <= e1 -> (e1 < e2 -> dig m2 = 53) ->
  e1 < e2 \/ (e1 = e2 /\ Zpos m1 <= Zpos m2) -> val m1 e1 <= val m2 e2.
Proof.
  intros D1 H1 D2 [H|[-> H]].
  - pose proof (val_bounds m1 e1 H1) as [_ B1].
    pose proof (val_bounds m2 e2 ltac:(lia)) as [B2 _].
    rewrite (D2 H) in B2. pose proof (dig_pos m1).
    assert (2 ^ (dig m1 + (e1 + 1200)) <= 2 ^ (53 - 1 + (e2 + 1200)))
      by (apply Z.pow_le_mono_r; lia).
    lia.
  - unfold val. apply Z.mul_le_mono_nonneg_r; [|exact H].
    apply Z.pow_nonneg. lia.
Qed.

Lemma val_lex_canon (m1 : positive) (e1 : Z) (m2 : positive) (e2 : Z) :
  canon m1 e1 -> dig m2 <= 53 -> -1074 <= e2 ->
  val m1 e1 <= val m2 e2 -> e1 < e2 \/ (e1 = e2 /\ Zpos m1 <= Zpos m2).
Proof.
  intros (D1 & E1 & N1) D2 E2 Hv.
  destruct (Z_lt_le_dec e1 e2) as [|Hge]; [left; assumption|].
  destruct (Z.eq_dec e1 e2) as [->|Hne].
  - right. split; [reflexivity|]. unfold val in Hv.
    apply Z.mul_le_mono_pos_r in Hv; [exact Hv|]. apply Z.pow_pos_nonneg; lia.
  - exfalso.
    pose proof (val_bounds m1 e1 ltac:(lia)) as [B1 _].
    pose proof (val_bounds m2 e2 ltac:(lia)) as [_ B2].
    rewrite (N1 ltac:(lia)) in B1. pose proof (dig_pos m2).
    assert (2 ^ (dig m2 + (e2 + 1200)) <= 2 ^ (53 - 1 + (e1 + 1200)))
      by (apply Z.pow_le_mono_r; lia).
    lia.
Qed.

Lemma SFltb_finite_inv (m1 : positive) (e1 : Z) (m2 : positive) (e2 : Z) :
  SFltb (S754_finite false m1 e1) (S754_finite false m2 e2) = true ->
  e1 < e2 \/ (e1 = e2 /\ Zpos m1 < Zpos m2).
Proof.
  unfold SFltb, SFcompare.
  destruct (Z.compare_spec e1 e2) as [E|E|E]; [|auto|discriminate].
  change (PosDef.Pos.compare_cont Eq m1 m2) with (Pos.compare m1 m2).
  destruct (Pos.compare_spec m1 m2); try discriminate; intros _; right; split; lia.
Qed.

Lemma SFleb_finite_intro (m1 : positive) (e1 : Z) (m2 : positive) (e2 : Z) :
  e1 < e2 \/ (e1 = e2 /\ Zpos m1 <= Zpos m2) ->
  SFleb (S754_finite false m1 e1) (S754_finite false m2 e2) = true.
Proof.
  intros H. unfold SFleb, SFcompare. destruct H as [H|[-> H]].
  - rewrite (proj2 (Z.compare_lt_iff e1 e2) H). reflexivity.
  - rewrite Z.compare_refl.
    change (PosDef.Pos.compare_cont Eq m1 m2) with (Pos.compare m1 m2).
    destruct (Pos.compare_spec m1 m2); try reflexivity. lia.
Qed.

(** *** Between comparisons and values *)

Lemma at_least_sf_leb (C : float) (z : spec_float) :
  plain C = true -> valid_binary z = true ->
  at_least_sf (value_of C) z -> SFleb (Prim2SF C) z = true.
Proof.
  intros HC Hv H. plain_cases C HC.
  - destruct z as [s|[|]| |[|] m e]; simpl in H; try contradiction; reflexivity.
  - pose proof (val_pos mC eC ltac:(lia)).
    destruct z as [s|[|]| |[|] m e]; simpl in H; try contradiction;
      try reflexivity; [lia|].
    apply valid_canon in Hv. apply SFleb_finite_intro.
    apply val_lex_canon; try assumption.
    + unfold canon. lia.
    + destruct Hv; assumption.
    + destruct Hv as (_ & ? & _). lia.
Qed.

Lemma leb_at_least_sf (C : float) (z : spec_float) :
  plain C = true -> valid_binary z = true ->
  SFleb (Prim2SF C) z = true -> at_least_sf (value_of C) z.
Proof.
  intros HC Hv H. plain_cases C HC.
  - destruct z as [s|[|]| |[|] m e]; simpl; try discriminate H; try exact I;
      [lia|].
    apply valid_canon in Hv. destruct Hv as (_ & ? & _).
    pose proof (val_pos m e ltac:(lia)). lia.
  - destruct z as [s|[|]| |[|] m e]; simpl; try discriminate H; try exact I.
    apply SFleb_finite_inv in H. apply valid_canon in Hv.
    destruct Hv as (D & E & N).
    apply lex_val_canon; try assumption; lia.
Qed.

Lemma at_most_sf_leb (C : float) (z : spec_float) :
  plain C = true -> valid_binary z = true ->
  at_most_sf (value_of C) z -> SFleb z (Prim2SF C) = true.
Proof.
  intros HC Hv H. plain_cases C HC.
  - destruct z as [s|[|]| |[|] m e]; simpl in H; try contradiction;
      try reflexivity.
    apply valid_canon in Hv. destruct Hv as (_ & ? & _).
    pose proof (val_pos m e ltac:(lia)). lia.
  - destruct z as [s|[|]| |[|] m e]; simpl in H; try contradiction;
      try reflexivity.
    apply valid_canon in Hv. apply SFleb_finite_intro.
    apply val_lex_canon; try assumption; lia.
Qed.

Lemma leb_at_most_sf (C : float) (z : spec_float) :
  plain C = true -> valid_binary z = true ->
  SFleb (S754_zero false) z = true -> SFleb z (Prim2SF C) = true ->
  at_most_sf (value_of C) z.
Proof.
  intros HC Hv H0 H. plain_cases C HC.
  - destruct z as [s|[|]| |[|] m e]; simpl; try discriminate H;
      try discriminate H0; lia.
  - pose proof (val_pos mC eC ltac:(lia)).
    destruct z as [s|[|]| |[|] m e]; simpl; try discriminate H;
      try discriminate H0; [lia|].
    apply SFleb_finite_inv in H. apply valid_canon in Hv.
    destruct Hv as (D & E & N).
    apply lex_val_canon; try assumption; try lia.
Qed.

Lemma at_least_leb (C x : float) :
  plain C = true -> at_least (value_of C) x -> (C <=? x)%float = true.
Proof.
  intros HC H. rewrite leb_spec. apply at_least_sf_leb; try assumption.
  apply Prim2SF_valid.
Qed.

Lemma leb_at_least (C x : float) :
  plain C = true -> (C <=? x)%float = true -> at_least (value_of C) x.
Proof.
  intros HC H. rewrite leb_spec in H. apply leb_at_least_sf; try assumption.
  apply Prim2SF_valid.
Qed.

Lemma at_most_leb (C x : float) :
  plain C = true -> at_most (value_of C) x -> (x <=? C)%float = true.
Proof.
  intros HC H. rewrite leb_spec. apply at_most_sf_leb; try assumption.
  apply Prim2SF_valid.
Qed.

Lemma leb_at_most (C x : float) :
  plain C = true -> (0 <=? x)%float = true -> (x <=? C)%float = true ->
  at_most (value_of C) x.
Proof.
  intros HC H0 H. rewrite leb_spec in H0, H.
  apply leb_at_most_sf; try assumption. apply Prim2SF_valid.
Qed.

Lemma at_most_nonneg (v : Z) (x : float) :
  at_most v x -> (0 <=? x)%float = true.
Proof.
  unfold at_most. rewrite leb_spec. change (Prim2SF 0) with (S754_zero false).
  destruct (Prim2SF x) as [s|[|]| |[|] m e]; simpl; try contradiction; reflexivity.
Qed.

Lemma at_most_weaken (u v : Z) (x : float) :
  u <= v -> at_most u x -> at_most v x.
Proof.
  unfold at_most. destruct (Prim2SF x) as [s|[|]| |[|] m e]; simpl; lia.
Qed.

Lemma at_least_weaken (u v : Z) (x : float) :
  v <= u -> at_least u x -> at_least v x.
Proof.
  unfold at_least. destruct (Prim2SF x) as [s|[|]| |[|] m e]; simpl; lia.
Qed.

End Values.

(* ===================================================================== *)
(** ** Bounds on sums, products and differences *)
(* ===================================================================== *)

Section ValueArithmetic.

Local Open Scope Z_scope.

Lemma binary_round_aux_nonneg (mz : positive) (c : Z) :
  c <= Z.max (dig mz + c - 53) (-1074) ->
  SFleb (S754_zero false)
        (binary_round_aux prec emax false (Zpos mz) c loc_Exact) = true.
Proof.
  intros He.
  destruct (binary_round_aux_any mz c He) as (m1 & Hm1 & _ & Hq & _ & ->).
  apply SFleb_zero_rounded. lia.
Qed.

Lemma binary_round_nonneg (p : positive) (ez : Z) :
  SFleb (S754_zero false) (binary_round prec emax false p ez) = true.
Proof.
  destruct (binary_round_aligned p ez) as (mz & c & -> & Hc & _).
  apply binary_round_aux_nonneg. exact Hc.
Qed.

Lemma SFadd_pos (m1 : positive) (e1 : Z) (m2 : positive) (e2 : Z) :
  -1200 <= e1 -> -1200 <= e2 ->
  exists p : positive,
    SFadd prec emax (S754_finite false m1 e1) (S754_finite false m2 e2) =
      binary_round prec emax false p (Z.min e1 e2) /\
    val p (Z.min e1 e2) = val m1 e1 + val m2 e2.
Proof.
  intros H1 H2. unfold SFadd. cbn [cond_Zopp].
  set (ez := Z.min e1 e2).
  pose proof (val_aligned m1 e1 ez ltac:(unfold ez; lia) ltac:(unfold ez; lia)) as V1.
  pose proof (val_aligned m2 e2 ez ltac:(unfold ez; lia) ltac:(unfold ez; lia)) as V2.
  set (a := fst (shl_align m1 e1 ez)) in *.
  set (b := fst (shl_align m2 e2 ez)) in *.
  exists (a + b)%positive. split; [reflexivity|].
  unfold val at 1. rewrite Pos2Z.inj_add, Z.mul_add_distr_r. lia.
Qed.

Lemma SFsub_pos (m1 : positive) (e1 : Z) (m2 : positive) (e2 : Z) :
  -1200 <= e1 -> -1200 <= e2 -> val m2 e2 <= val m1 e1 ->
  SFsub prec emax (S754_finite false m1 e1) (S754_finite false m2 e2) =
    S754_zero false /\ val m1 e1 = val m2 e2 \/
  exists p : positive,
    SFsub prec emax (S754_finite false m1 e1) (S754_finite false m2 e2) =
      binary_round prec emax false p (Z.min e1 e2) /\
    val p (Z.min e1 e2) = val m1 e1 - val m2 e2.
Proof.
  intros H1 H2 Hle. unfold SFsub. cbn [cond_Zopp].
  set (ez := Z.min e1 e2).
  pose proof (val_aligned m1 e1 ez ltac:(unfold ez; lia) ltac:(unfold ez; lia)) as V1.
  pose proof (val_aligned m2 e2 ez ltac:(unfold ez; lia) ltac:(unfold ez; lia)) as V2.
  set (a := fst (shl_align m1 e1 ez)) in *.
  set (b := fst (shl_align m2 e2 ez)) in *.
  assert (Hpos : 0 < 2 ^ (ez + 1200)) by (apply Z.pow_pos_nonneg; unfold ez; lia).
  assert (HD : (Zpos a - Zpos b) * 2 ^ (ez + 1200) = val m1 e1 - val m2 e2)
    by (rewrite Z.mul_sub_distr_r; lia).
  destruct (Zpos a - Zpos b) as [|p|p] eqn:ED; cbn [binary_normalize].
  - left. split; [reflexivity|lia].
  - right. exists p. split; [reflexivity|]. unfold val at 1. exact HD.
  - exfalso.
    assert (Zneg p * 2 ^ (ez + 1200) < 0) by (apply Z.mul_neg_pos; lia).
    lia.
Qed.

Lemma valid_exponent (s : bool) (m : positive) (e : Z) :
  valid_binary (S754_finite s m e) = true -> -1074 <= e <= 971.
Proof. intros H. apply valid_canon in H. destruct H as (_ & H & _). exact H. Qed.

(** A sum of two numbers that are at least [u] and [v] is at least any
    binary64 number that [u + v] is at least. *)
Lemma add_at_least (u v : Z) (x y C : float) :
  at_least u x -> at_least v y -> 0 <= u -> 0 <= v ->
  plain C = true -> value_of C <= u + v -> at_least (value_of C) (x + y).
Proof.
  intros Hx Hy Hu Hv HC Hle. apply leb_at_least; [exact HC|].
  rewrite leb_spec, add_spec. unfold at_least in Hx, Hy.
  pose proof (Prim2SF_valid x) as Vx. pose proof (Prim2SF_valid y) as Vy.
  unfold SF64add.
  plain_cases C HC.
  - destruct (Prim2SF x) as [sx|[|]| |[|] mx ex]; simpl in Hx; try contradiction;
    destruct (Prim2SF y) as [sy|[|]| |[|] my ey]; simpl in Hy; try contradiction;
      try reflexivity.
    + destruct sx, sy; reflexivity.
    + apply valid_exponent in Vx, Vy.
      destruct (SFadd_pos mx ex my ey ltac:(lia) ltac:(lia)) as (p & -> & _).
      apply binary_round_nonneg.
  - pose proof (val_pos mC eC ltac:(lia)) as HpC.
    destruct (Prim2SF x) as [sx|[|]| |[|] mx ex]; simpl in Hx; try contradiction;
    destruct (Prim2SF y) as [sy|[|]| |[|] my ey]; simpl in Hy; try contradiction;
      try reflexivity; try lia.
    + simpl. apply SFleb_finite_intro. apply val_lex_canon.
      * unfold canon. lia.
      * apply valid_canon in Vy. destruct Vy; assumption.
      * apply valid_exponent in Vy. lia.
      * lia.
    + simpl. apply SFleb_finite_intro. apply val_lex_canon.
      * unfold canon. lia.
      * apply valid_canon in Vx. destruct Vx; assumption.
      * apply valid_exponent in Vx. lia.
      * lia.
    + apply valid_exponent in Vx, Vy.
      destruct (SFadd_pos mx ex my ey ltac:(lia) ltac:(lia)) as (p & -> & Hp).
      apply binary_round_ge_any; try assumption; lia.
Qed.

(** A sum of two numbers that are at most [u] and [v] is at most any
    binary64 number that [u + v] is at most. *)
Lemma add_at_most (u v : Z) (x y C : float) :
  at_most u x -> at_most v y ->
  plain C = true -> u + v <= value_of C -> at_most (value_of C) (x + y).
Proof.
  intros Hx Hy HC Hle.
  pose proof (Prim2SF_valid (x + y)) as Vz.
  unfold at_most in *. rewrite add_spec in *.
  pose proof (Prim2SF_valid x) as Vx. pose proof (Prim2SF_valid y) as Vy.
  unfold SF64add in *.
  destruct (Prim2SF x) as [sx|[|]| |[|] mx ex]; simpl in Hx; try contradiction;
  destruct (Prim2SF y) as [sy|[|]| |[|] my ey]; simpl in Hy; try contradiction.
  - destruct sx, sy; simpl; lia.
  - simpl. lia.
  - simpl. lia.
  - apply valid_exponent in Vx, Vy.
    pose proof (val_pos mx ex ltac:(lia)). pose proof (val_pos my ey ltac:(lia)).
    destruct (SFadd_pos mx ex my ey ltac:(lia) ltac:(lia)) as (p & E & Hp).
    rewrite E in *.
    apply leb_at_most_sf; try assumption.
    + apply binary_round_nonneg.
    + plain_cases C HC; [lia|].
      apply binary_round_le_any; try assumption; lia.
Qed.

Lemma dig_mul_ge (a b : positive) : dig b <= dig (a * b).
Proof.
  pose proof (dig_bounds b) as [B1 _]. pose proof (dig_bounds (a * b)) as [_ B2].
  pose proof (dig_pos (a * b)).
  assert (Zpos b <= Zpos (a * b)) by (rewrite Pos2Z.inj_mul; nia).
  assert (dig b - 1 < dig (a * b)) by (apply pow2_lt_inv; lia).
  lia.
Qed.

(** A product of a number that is at most [u] with a positive binary64
    constant below 2^53 is at least zero and at most any binary64 number that
    the product of [u] and the constant is at most. *)
Lemma mul_at_most (u : Z) (x K C : float) (mk : positive) (ek : Z) :
  at_most u x ->
  Prim2SF K = S754_finite false mk ek -> 53 <= dig mk -> -126 <= ek <= 0 ->
  plain C = true -> u * Zpos mk <= value_of C * 2 ^ (- ek) ->
  at_most (value_of C) (x * K).
Proof.
  intros Hx EK Hdk Hek HC Hle.
  pose proof (Prim2SF_valid (x * K)) as Vz.
  unfold at_most in *. rewrite mul_spec in *.
  pose proof (Prim2SF_valid x) as Vx.
  unfold SF64mul in *. rewrite EK in *.
  assert (H2 : 0 < 2 ^ (- ek)) by (apply Z.pow_pos_nonneg; lia).
  destruct (Prim2SF x) as [sx|[|]| |[|] mx ex]; simpl in Hx; try contradiction.
  - simpl. nia.
  - apply valid_exponent in Vx.
    pose proof (val_pos mx ex ltac:(lia)) as Hpx.
    cbn [SFmul xorb] in *.
    pose proof (dig_mul_ge mx mk) as Hd.
    assert (Hc : ex + ek <= Z.max (dig (mx * mk) + (ex + ek) - 53) (-1074)) by lia.
    assert (Hv : val (mx * mk) (ex + ek) * 2 ^ (- ek) = val mx ex * Zpos mk).
    { unfold val. rewrite Pos2Z.inj_mul.
      rewrite <- !Z.mul_assoc, <- (Z.pow_add_r 2 (ex + ek + 1200) (- ek)) by lia.
      replace (ex + ek + 1200 + - ek) with (ex + 1200) by lia. lia. }
    apply leb_at_most_sf; try assumption.
    + apply binary_round_aux_nonneg. exact Hc.
    + plain_cases C HC; [nia|].
      apply binary_round_aux_le; try assumption; try lia.
      apply (Z.mul_le_mono_pos_r _ _ (2 ^ (- ek))); [exact H2|].
      rewrite Hv. nia.
Qed.

(** Taking a positive binary64 constant from a number that is at least the
    constant and at most [u] gives at most any binary64 number that the
    difference of [u] and the constant is at most. *)
Lemma sub_at_most (u : Z) (x Y C : float) (my : positive) (ey : Z) :
  at_most u x -> at_least (val my ey) x ->
  Prim2SF Y = S754_finite false my ey -> -1200 <= ey ->
  plain C = true -> u - val my ey <= value_of C ->
  at_most (value_of C) (x - Y).
Proof.
  intros Hx Hx' EY Hey HC Hle.
  pose proof (Prim2SF_valid (x - Y)) as Vz.
  unfold at_most, at_least in *. rewrite sub_spec in *.
  pose proof (Prim2SF_valid x) as Vx.
  unfold SF64sub in *. rewrite EY in *.
  pose proof (val_pos my ey Hey) as Hpy.
  destruct (Prim2SF x) as [sx|[|]| |[|] mx ex]; simpl in Hx, Hx';
    try contradiction; [lia|].
  apply valid_exponent in Vx.
  destruct (SFsub_pos mx ex my ey ltac:(lia) Hey Hx') as [[E Hv]|(p & E & Hp)];
    rewrite E in *.
  - simpl. lia.
  - apply leb_at_most_sf; try assumption.
    + apply binary_round_nonneg.
    + pose proof (val_pos p (Z.min ex ey) ltac:(lia)).
      plain_cases C HC; [lia|].
      apply binary_round_le_any; try assumption; lia.
Qed.

(** A number that is at least zero and below one is at most the binary64
    number before one. *)
Lemma unit_at_most (r : float) :
  (0 <=? r)%float = true -> (r <? 1)%float = true ->
  at_most ((2 ^ 53 - 1) * 2 ^ 1147) r.
Proof.
  intros H0 H1. rewrite leb_spec in H0. rewrite ltb_spec in H1.
  change (Prim2SF 0) with (S754_zero false) in H0.
  change (Prim2SF 1) with (S754_finite false 4503599627370496 (-52)) in H1.
  pose proof (Prim2SF_valid r) as Vr. unfold at_most.
  destruct (Prim2SF r) as [s|[|]| |[|] m e]; cbn [at_most_sf];
    try discriminate H0; try discriminate H1; [lia|].
  apply valid_canon in Vr. destruct Vr as (D & E & N).
  apply SFltb_finite_inv in H1.
  pose proof (dig_bounds m) as [B1 B2].
  assert (B3 : Zpos m < 2 ^ 53).
  { assert (2 ^ dig m <= 2 ^ 53) by (apply Z.pow_le_mono_r; lia). lia. }
  assert (He : e <= -53).
  { destruct H1 as [H1|[-> H1]]; [lia|exfalso].
    rewrite N in B1 by lia. change (2 ^ (53 - 1)) with 4503599627370496 in B1. lia. }
  unfold val.
  assert (2 ^ (e + 1200) <= 2 ^ 1147) by (apply Z.pow_le_mono_r; lia).
  assert (0 < 2 ^ (e + 1200)) by (apply Z.pow_pos_nonneg; lia).
  nia.
Qed.

(** The floor of a number that is at most [v]. *)
Lemma floorZ_at_most (v : Z) (x : float) :
  at_most v x ->
  exists n : Z, floorZ x = Some n /\ 0 <= n /\ n * 2 ^ 1200 <= v.
Proof.
  intros H. pose proof (Prim2SF_valid x) as Vx. unfold at_most in H.
  unfold floorZ.
  destruct (Prim2SF x) as [s|[|]| |[|] m e]; simpl in H; try contradiction.
  - exists 0. repeat split; lia.
  - apply valid_exponent in Vx. unfold val in H.
    destruct e as [|p|p].
    + eexists. split; [reflexivity|]. simpl in *. lia.
    + eexists. split; [reflexivity|]. split; [lia|].
      rewrite (Z.pow_add_r 2 (Zpos p) 1200) in H by lia. lia.
    + eexists. split; [reflexivity|].
      assert (Hp : 0 < 2 ^ Zpos p) by (apply Z.pow_pos_nonneg; lia).
      split; [apply Z.div_pos; lia|].
      assert (Hq : Zpos m / 2 ^ Zpos p * 2 ^ Zpos p <= Zpos m).
      { pose proof (Z.div_mod (Zpos m) (2 ^ Zpos p) ltac:(lia)).
        pose proof (Z.mod_pos_bound (Zpos m) (2 ^ Zpos p) Hp). lia. }
      replace 1200 with (Zpos p + (Zneg p + 1200)) by lia.
      rewrite (Z.pow_add_r 2 (Zpos p) (Zneg p + 1200)) by lia.
      assert (0 < 2 ^ (Zneg p + 1200)) by (apply Z.pow_pos_nonneg; lia).
      nia.
Qed.

End ValueArithmetic.

(* ===================================================================== *)
(** ** Values of binary64 numbers, and products of a random number *)
(* ===================================================================== *)

Section Representable.

Local Open Scope Z_scope.

Lemma plain_representable (C : float) :
  plain C = true -> representable (value_of C).
Proof. intros H. exists C. auto. Qed.

Lemma dig_shift (n : positive) (k : Z) :
  0 <= k -> exists m : positive, Zpos m = Zpos n * 2 ^ k /\ dig m = dig n + k.
Proof.
  intros Hk. destruct k as [|d|d]; [| |lia].
  - exists n. split; [simpl; lia|lia].
  - exists (Pos.iter xO n d). split; [apply iter_xO|apply dig_iter_xO].
Qed.

(** Every multiple [n * 2^j] of a power of two with [n] below 2^53 is the
    value of a binary64 number. *)
Lemma representable_scaled (n j : Z) :
  1 <= n < 2 ^ 53 -> 200 <= j <= 2100 -> representable (n * 2 ^ j).
Proof.
  intros Hn Hj. destruct n as [|p|p]; try lia.
  pose proof (dig_bounds p) as [B1 B2]. pose proof (dig_pos p) as Hd.
  assert (Hd53 : dig p <= 53).
  { assert (dig p - 1 < 53) by (apply pow2_lt_inv; lia). lia. }
  destruct (dig_shift p (53 - dig p) ltac:(lia)) as (m & Em & Dm).
  set (e := dig p - 53 + (j - 1200)).
  assert (Hv : valid_binary (S754_finite false m e) = true).
  { unfold SpecFloat.valid_binary, bounded, canonical_mantissa.
    change (Zpos (digits2_pos m)) with (dig m). rewrite fexp_eq.
    apply andb_true_intro. split; [apply Z.eqb_eq|apply Z.leb_le];
      unfold prec, emax, e; lia. }
  exists (SF2Prim (S754_finite false m e)).
  unfold plain, value_of. rewrite (Prim2SF_SF2Prim _ Hv). split.
  - apply andb_true_intro. split; [apply andb_true_intro; split|].
    + apply Z.eqb_eq. lia.
    + apply Z.leb_le. unfold e. lia.
    + apply Z.leb_le. unfold e. lia.
  - unfold val. rewrite Em, <- Z.mul_assoc.
    rewrite <- (Z.pow_add_r 2 (53 - dig p) (e + 1200)) by (unfold e; lia).
    do 2 f_equal. unfold e. lia.
Qed.

Lemma at_least_ltb (C x : float) (v : Z) :
  plain C = true -> at_least v x -> value_of C < v -> (C <? x)%float = true.
Proof.
  intros HC H Hlt. rewrite ltb_spec. unfold at_least in H.
  pose proof (Prim2SF_valid x) as Vx.
  plain_cases C HC.
  - destruct (Prim2SF x) as [s|[|]| |[|] m e]; simpl in H; try contradiction;
      try reflexivity. lia.
  - pose proof (val_pos mC eC ltac:(lia)).
    destruct (Prim2SF x) as [s|[|]| |[|] m e]; simpl in H; try contradiction;
      try reflexivity; [lia|].
    apply valid_canon in Vx. destruct Vx as (D & E & N).
    assert (Hlex : eC < e \/ (eC = e /\ Zpos mC <= Zpos m)).
    { apply val_lex_canon; try assumption; try lia. unfold canon. lia. }
    unfold SFltb, SFcompare. destruct Hlex as [Hl|[-> Hl]].
    + rewrite (proj2 (Z.compare_lt_iff eC e) Hl). reflexivity.
    + rewrite Z.compare_refl.
      change (PosDef.Pos.compare_cont Eq mC m) with (Pos.compare mC m).
      destruct (Pos.compare_spec mC m); try reflexivity; [subst; lia|lia].
Qed.

Lemma at_least_refl (C : float) : plain C = true -> at_least (value_of C) C.
Proof.
  intros HC. unfold at_least. plain_cases C HC; simpl; lia.
Qed.

Lemma at_most_refl (C : float) : plain C = true -> at_most (value_of C) C.
Proof.
  intros HC. unfold at_most. plain_cases C HC; simpl; lia.
Qed.

Lemma at_most_at_least_0 (v : Z) (x : float) : at_most v x -> at_least 0 x.
Proof.
  unfold at_most, at_least. pose proof (Prim2SF_valid x) as Vx.
  destruct (Prim2SF x) as [s|[|]| |[|] m e]; simpl; try contradiction; try lia.
  intros _. apply valid_exponent in Vx. pose proof (val_pos m e ltac:(lia)). lia.
Qed.

(** *** Products of a random number *)

Section Draws.

Variable r : float.
Hypothesis r_nonneg : (0 <=? r)%float = true.
Hypothesis r_below_1 : (r <? 1)%float = true.

Ltac draw_times K C :=
  eapply (mul_at_most _ r K C);
  [ exact (unit_at_most r r_nonneg r_below_1)
  | vm_compute; reflexivity
  | apply Z.leb_le; vm_compute; reflexivity
  | lia
  | reflexivity
  | apply Z.leb_le; vm_compute; reflexivity ].

Lemma draw_times_2 : at_most (value_of 0x1.fffffffffffffp+0) (r * 2).
Proof. draw_times 2%float 0x1.fffffffffffffp+0%float. Qed.

Lemma draw_times_16 : at_most (value_of 0x1.fffffffffffffp+3) (r * 16).
Proof. draw_times 16%float 0x1.fffffffffffffp+3%float. Qed.

Lemma draw_times_15 : at_most (value_of 15) (r * 15).
Proof. draw_times 15%float 15%float. Qed.

Lemma draw_times_0_15 : at_most (value_of 0.15) (r * 0.15).
Proof. draw_times 0.15%float 0.15%float. Qed.

Lemma draw_times_0_02 : at_most (value_of 0.02) (r * 0.02).
Proof. draw_times 0.02%float 0.02%float. Qed.

End Draws.

End Representable.

(* ===================================================================== *)
(** ** Strings of bits and of hexadecimal digits *)
(* ===================================================================== *)

Section Keys.

Variable Math_random : nat -> Number.
Variable Number_toString : Number -> string.
Variable Number_toString_16 : Number -> string.
Hypothesis host : random_in_unit_interval Math_random.

Lemma append_nil_r (s : string) : s ++ "" = s.
Proof. induction s as [|c s IH]; simpl; [reflexivity|now rewrite IH]. Qed.

Lemma concat_cons (x : string) (l : list string) :
  String.concat "" (x :: l) = x ++ String.concat "" l.
Proof. destruct l; simpl; [now rewrite append_nil_r|reflexivity]. Qed.

Lemma length_append (s1 s2 : string) :
  String.length (s1 ++ s2) = (String.length s1 + String.length s2)%nat.
Proof. induction s1 as [|c s IH]; simpl; [reflexivity|now rewrite IH]. Qed.

Lemma all_chars_append (p : ascii -> bool) (s1 s2 : string) :
  all_chars p (s1 ++ s2) = all_chars p s1 && all_chars p s2.
Proof.
  induction s1 as [|c s IH]; simpl; [reflexivity|].
  rewrite IH. apply andb_assoc.
Qed.

(** A string put together from one character of a kind for every element
    of a list has as many characters as the list has elements, all of that
    kind. *)
Lemma concat_of_characters {A} (p : ascii -> bool) (f : A -> string) (l : list A) :
  (forall x, String.length (f x) = 1%nat /\ all_chars p (f x) = true) ->
  String.length (String.concat "" (map f l)) = List.length l /\
  all_chars p (String.concat "" (map f l)) = true.
Proof.
  intros Hf. induction l as [|x l [IH1 IH2]]; [split; reflexivity|].
  cbn [map]. rewrite concat_cons, length_append, all_chars_append.
  destruct (Hf x) as [H1 H2]. rewrite H1, H2, IH1, IH2. split; reflexivity.
Qed.

Lemma floor_below (x C : float) (k : Z) :
  at_most (value_of C) x -> (value_of C <? k * 2 ^ 1200)%Z = true ->
  exists n : Z, floorZ x = Some n /\ (0 <= n < k)%Z.
Proof.
  intros H Hk. apply Z.ltb_lt in Hk.
  destruct (floorZ_at_most _ x H) as (n & E & H0 & Hn).
  exists n. split; [exact E|]. split; [exact H0|].
  assert (0 < 2 ^ 1200)%Z by (apply Z.pow_pos_nonneg; lia).
  nia.
Qed.

(** Under the host's contract, [Math.floor(Math.random() * 2)] is 0 or 1. *)
Lemma floor_draw_2 (k : nat) :
  floorZ (Math_random k * 2)%float = Some 0%Z \/
  floorZ (Math_random k * 2)%float = Some 1%Z.
Proof.
  destruct (host k) as [H0 H1].
  destruct (floor_below _ _ 2 (draw_times_2 _ H0 H1)) as (n & E & Hn);
    [vm_compute; reflexivity|].
  rewrite E. assert (n = 0 \/ n = 1)%Z as [-> | ->] by lia; auto.
Qed.

Lemma floor_to_string_draw (k : nat) :
  floor_to_string Number_toString (Math_random k * 2)%float = "0" \/
  floor_to_string Number_toString (Math_random k * 2)%float = "1".
Proof.
  unfold floor_to_string. destruct (floor_draw_2 k) as [-> | ->]; auto.
Qed.

(** Under the host's contract, [Math.floor(Math.random() * 16)] is one of
    0 to 15. *)
Lemma floor_draw_16 (k : nat) :
  exists n : Z, floorZ (Math_random k * 16)%float = Some n /\ (0 <= n < 16)%Z.
Proof.
  destruct (host k) as [H0 H1].
  apply (floor_below _ _ 16 (draw_times_16 _ H0 H1)). vm_compute. reflexivity.
Qed.

Lemma floor_to_hex_draw (k : nat) :
  String.length (floor_to_hex Number_toString_16 (Math_random k * 16)%float) = 1%nat /\
  all_chars is_hex_digit
    (floor_to_hex Number_toString_16 (Math_random k * 16)%float) = true.
Proof.
  unfold floor_to_hex. destruct (floor_draw_16 k) as (n & -> & Hn).
  replace ((0 <=? n) && (n <? 16))%Z with true
    by (symmetry; apply andb_true_intro; split;
        [apply Z.leb_le|apply Z.ltb_lt]; lia).
  assert (Hc : In n [0; 1; 2; 3; 4; 5; 6; 7; 8; 9; 10; 11; 12; 13; 14; 15]%Z)
    by (simpl; lia).
  simpl in Hc.
  repeat (destruct Hc as [<-|Hc]; [split; reflexivity|]). contradiction.
Qed.

(** X9 -- Under the host's contract for [Math.random],
    [generateQuantumKey(length)] returns a string of exactly [length]
    characters, each of them "0" or "1", and draws [length] random numbers. *)
Theorem generateQuantumKey_bits :
  forall (length : nat) (a : App),
    let '(key, a') := generateQuantumKey Math_random Number_toString length a in
    String.length key = length /\
    all_chars is_bit key = true /\
    random_calls a' = (random_calls a + length)%nat.
Proof.
  intros length a. unfold generateQuantumKey.
  destruct (concat_of_characters is_bit
              (fun i => floor_to_string Number_toString
                          (Math_random (random_calls a + i) * 2)%float)
              (seq 0 length)) as [H1 H2].
  { intros i. destruct (floor_to_string_draw (random_calls a + i)) as [-> | ->];
      split; reflexivity. }
  rewrite List.length_seq in H1. repeat split; assumption.
Qed.

(** X10 -- Under the host's contract for [Math.random],
    [generateRandomHex(length)] returns a string of exactly [length]
    characters, each of them one of 0-9 and a-f, whatever the host's number
    formatting is, and draws [length] random numbers. *)
Theorem generateRandomHex_digits :
  forall (length : nat) (a : App),
    let '(hex, a') :=
      generateRandomHex Math_random Number_toString_16 length a in
    String.length hex = length /\
    all_chars is_hex_digit hex = true /\
    random_calls a' = (random_calls a + length)%nat.
Proof.
  intros length a. unfold generateRandomHex.
  destruct (concat_of_characters is_hex_digit
              (fun i => floor_to_hex Number_toString_16
                          (Math_random (random_calls a + i) * 16)%float)
              (seq 0 length)) as [H1 H2].
  { intros i. apply floor_to_hex_draw. }
  rewrite List.length_seq in H1. repeat split; assumption.
Qed.

End Keys.

(* ===================================================================== *)
(** ** Samples, increments and steps of the score *)
(* ===================================================================== *)

Section ScoreSteps.

Local Open Scope Z_scope.

Lemma at_least_at_most_le (w v : Z) (x : float) :
  at_least w x -> at_most v x -> w <= v.
Proof.
  unfold at_least, at_most.
  destruct (Prim2SF x) as [s|[|]| |[|] m e]; simpl; try contradiction; lia.
Qed.

Lemma at_most_not_leb (C x : float) (v : Z) :
  plain C = true -> at_most v x -> v < value_of C -> (C <=? x)%float = false.
Proof.
  intros HC H Hlt. destruct (C <=? x)%float eqn:E; [exfalso|reflexivity].
  pose proof (at_least_at_most_le _ _ _ (leb_at_least C x HC E) H). lia.
Qed.

Lemma at_most_not_ltb (C x : float) (v : Z) :
  plain C = true -> at_most v x -> v <= value_of C -> (C <? x)%float = false.
Proof.
  intros HC H Hle. apply leb_not_ltb. apply at_most_leb; [exact HC|].
  apply (at_most_weaken v); assumption.
Qed.

Lemma at_least_not_nan (v : Z) (x : float) : at_least v x -> is_nan x = false.
Proof.
  unfold at_least, is_nan. rewrite eqb_spec. unfold SFeqb.
  destruct (Prim2SF x) as [s|[|]| |[|] m e]; simpl; try contradiction;
    try reflexivity.
  intros _. rewrite Z.compare_refl, Pos.compare_cont_refl. reflexivity.
Qed.

Lemma at_most_not_nan (v : Z) (x : float) : at_most v x -> is_nan x = false.
Proof.
  intros H. apply (leb_not_nan_r 0%float). apply (at_most_nonneg v). exact H.
Qed.

Section Samples.

Variable r : float.
Hypothesis r_nonneg : (0 <=? r)%float = true.
Hypothesis r_below_1 : (r <? 1)%float = true.

(** The sample drawn under attack lies between 0.15 and 0.3. *)
Lemma sample_under_attack :
  at_least (value_of 0.15) (0.15 + r * 0.15) /\
  at_most (value_of 0.3) (0.15 + r * 0.15).
Proof.
  pose proof (draw_times_0_15 r r_nonneg r_below_1) as H. split.
  - apply (add_at_least (value_of 0.15) 0).
    + apply at_least_refl. reflexivity.
    + apply (at_most_at_least_0 _ _ H).
    + apply Z.leb_le. vm_compute. reflexivity.
    + lia.
    + reflexivity.
    + lia.
  - apply (add_at_most (value_of 0.15) (value_of 0.15)).
    + apply at_most_refl. reflexivity.
    + exact H.
    + reflexivity.
    + apply Z.leb_le. vm_compute. reflexivity.
Qed.

(** The sample drawn otherwise lies between 0.02 and 0.04. *)
Lemma sample_normal :
  at_least (value_of 0.02) (0.02 + r * 0.02) /\
  at_most (value_of 0.04) (0.02 + r * 0.02).
Proof.
  pose proof (draw_times_0_02 r r_nonneg r_below_1) as H. split.
  - apply (add_at_least (value_of 0.02) 0).
    + apply at_least_refl. reflexivity.
    + apply (at_most_at_least_0 _ _ H).
    + apply Z.leb_le. vm_compute. reflexivity.
    + lia.
    + reflexivity.
    + lia.
  - apply (add_at_most (value_of 0.02) (value_of 0.02)).
    + apply at_most_refl. reflexivity.
    + exact H.
    + reflexivity.
    + apply Z.leb_le. vm_compute. reflexivity.
Qed.

Lemma sample_under_attack_elevated : (0.11 <? 0.15 + r * 0.15)%float = true.
Proof.
  apply (at_least_ltb _ _ (value_of 0.15)); [reflexivity| |].
  - apply sample_under_attack.
  - apply Z.ltb_lt. vm_compute. reflexivity.
Qed.

Lemma sample_normal_not_elevated : (0.11 <? 0.02 + r * 0.02)%float = false.
Proof.
  apply (at_most_not_ltb _ _ (value_of 0.04)); [reflexivity| |].
  - apply sample_normal.
  - apply Z.leb_le. vm_compute. reflexivity.
Qed.

(** The increment of the key exchange lies between 5 and 20. *)
Lemma increment_bounds :
  at_least (value_of 5) (r * 15 + 5) /\ at_most (value_of 20) (r * 15 + 5).
Proof.
  pose proof (draw_times_15 r r_nonneg r_below_1) as H. split.
  - apply (add_at_least 0 (value_of 5)).
    + apply (at_most_at_least_0 _ _ H).
    + apply at_least_refl. reflexivity.
    + lia.
    + apply Z.leb_le. vm_compute. reflexivity.
    + reflexivity.
    + lia.
  - apply (add_at_most (value_of 15) (value_of 5)).
    + exact H.
    + apply at_most_refl. reflexivity.
    + reflexivity.
    + apply Z.leb_le. vm_compute. reflexivity.
Qed.

End Samples.

(** *** Steps of the score *)

Lemma value_3 : value_of 3.0 = 192 * 2 ^ 1194.
Proof. vm_compute. reflexivity. Qed.

Lemma raised_representable (k : nat) : representable (raised k).
Proof. unfold raised. apply representable_scaled; lia. Qed.

Lemma value_0_1_bounds : 51 * 2 ^ 1191 <= value_of 0.1 < 52 * 2 ^ 1191.
Proof. split; [apply Z.leb_le|apply Z.ltb_lt]; vm_compute; reflexivity. Qed.

Lemma lowered_representable (k : nat) : representable (lowered k).
Proof.
  unfold lowered. pose proof value_0_1_bounds as [B1 B2].
  assert (Hp : 0 < 2 ^ 1191) by (apply Z.pow_pos_nonneg; lia).
  destruct (Z.max_spec ((1536 - 51 * Z.of_nat k) * 2 ^ 1191) (value_of 0.1))
    as [[_ ->]|[Hge ->]].
  - apply plain_representable. reflexivity.
  - apply representable_scaled; [|lia]. split; [nia|lia].
Qed.

Lemma raise_step (k : nat) (s : float) :
  at_least (raised k) s ->
  at_least (raised (S k)) (Math_min [3.0; s + 0.3]%float) /\
  (3.0 <? Math_min [3.0; s + 0.3])%float = false.
Proof.
  intros H. split; [|apply Math_min_3_bound].
  destruct (raised_representable (S k)) as (C & HC & EC).
  assert (Hp : 0 < 2 ^ 1194) by (apply Z.pow_pos_nonneg; lia).
  assert (H03 : 19 * 2 ^ 1194 <= value_of 0.3)
    by (apply Z.leb_le; vm_compute; reflexivity).
  assert (Hy : at_least (raised (S k)) (s + 0.3)).
  { rewrite <- EC. apply (add_at_least (raised k) (value_of 0.3)).
    - exact H.
    - apply at_least_refl. reflexivity.
    - unfold raised. nia.
    - lia.
    - exact HC.
    - rewrite EC. unfold raised. rewrite Nat2Z.inj_succ. nia. }
  rewrite Math_min_3, (at_least_not_nan _ _ Hy).
  destruct (s + 0.3 <? 3.0)%float; [exact Hy|].
  apply (at_least_weaken (value_of 3.0)).
  - rewrite value_3. unfold raised. nia.
  - apply at_least_refl. reflexivity.
Qed.

Lemma lower_step (k : nat) (s : float) :
  score_in_range s = true -> at_most (lowered k) s ->
  score_in_range (Math_max [0.1; s - 0.1]%float) = true /\
  at_most (lowered (S k)) (Math_max [0.1; s - 0.1]%float).
Proof.
  intros Hr H. split; [apply decrease_in_range; exact Hr|].
  destruct (lowered_representable (S k)) as (C & HC & EC).
  pose proof value_0_1_bounds as [B1 B2].
  assert (Hp : 0 < 2 ^ 1191) by (apply Z.pow_pos_nonneg; lia).
  assert (Hlo : at_least (val m_0_1 (-56)) s).
  { unfold score_in_range in Hr. apply andb_prop in Hr. destruct Hr as [Hr _].
    apply (leb_at_least 0.1%float s eq_refl Hr). }
  assert (Hy : at_most (lowered (S k)) (s - 0.1)).
  { rewrite <- EC.
    apply (sub_at_most (lowered k) s 0.1%float C m_0_1 (-56)); try assumption.
    - reflexivity.
    - rewrite EC. change (val m_0_1 (-56)) with (value_of 0.1).
      unfold lowered. rewrite Nat2Z.inj_succ.
      replace ((1536 - 51 * Z.succ (Z.of_nat k)) * 2 ^ 1191)
        with ((1536 - 51 * Z.of_nat k) * 2 ^ 1191 - 51 * 2 ^ 1191) by ring.
      lia. }
  rewrite Math_max_01, (at_most_not_nan _ _ Hy).
  destruct (0.1 <? s - 0.1)%float; [exact Hy|].
  apply (at_most_weaken (value_of 0.1)).
  - unfold lowered. lia.
  - apply at_most_refl. reflexivity.
Qed.

End ScoreSteps.

(* ===================================================================== *)
(** ** Ticks of the monitoring interval *)
(* ===================================================================== *)

Section Ticks.

Variable Math_random : nat -> Number.
Variable toLocaleTimeString : nat -> string.
Variable Number_toString : Number -> string.
Hypothesis host : random_in_unit_interval Math_random.

Local Abbreviation tick :=
  (updateQBERChart Math_random toLocaleTimeString Number_toString).

Lemma tick_unfold a chart :
  qberChart (currentState a) = Some chart ->
  monitoringActive (currentState a) = true ->
  tick a =
  recordSample toLocaleTimeString Number_toString chart
    (if isUnderAttack (currentState a)
     then 0.15 + Math_random (random_calls a) * 0.15
     else 0.02 + Math_random (random_calls a) * 0.02)%float
    (bump_random 1 a).
Proof.
  intros Hc Hm. unfold updateQBERChart, random. rewrite Hc, Hm. reflexivity.
Qed.

Lemma tick_score a chart :
  qberChart (currentState a) = Some chart ->
  monitoringActive (currentState a) = true ->
  anomalyScore (currentState (tick a)) =
  if isUnderAttack (currentState a)
  then Math_min [3.0; anomalyScore (currentState a) + 0.3]%float
  else Math_max [0.1; anomalyScore (currentState a) - 0.1]%float.
Proof.
  intros Hc Hm. rewrite (tick_unfold a chart Hc Hm), recordSample_score.
  destruct (host (random_calls a)) as [H0 H1].
  destruct (isUnderAttack (currentState a)).
  - rewrite (sample_under_attack_elevated _ H0 H1). reflexivity.
  - rewrite (sample_normal_not_elevated _ H0 H1). reflexivity.
Qed.

Lemma tick_log_attack a chart children :
  qberChart (currentState a) = Some chart ->
  monitoringActive (currentState a) = true ->
  isUnderAttack (currentState a) = true ->
  security_alerts (document a) = Some children ->
  recentAlerts (tick a) =
  firstn 5
    ({| className := "alert alert-warning";
        alert_time := toLocaleTimeString (clock_reads a);
        alert_message :=
          "Elevated QBER detected: " ++
          toFixed Number_toString
            (0.15 + Math_random (random_calls a) * 0.15)%float 3 |}
     :: children).
Proof.
  intros Hc Hm Ha Hs. rewrite (tick_unfold a chart Hc Hm), Ha.
  unfold recordSample.
  destruct (host (random_calls a)) as [H0 H1].
  rewrite (sample_under_attack_elevated _ H0 H1).
  change (recentAlerts (updateAIDisplay ?n ?x)) with (recentAlerts x).
  erewrite addSecurityAlert_log by (cbn; exact Hs). reflexivity.
Qed.

Lemma tick_log_normal a chart :
  qberChart (currentState a) = Some chart ->
  monitoringActive (currentState a) = true ->
  isUnderAttack (currentState a) = false ->
  security_alerts (document (tick a)) = security_alerts (document a).
Proof.
  intros Hc Hm Ha. rewrite (tick_unfold a chart Hc Hm), Ha.
  unfold recordSample.
  destruct (host (random_calls a)) as [H0 H1].
  rewrite (sample_normal_not_elevated _ H0 H1). reflexivity.
Qed.

(** What a tick keeps: the chart stays, monitoring stays on, the attack flag
    and the tables are left alone, and the advice on the page is the one for
    the new score. *)
Lemma tick_keeps a chart :
  qberChart (currentState a) = Some chart ->
  monitoringActive (currentState a) = true ->
  (exists chart', qberChart (currentState (tick a)) = Some chart') /\
  monitoringActive (currentState (tick a)) = true /\
  isUnderAttack (currentState (tick a)) = isUnderAttack (currentState a) /\
  data (tick a) = data a /\
  ai_recommendation (document (tick a)) =
    recommendationFor (data a) (anomalyScore (currentState (tick a))).
Proof.
  intros Hc Hm. rewrite (tick_unfold a chart Hc Hm).
  set (v := if isUnderAttack (currentState a) then _ else _).
  pose proof (recordSample_ai_panel toLocaleTimeString Number_toString chart v
                (bump_random 1 a)) as (_ & _ & Hp).
  rewrite Hp. rewrite recordSample_state.
  assert (Hd : data (recordSample toLocaleTimeString Number_toString chart v
                       (bump_random 1 a)) = data a).
  { unfold recordSample.
    change (data (updateAIDisplay ?n ?x)) with (data x).
    destruct (0.11 <? v)%float; [rewrite addSecurityAlert_data|]; reflexivity. }
  rewrite Hd. cbn [qberChart monitoringActive isUnderAttack set_anomalyScore
                   set_qberChart currentState bump_random].
  repeat split; try assumption. eexists. reflexivity.
Qed.

(** X12 -- Under the host's contract for [Math.random], the branch that a
    monitoring tick takes is decided by the attack flag alone.  Under attack
    the data point drawn lies between 0.15 and 0.3, above the threshold: the
    score becomes [Math.min(3.0, score + 0.3)] and a warning with the data
    point to three decimals goes first in the log.  Otherwise the data point
    lies between 0.02 and 0.04: the score becomes
    [Math.max(0.1, score - 0.1)] and the log is left as it was. *)
Theorem tick_follows_attack_flag :
  forall (a : App) (chart : Chart),
    qberChart (currentState a) = Some chart ->
    monitoringActive (currentState a) = true ->
    let r := Math_random (random_calls a) in
    let a' := tick a in
    if isUnderAttack (currentState a) then
      (0.15 <=? 0.15 + r * 0.15)%float = true /\
      (0.15 + r * 0.15 <=? 0.3)%float = true /\
      anomalyScore (currentState a') =
        Math_min [3.0; anomalyScore (currentState a) + 0.3]%float /\
      (forall children : list AlertElement,
         security_alerts (document a) = Some children ->
         recentAlerts a' =
           firstn 5
             ({| className := "alert alert-warning";
                 alert_time := toLocaleTimeString (clock_reads a);
                 alert_message :=
                   "Elevated QBER detected: " ++
                   toFixed Number_toString (0.15 + r * 0.15)%float 3 |}
              :: children))
    else
      (0.02 <=? 0.02 + r * 0.02)%float = true /\
      (0.02 + r * 0.02 <=? 0.04)%float = true /\
      anomalyScore (currentState a') =
        Math_max [0.1; anomalyScore (currentState a) - 0.1]%float /\
      security_alerts (document a') = security_alerts (document a).
Proof.
  intros a chart Hc Hm r a'.
  destruct (host (random_calls a)) as [H0 H1]. fold r in H0, H1.
  destruct (isUnderAttack (currentState a)) eqn:Ha.
  - destruct (sample_under_attack r H0 H1) as [Hlo Hhi].
    split; [apply at_least_leb; [reflexivity|exact Hlo]|].
    split; [apply at_most_leb; [reflexivity|exact Hhi]|].
    unfold a'. split; [rewrite (tick_score a chart Hc Hm), Ha; reflexivity|].
    intros children Hs. apply (tick_log_attack a chart children Hc Hm Ha Hs).
  - destruct (sample_normal r H0 H1) as [Hlo Hhi].
    split; [apply at_least_leb; [reflexivity|exact Hlo]|].
    split; [apply at_most_leb; [reflexivity|exact Hhi]|].
    unfold a'. split; [rewrite (tick_score a chart Hc Hm), Ha; reflexivity|].
    apply (tick_log_normal a chart Hc Hm Ha).
Qed.

Lemma iter_tick_keeps (k : nat) a chart :
  qberChart (currentState a) = Some chart ->
  monitoringActive (currentState a) = true ->
  (exists chart', qberChart (currentState (Nat.iter k tick a)) = Some chart') /\
  monitoringActive (currentState (Nat.iter k tick a)) = true /\
  isUnderAttack (currentState (Nat.iter k tick a)) =
    isUnderAttack (currentState a) /\
  data (Nat.iter k tick a) = data a.
Proof.
  intros Hc Hm. induction k as [|k (Hc' & Hm' & Ha' & Hd')].
  - simpl. repeat split; try assumption. eexists; exact Hc.
  - destruct Hc' as [chart' Hc']. rewrite Nat.iter_succ.
    destruct (tick_keeps _ chart' Hc' Hm') as (H1 & H2 & H3 & H4 & _).
    rewrite H3, H4. repeat split; assumption.
Qed.

Lemma iter_tick_advice (k : nat) a chart :
  qberChart (currentState a) = Some chart ->
  monitoringActive (currentState a) = true ->
  ai_recommendation (document (Nat.iter (S k) tick a)) =
    recommendationFor (data a)
      (anomalyScore (currentState (Nat.iter (S k) tick a))).
Proof.
  intros Hc Hm.
  destruct (iter_tick_keeps k a chart Hc Hm) as ([chart' Hc'] & Hm' & _ & Hd').
  rewrite Nat.iter_succ.
  destruct (tick_keeps _ chart' Hc' Hm') as (_ & _ & _ & _ & H).
  rewrite H, Hd'. reflexivity.
Qed.

(** X13 -- Under the host's contract, on a page under attack with
    monitoring running on a chart and a score of at least 0.1, ten ticks
    take the score to exactly 3.0, where every further tick leaves it, and
    the advice on the page is then the one for 3.0. *)
Theorem score_saturates_under_attack :
  forall (k : nat) (a : App) (chart : Chart),
    qberChart (currentState a) = Some chart ->
    monitoringActive (currentState a) = true ->
    isUnderAttack (currentState a) = true ->
    (0.1 <=? anomalyScore (currentState a))%float = true ->
    (10 <= k)%nat ->
    let a' := Nat.iter k tick a in
    anomalyScore (currentState a') = 3.0%float /\
    ai_recommendation (document a') = recommendationFor (data a) 3.0%float.
Proof.
  intros k a chart Hc Hm Ha Hs Hk a'.
  assert (Hinv : forall j,
            at_least (raised j) (anomalyScore (currentState (Nat.iter j tick a))) /\
            (1 <= j ->
             (3.0 <? anomalyScore (currentState (Nat.iter j tick a)))%float
             = false)%nat).
  { induction j as [|j [IH _]].
    - split; [|lia]. change (Nat.iter 0 tick a) with a.
      apply (at_least_weaken (value_of 0.1)).
      + apply Z.leb_le. vm_compute. reflexivity.
      + apply leb_at_least; [reflexivity|exact Hs].
    - destruct (iter_tick_keeps j a chart Hc Hm) as ([chart' Hc'] & Hm' & Ha' & _).
      rewrite Ha in Ha'. rewrite Nat.iter_succ.
      rewrite (tick_score _ chart' Hc' Hm'), Ha'.
      destruct (raise_step j _ IH) as [H1 H2]. split; [exact H1|].
      intros _. exact H2. }
  assert (E : anomalyScore (currentState a') = 3.0%float).
  { destruct (Hinv k) as [H1 H2]. symmetry.
    apply (leb_antisym_finite_l 3.0%float _ false 6755399441055744 (-51));
      [reflexivity| |apply H2; lia].
    apply at_least_leb; [reflexivity|].
    apply (at_least_weaken (raised k)); [|exact H1].
    rewrite value_3. unfold raised.
    assert (0 < 2 ^ 1194)%Z by (apply Z.pow_pos_nonneg; lia). nia. }
  split; [exact E|].
  destruct k as [|k]; [lia|]. unfold a' in *.
  rewrite (iter_tick_advice k a chart Hc Hm), E. reflexivity.
Qed.

(** X14 -- Under the host's contract, on a page not under attack with
    monitoring running on a chart and a score between 0.1 and 3.0, thirty
    ticks take the score to exactly 0.1, where every further tick leaves it;
    the advice on the page is then the one for 0.1, and none of these ticks
    touches the alert log. *)
Theorem score_decays_when_calm :
  forall (k : nat) (a : App) (chart : Chart),
    qberChart (currentState a) = Some chart ->
    monitoringActive (currentState a) = true ->
    isUnderAttack (currentState a) = false ->
    score_in_range (anomalyScore (currentState a)) = true ->
    (30 <= k)%nat ->
    let a' := Nat.iter k tick a in
    anomalyScore (currentState a') = 0.1%float /\
    ai_recommendation (document a') = recommendationFor (data a) 0.1%float /\
    security_alerts (document a') = security_alerts (document a).
Proof.
  intros k a chart Hc Hm Ha Hs Hk a'.
  assert (Hinv : forall j,
            score_in_range (anomalyScore (currentState (Nat.iter j tick a)))
              = true /\
            at_most (lowered j) (anomalyScore (currentState (Nat.iter j tick a))) /\
            security_alerts (document (Nat.iter j tick a)) =
              security_alerts (document a)).
  { induction j as [|j (IH1 & IH2 & IH3)].
    - change (Nat.iter 0 tick a) with a. split; [exact Hs|]. split; [|reflexivity].
      unfold score_in_range in Hs. apply andb_prop in Hs. destruct Hs as [Hlo Hhi].
      apply (at_most_weaken (value_of 3.0)).
      + unfold lowered. rewrite value_3. simpl Z.of_nat.
        apply Z.le_trans with (1536 * 2 ^ 1191)%Z; [|lia].
        apply Z.leb_le. vm_compute. reflexivity.
      + apply leb_at_most; [reflexivity| |exact Hhi].
        rewrite leb_spec in *. 
        change (Prim2SF 0.1) with (S754_finite false m_0_1 (-56)) in Hlo.
        change (Prim2SF 0) with (S754_zero false).
        destruct (Prim2SF (anomalyScore (currentState a))) as [s|[|]| |[|] m e];
          try discriminate Hlo; reflexivity.
    - destruct (iter_tick_keeps j a chart Hc Hm) as ([chart' Hc'] & Hm' & Ha' & _).
      rewrite Ha in Ha'. rewrite Nat.iter_succ.
      rewrite (tick_score _ chart' Hc' Hm'), Ha'.
      rewrite (tick_log_normal _ chart' Hc' Hm' Ha').
      destruct (lower_step j _ IH1 IH2) as [H1 H2].
      split; [exact H1|]. split; [exact H2|]. exact IH3. }
  destruct (Hinv k) as (H1 & H2 & H3).
  assert (E : anomalyScore (currentState a') = 0.1%float).
  { unfold score_in_range in H1. apply andb_prop in H1. destruct H1 as [Hlo _].
    symmetry.
    apply (leb_antisym_finite_l 0.1%float _ false 7205759403792794 (-56));
      [reflexivity|exact Hlo|].
    apply (at_most_not_ltb _ _ (lowered k)); [reflexivity|exact H2|].
    unfold lowered. pose proof value_0_1_bounds as [B1 B2].
    assert (0 < 2 ^ 1191)%Z by (apply Z.pow_pos_nonneg; lia). nia. }
  split; [exact E|]. split; [|exact H3].
  destruct k as [|k]; [lia|]. unfold a' in *.
  rewrite (iter_tick_advice k a chart Hc Hm), E. reflexivity.
Qed.

End Ticks.

(* ===================================================================== *)
(** ** Ticks of the key exchange *)
(* ===================================================================== *)

Section Exchange.

Variable Math_random : nat -> Number.
Variable toLocaleTimeString : nat -> string.
Variable Number_toString : Number -> string.
Hypothesis host : random_in_unit_interval Math_random.

Lemma find_timer_map id t' ts :
  find_timer id
    (map (fun '(i, t) => if Nat.eqb i id then (i, t') else (i, t)) ts) =
  option_map (fun _ : Timer => t') (find_timer id ts).
Proof.
  induction ts as [|[i t] ts IH]; simpl; [reflexivity|].
  destruct (Nat.eqb i id) eqn:E; simpl; rewrite E; [reflexivity|exact IH].
Qed.

(** The timers after a tick of the exchange: the interval is cleared when
    the new progress is at least 100, and keeps the new progress in its
    closure otherwise. *)
Lemma e91Callback_timers id progress generatedKey a :
  let progress' := (progress + (Math_random (random_calls a) * 15 + 5))%float in
  exists generatedKey' : string,
    timers (e91Callback Math_random Number_toString id progress generatedKey a) =
    if (100 <=? progress')%float
    then filter (fun '(i, _) => negb (Nat.eqb i id)) (timers a)
    else map (fun '(i, t) =>
                if Nat.eqb i id then (i, E91Timer progress' generatedKey')
                else (i, t)) (timers a).
Proof.
  intros progress'. unfold e91Callback, random. cbn [fst snd].
  change (random_calls (with_document ?f ?x)) with (random_calls x).
  change (random_calls (bump_random 1 a)) with (random_calls a + 1)%nat.
  fold progress'.
  exists (if (0.5 <? Math_random (random_calls a + 1))%float
          then generatedKey ++
               floor_to_string Number_toString
                 (Math_random (random_calls a + 1 + 1) * 2)%float
          else generatedKey).
  destruct (0.5 <? Math_random (random_calls a + 1))%float; cbn [fst snd];
    destruct (100 <=? progress')%float; reflexivity.
Qed.

Lemma value_5 : value_of 5 = (5 * 2 ^ 1200)%Z.
Proof. vm_compute. reflexivity. Qed.

Lemma value_20 : value_of 20 = (20 * 2 ^ 1200)%Z.
Proof. vm_compute. reflexivity. Qed.

Lemma value_100 : value_of 100 = (100 * 2 ^ 1200)%Z.
Proof. vm_compute. reflexivity. Qed.

(** One more increment on a progress between [5 * j] and [20 * j]. *)
Lemma progress_step (j : nat) (p r : float) :
  (0 <=? r)%float = true -> (r <? 1)%float = true -> (j < 20)%nat ->
  at_least (5 * Z.of_nat j * 2 ^ 1200) p ->
  at_most (20 * Z.of_nat j * 2 ^ 1200) p ->
  at_least (5 * Z.of_nat (S j) * 2 ^ 1200) (p + (r * 15 + 5)) /\
  at_most (20 * Z.of_nat (S j) * 2 ^ 1200) (p + (r * 15 + 5)).
Proof.
  intros H0 H1 Hj Hlo Hhi.
  destruct (increment_bounds r H0 H1) as [Ilo Ihi].
  assert (Hp : (0 < 2 ^ 1200)%Z) by (apply Z.pow_pos_nonneg; lia).
  rewrite value_5 in Ilo. rewrite value_20 in Ihi. split.
  - destruct (representable_scaled (5 * Z.of_nat (S j)) 1200) as (C & HC & EC);
      [lia|lia|].
    rewrite <- EC.
    apply (add_at_least (5 * Z.of_nat j * 2 ^ 1200) (5 * 2 ^ 1200));
      try assumption; try lia.
  - destruct (representable_scaled (20 * Z.of_nat (S j)) 1200) as (C & HC & EC);
      [lia|lia|].
    rewrite <- EC.
    apply (add_at_most (20 * Z.of_nat j * 2 ^ 1200) (20 * 2 ^ 1200));
      try assumption.
    rewrite EC, Nat2Z.inj_succ. lia.
Qed.

Lemma exchange_step a id j b :
  exchange_after a id j b ->
  exchange_after a id (S j)
    (state_of
       (handle Math_random toLocaleTimeString Number_toString (IntervalFires id) b)).
Proof.
  intros (Hd & He & H). rewrite handle_IntervalFires.
  destruct (find_timer id (timers b)) as [[|p key]|] eqn:Ef; [contradiction| |].
  - destruct H as (Hlo & Hhi & Hj). cbn [state_of].
    destruct (host (random_calls b)) as [H0 H1].
    destruct (progress_step j p _ H0 H1 Hj Hlo Hhi) as [Hlo' Hhi'].
    destruct (e91Callback_timers id p key b) as (key' & Et).
    unfold exchange_after.
    rewrite e91Callback_state, e91Callback_data, Et.
    split; [exact Hd|]. split; [exact He|].
    destruct (100 <=? p + (Math_random (random_calls b) * 15 + 5))%float eqn:E100.
    + rewrite find_timer_filter_same.
      split.
      { pose proof (at_least_at_most_le _ _ _
                      (leb_at_least 100%float _ eq_refl E100) Hhi') as Hle.
        rewrite value_100 in Hle.
        assert (Hp : (0 < 2 ^ 1200)%Z) by (apply Z.pow_pos_nonneg; lia). nia. }
      destruct (e91Callback_final_key Math_random Number_toString id p key b E100)
        as (k & Ek & _).
      rewrite Ek, <- Hd.
      destruct (concat_of_characters is_bit
                  (fun i => floor_to_string Number_toString
                              (Math_random (k + i) * 2)%float)
                  (seq 0 (shared_key_length (normal_operation (data b)))))
        as [L1 L2].
      { intros i.
        destruct (floor_to_string_draw Math_random Number_toString host (k + i))
          as [-> | ->]; split; reflexivity. }
      rewrite List.length_seq in L1. split; assumption.
    + rewrite find_timer_map, Ef. cbn [option_map].
      split; [exact Hlo'|]. split; [exact Hhi'|].
      destruct (Nat.lt_ge_cases (S j) 20) as [|Hge]; [assumption|exfalso].
      assert (Hc : (100 <=? p + (Math_random (random_calls b) * 15 + 5))%float
                   = true).
      { apply at_least_leb; [reflexivity|].
        apply (at_least_weaken (5 * Z.of_nat (S j) * 2 ^ 1200)); [|exact Hlo'].
        rewrite value_100.
        assert (Hp : (0 < 2 ^ 1200)%Z) by (apply Z.pow_pos_nonneg; lia). nia. }
      congruence.
  - destruct H as (Hj & Hk). cbn [state_of]. unfold exchange_after.
    rewrite Ef. repeat split; try assumption; try lia; apply Hk.
Qed.

Lemma run_ticks_exchange a id j b (k : nat) :
  exchange_after a id j b ->
  exchange_after a id (k + j)
    (run Math_random toLocaleTimeString Number_toString
       (repeat (IntervalFires id) k) b).
Proof.
  revert j b. induction k as [|k IH]; intros j b H; [exact H|].
  cbn [repeat]. rewrite run_cons.
  replace (S k + j)%nat with (k + S j)%nat by lia.
  apply IH. apply exchange_step. exact H.
Qed.

(** X11 -- Under the host's contract, a key exchange started on a page
    whose next handle is unused is still running after each of its first
    four ticks and is over after its twentieth: the interval is cleared, the
    key field holds exactly [normal_operation.shared_key_length] characters,
    each "0" or "1", and [e91Active] is still set, as nothing clears it when
    the exchange ends. *)
Theorem key_exchange_completes :
  forall a : App,
    find_timer (next_timer a) (timers a) = None ->
    let id := next_timer a in
    let after k :=
      run Math_random toLocaleTimeString Number_toString
        (ClickStartQKD :: repeat (IntervalFires id) k) a in
    (forall k : nat, (k <= 4)%nat ->
       exists progress generatedKey,
         find_timer id (timers (after k)) =
           Some (E91Timer progress generatedKey)) /\
    (forall k : nat, (20 <= k)%nat ->
       find_timer id (timers (after k)) = None /\
       String.length (quantum_key (document (after k))) =
         shared_key_length (normal_operation (data a)) /\
       all_chars is_bit (quantum_key (document (after k))) = true /\
       e91Active (currentState (after k)) = true).
Proof.
  intros a Hfresh id after.
  assert (H0 : exchange_after a id 0 (startE91Protocol a)).
  { unfold exchange_after, startE91Protocol, setInterval, id. cbn.
    split; [reflexivity|]. split; [reflexivity|].
    rewrite find_timer_app, Hfresh. cbn [find_timer].
    rewrite Nat.eqb_refl. split; [|split; [|lia]].
    - apply (at_least_refl 0%float). reflexivity.
    - apply (at_most_refl 0%float). reflexivity. }
  assert (H : forall k, exchange_after a id k (after k)).
  { intros k. unfold after. rewrite run_cons, handle_ClickStartQKD.
    cbn [state_of]. replace k with (k + 0)%nat at 1 by lia.
    apply run_ticks_exchange. exact H0. }
  split.
  - intros k Hk. destruct (H k) as (_ & _ & Hk').
    destruct (find_timer id (timers (after k))) as [[|p key]|];
      [contradiction| |lia].
    eexists. eexists. reflexivity.
  - intros k Hk. destruct (H k) as (_ & He & Hk').
    destruct (find_timer id (timers (after k))) as [[|p key]|];
      [contradiction|lia|].
    destruct Hk' as (_ & L1 & L2). repeat split; assumption.
Qed.

End Exchange.

(* ===================================================================== *)
(** ** New RSA keys *)
(* ===================================================================== *)

Section RSAKeys.

Variable Math_random : nat -> Number.
Hypothesis host : random_in_unit_interval Math_random.

Lemma draw_times_4 (r : float) :
  (0 <=? r)%float = true -> (r <? 1)%float = true ->
  at_most (value_of 0x1.fffffffffffffp+1) (r * 4).
Proof.
  intros r_nonneg r_below_1.
  eapply (mul_at_most _ r 4%float 0x1.fffffffffffffp+1%float);
  [ exact (unit_at_most r r_nonneg r_below_1)
  | vm_compute; reflexivity
  | apply Z.leb_le; vm_compute; reflexivity
  | lia
  | reflexivity
  | apply Z.leb_le; vm_compute; reflexivity ].
Qed.

(** X15 -- Under the host's contract for [Math.random], [generateRSAKeys()]
    never fails: the index it draws is always one of the four pairs of its
    table.  It installs that pair as both factor lists, their product as
    [n] and [n, 7] as the public key, and shows that key; the private key,
    the message and its encryption are left as they were, so they go stale
    when the modulus changes. *)
Theorem generateRSAKeys_installs_a_pair :
  forall p : RSAPage,
    exists (P Q : Z) (p' : RSAPage),
      In [P; Q] primes /\
      generateRSAKeys Math_random p = RSAReturned p' /\
      classical_factors (rsa_demo p') = Some [P; Q] /\
      quantum_factors (rsa_demo p') = Some [P; Q] /\
      n (rsa_demo p') = (P * Q)%Z /\
      public_key (rsa_demo p') = [(P * Q)%Z; 7%Z] /\
      private_key (rsa_demo p') = private_key (rsa_demo p) /\
      message (rsa_demo p') = message (rsa_demo p) /\
      encrypted (rsa_demo p') = encrypted (rsa_demo p) /\
      decrypted (rsa_demo p') = decrypted (rsa_demo p) /\
      rsa_public_key (rsa_panel p') =
        option_map (fun _ => "(" ++ Z_to_string (P * Q) ++ ", 7)")
          (rsa_public_key (rsa_panel p)).
Proof.
  intros p. unfold generateRSAKeys, random. cbn [fst snd].
  destruct (host (random_calls (page p))) as [H0 H1].
  destruct (floor_below _ _ 4 (draw_times_4 _ H0 H1)) as (i & E & Hi);
    [vm_compute; reflexivity|].
  unfold element_at_floor. rewrite E.
  replace (0 <=? i)%Z with true by (symmetry; apply Z.leb_le; lia).
  assert (Hc : (i = 0 \/ i = 1 \/ i = 2 \/ i = 3)%Z) by lia.
  destruct Hc as [-> | [-> | [-> | ->]]]; cbn;
    eexists; eexists; eexists;
    (split; [|split; [reflexivity|repeat split; reflexivity]]);
    simpl; auto.
Qed.

End RSAKeys.

(* ===================================================================== *)
(** ** Tab clicks and the chart *)
(* ===================================================================== *)

Section Tabs.

Variable Math_random : nat -> Number.
Hypothesis host : random_in_unit_interval Math_random.

Lemma draw_times_0_01 (r : float) :
  (0 <=? r)%float = true -> (r <? 1)%float = true ->
  at_most (value_of 0.01) (r * 0.01).
Proof.
  intros r_nonneg r_below_1.
  eapply (mul_at_most _ r 0.01%float 0.01%float);
  [ exact (unit_at_most r r_nonneg r_below_1)
  | vm_compute; reflexivity
  | apply Z.leb_le; vm_compute; reflexivity
  | lia
  | reflexivity
  | apply Z.leb_le; vm_compute; reflexivity ].
Qed.

(** A point of a fresh chart lies between 0.02 and 0.04. *)
Lemma fresh_point (k : nat) :
  (0.02 <=? 0.02 + Math_random k * 0.01)%float = true /\
  (0.02 + Math_random k * 0.01 <=? 0.04)%float = true.
Proof.
  destruct (host k) as [H0 H1].
  pose proof (draw_times_0_01 _ H0 H1) as H. split.
  - apply at_least_leb; [reflexivity|].
    apply (add_at_least (value_of 0.02) 0).
    + apply at_least_refl. reflexivity.
    + apply (at_most_at_least_0 _ _ H).
    + apply Z.leb_le. vm_compute. reflexivity.
    + lia.
    + reflexivity.
    + lia.
  - apply at_most_leb; [reflexivity|].
    apply (add_at_most (value_of 0.02) (value_of 0.01)).
    + apply at_most_refl. reflexivity.
    + exact H.
    + reflexivity.
    + apply Z.leb_le. vm_compute. reflexivity.
Qed.

(** X16 -- A click on a tab button creates the chart at most once.  With a
    chart on the page, or for a tab other than "ai-security", the click only
    records the tab: the chart with its recorded points is kept and no random
    number is drawn.  The first click on "ai-security" on a page with the
    canvas creates a chart labelled 1 to 20 with twenty threshold values 0.11
    and, under the host's contract for [Math.random], twenty data points
    between 0.02 and 0.04, from twenty draws. *)
Theorem clickTab_creates_chart_once :
  forall (targetTab : string) (a : App),
    let a' := clickTab Math_random targetTab a in
    currentTab (currentState a') = targetTab /\
    (qberChart (currentState a) <> None \/ targetTab <> "ai-security" ->
     a' = with_state (set_currentTab targetTab) a) /\
    (qberChart (currentState a) = None -> targetTab = "ai-security" ->
     qber_chart_canvas (document a) = true ->
     exists chart : Chart,
       qberChart (currentState a') = Some chart /\
       labels chart =
         [1; 2; 3; 4; 5; 6; 7; 8; 9; 10;
          11; 12; 13; 14; 15; 16; 17; 18; 19; 20]%Z /\
       threshold_data chart = repeat 0.11%float 20 /\
       List.length (dataset_data chart) = 20%nat /\
       Forall (fun x => (0.02 <=? x)%float = true /\ (x <=? 0.04)%float = true)
         (dataset_data chart) /\
       random_calls a' = (random_calls a + 20)%nat).
Proof.
  intros targetTab a a'. unfold a', clickTab.
  cbn [currentState with_state qberChart set_currentTab].
  split; [|split].
  - destruct (String.eqb targetTab "ai-security" && _); [|reflexivity].
    unfold initializeQBERChart.
    destruct (negb (qber_chart_canvas (document (with_state (set_currentTab targetTab) a))));
      reflexivity.
  - intros [Hc|Ht].
    + destruct (qberChart (currentState a)); [|contradiction].
      rewrite andb_false_r. reflexivity.
    + destruct (String.eqb_spec targetTab "ai-security"); [contradiction|].
      reflexivity.
  - intros Hc -> Hcanvas. rewrite Hc.
    change (String.eqb "ai-security" "ai-security" && true) with true.
    cbv iota. unfold initializeQBERChart.
    cbn [document with_state]. rewrite Hcanvas. cbn [negb].
    eexists. split; [reflexivity|]. cbn [labels threshold_data dataset_data].
    split; [reflexivity|]. split; [reflexivity|].
    split; [rewrite List.length_map, List.length_seq; reflexivity|].
    split; [|reflexivity].
    apply Forall_forall. intros x Hx. apply in_map_iff in Hx.
    destruct Hx as (i & <- & _). apply fresh_point.
Qed.

End Tabs.

(* ===================================================================== *)
(** ** The advice rises with the score *)
(* ===================================================================== *)

Ltac order_cases :=
  repeat match goal with
  | |- context [Z.compare ?a ?b] => destruct (Z.compare_spec a b)
  | |- context [PosDef.Pos.compare_cont Eq ?a ?b] =>
      change (PosDef.Pos.compare_cont Eq a b) with (Pos.compare a b);
      destruct (Pos.compare_spec a b)
  end.

Lemma SFltb_leb_trans (x y z : spec_float) :
  SFltb x y = true -> SFleb y z = true -> SFltb x z = true.
Proof.
  unfold SFleb, SFltb.
  destruct x as [sx|sx| |sx mx ex], y as [sy|sy| |sy my ey],
           z as [sz|sz| |sz mz ez]; simpl;
    try destruct sx; try destruct sy; try destruct sz; simpl;
    try discriminate; try reflexivity.
  all: order_cases; simpl; try discriminate; try reflexivity;
    intros; subst; try lia.
Qed.

Lemma ltb_leb_trans (x y z : float) :
  (x <? y)%float = true -> (y <=? z)%float = true -> (x <? z)%float = true.
Proof. rewrite !ltb_spec, leb_spec. apply SFltb_leb_trans. Qed.

(** X17 -- The advice never relaxes as the score rises: for two scores in
    the order of binary64 numbers, the index that [updateAIDisplay] computes
    for the smaller one is no larger than for the greater one. *)
Theorem recommendationIndex_monotone :
  forall s1 s2 : Number,
    (s1 <=? s2)%float = true ->
    (recommendationIndex s1 <= recommendationIndex s2)%nat.
Proof.
  intros s1 s2 H. unfold recommendationIndex.
  destruct (2.0 <? s1)%float eqn:E3.
  { rewrite (ltb_leb_trans _ _ _ E3 H). lia. }
  destruct (1.0 <? s1)%float eqn:E2.
  { rewrite (ltb_leb_trans _ _ _ E2 H). destruct (2.0 <? s2)%float; lia. }
  destruct (0.5 <? s1)%float eqn:E1.
  { rewrite (ltb_leb_trans _ _ _ E1 H).
    destruct (2.0 <? s2)%float; [lia|]. destruct (1.0 <? s2)%float; lia. }
  lia.
Qed.

(* ===================================================================== *)
(** ** The further properties at concrete pages *)
(* ===================================================================== *)

(** The page after the AI tab was opened: it has a chart and no interval. *)
Lemma chart_of_example_monitoring :
  exists c : Chart,
    qberChart (currentState example_monitoring) = Some c /\ chart_full c.
Proof. eexists. split; [reflexivity|]. vm_compute. repeat split. Defined.

(** X1, at one input: three ticks, a triggered anomaly and a reset after
    monitoring was started leave a chart of twenty points. *)
Lemma chart_keeps_twenty_points_example :
  chart_window_ok example_monitoring /\
  chart_window_ok
    (run example_random example_clock example_toString
       [IntervalFires 1; IntervalFires 1; ClickTriggerAnomaly;
        IntervalFires 1; ClickResetMonitoring] example_monitoring).
Proof.
  assert (H : chart_window_ok example_monitoring)
    by (vm_compute; repeat split).
  split; [exact H|].
  exact (chart_keeps_twenty_points example_random example_clock
           example_toString _ example_monitoring H).
Defined.

(** X2, at one input: with the host drawing 0.75, the first tick puts
    0.02 + 0.75 * 0.02 last on the chart, under the label 21. *)
Lemma updateQBERChart_slides_window_example :
  monitoringActive (currentState example_monitoring) = true /\
  option_map (fun c => (last (labels c) 0%Z, last (dataset_data c) 0%float))
    (qberChart
       (currentState
          (updateQBERChart example_random example_clock example_toString
             example_monitoring)))
  = Some (21%Z, (0.02 + 0.75 * 0.02)%float).
Proof.
  split; [reflexivity|].
  destruct chart_of_example_monitoring as (c & Hc & Hfull).
  rewrite (updateQBERChart_slides_window example_random example_clock
             example_toString c example_monitoring Hc eq_refl Hfull).
  cbn [option_map labels dataset_data]. rewrite !last_last. reflexivity.
Defined.

(** X3, at one input: after a triggered anomaly the panel shows the score
    2.5, and it still shows the current score after monitoring was started,
    two ticks and a reset. *)
Lemma ai_panel_stays_synced_example :
  let a := triggerAnomaly example_clock example_toString app_initial in
  security_alerts (document a) <> None /\
  ai_panel_synced example_toString a /\
  ai_panel_synced example_toString
    (run example_random example_clock example_toString
       [ClickTab "ai-security"; ClickStartMonitoring; IntervalFires 1;
        IntervalFires 1; ClickResetMonitoring] a).
Proof.
  intros a.
  assert (Hc : security_alerts (document a) <> None)
    by (vm_compute; discriminate).
  assert (Hs : ai_panel_synced example_toString a)
    by (vm_compute; repeat split).
  split; [exact Hc|]. split; [exact Hs|].
  exact (proj1 (ai_panel_stays_synced example_random example_clock
                  example_toString _ a Hc) Hs).
Defined.

(** X4, at one input: on a page without the container where the chart was
    created and monitoring started, the reset ends with a [TypeError] after
    it has cleared the interval and drawn a new chart from twenty draws, and
    the AI panel keeps the text it had. *)
Lemma resetMonitoring_without_container_example :
  let a :=
    with_document (set_security_alerts None) example_monitoring in
  security_alerts (document a) = None /\
  exists a' : App,
    resetMonitoring example_random example_toString a = Thrown TypeError a' /\
    timers a' = [] /\
    random_calls a' = (random_calls a + 20)%nat /\
    ai_panel (document a') = ai_panel (document a).
Proof.
  intros a. split; [reflexivity|].
  destruct (resetMonitoring_without_container example_random example_toString
              a eq_refl) as (a' & R & _ & _ & _ & Ht & Hq & Hp & _).
  exists a'. split; [exact R|]. split; [exact Ht|].
  split; [exact (proj2 Hq)|exact Hp].
Defined.

(** X5, at one input: after a simulated attack on the initial page, the
    complete reset returns and the E91 panel shows the normal profile. *)
Lemma resets_show_normal_profile_example :
  let a := simulateEavesdropping example_toString app_initial in
  qber_value_class (document a) = "qber-critical" /\
  exists a2 : App,
    resetCompleteDemo example_random example_toString a = Returned a2 /\
    e91_panel (document a2) =
      ["100"; "19"; "0.02"; "qber-normal"; "LOW"; "status status--success"].
Proof.
  intros a. split; [reflexivity|].
  assert (Hc : security_alerts (document a) <> None)
    by (vm_compute; discriminate).
  destruct (proj2 (resets_show_normal_profile example_random example_toString
                     a Hc)) as (a2 & R & H).
  exists a2. split; [exact R|]. rewrite H. reflexivity.
Defined.

(** X6, at one input: on the initial page the simulated attack leaves the
    log empty and the triggered anomaly puts its alert first. *)
Lemma triggerAnomaly_versus_simulateEavesdropping_example :
  security_alerts (document app_initial) = Some [] /\
  recentAlerts (simulateEavesdropping example_toString app_initial) = [] /\
  hd_error
    (recentAlerts (triggerAnomaly example_clock example_toString app_initial))
  = Some {| className := "alert alert-error";
            alert_time := "12:00:00";
            alert_message :=
              "CRITICAL: Anomaly detected - possible eavesdropping attempt!" |}.
Proof.
  split; [reflexivity|].
  destruct (triggerAnomaly_versus_simulateEavesdropping example_clock
              example_toString app_initial [] eq_refl)
    as (_ & Hs & Ht & _ & _).
  split; [exact Hs|exact Ht].
Defined.

(** X7, at one input: on the page with the AI tab open, two starts and a
    reset leave the interval of handle 1 scheduled. *)
Lemma second_start_leaks_first_interval_example :
  let a :=
    run example_random example_clock example_toString
      [ClickTab "ai-security"] app_initial in
  find_timer (next_timer a) (timers a) = None /\
  find_timer 1
    (timers
       (run example_random example_clock example_toString
          [ClickStartMonitoring; ClickStartMonitoring; ClickResetMonitoring]
          a))
  = Some MonitoringTimer.
Proof.
  intros a. split; [reflexivity|].
  assert (Hc : exists c, qberChart (currentState a) = Some c)
    by (eexists; reflexivity).
  destruct Hc as [c Hc].
  destruct (second_start_leaks_first_interval example_random example_clock
              example_toString a c Hc eq_refl) as (_ & H & _).
  exact H.
Defined.

(** The host of the examples keeps the contract of [Math.random]. *)
Lemma example_random_in_unit_interval : random_in_unit_interval example_random.
Proof. intros k. split; reflexivity. Qed.

(** X9, at one input: a key of 19 pieces on the initial page has 19
    characters, all of them bits. *)
Lemma generateQuantumKey_bits_example :
  let key :=
    fst (generateQuantumKey example_random example_toString 19 app_initial) in
  String.length key = 19%nat /\ all_chars is_bit key = true.
Proof.
  intros key.
  pose proof (generateQuantumKey_bits example_random example_toString
                example_random_in_unit_interval 19 app_initial) as H.
  unfold key.
  destruct (generateQuantumKey example_random example_toString 19 app_initial)
    as [k a'].
  destruct H as (H1 & H2 & _). split; assumption.
Defined.

(** X10, at one input: 32 hexadecimal digits for a ciphertext. *)
Lemma generateRandomHex_digits_example :
  let hex :=
    fst (generateRandomHex example_random example_toString 32 app_initial) in
  String.length hex = 32%nat /\ all_chars is_hex_digit hex = true.
Proof.
  intros hex.
  pose proof (generateRandomHex_digits example_random example_toString
                example_random_in_unit_interval 32 app_initial) as H.
  unfold hex.
  destruct (generateRandomHex example_random example_toString 32 app_initial)
    as [h a'].
  destruct H as (H1 & H2 & _). split; assumption.
Defined.

(** X11, at one input: on the initial page the exchange runs under the
    handle 1 and has put a key of 19 bits on the page after twenty ticks. *)
Lemma key_exchange_completes_example :
  let a' :=
    run example_random example_clock example_toString
      (ClickStartQKD :: repeat (IntervalFires 1) 20) app_initial in
  find_timer (next_timer app_initial) (timers app_initial) = None /\
  find_timer 1 (timers a') = None /\
  String.length (quantum_key (document a')) = 19%nat.
Proof.
  intros a'. split; [reflexivity|].
  destruct (proj2 (key_exchange_completes example_random example_clock
                     example_toString example_random_in_unit_interval
                     app_initial eq_refl) 20%nat (le_n 20))
    as (H1 & H2 & _).
  split; [exact H1|exact H2].
Defined.

(** X12, at one input: a tick on the monitored page, which is not under
    attack, lowers the score and leaves the log alone. *)
Lemma tick_follows_attack_flag_example :
  let a' :=
    updateQBERChart example_random example_clock example_toString
      example_monitoring in
  monitoringActive (currentState example_monitoring) = true /\
  anomalyScore (currentState a') = Math_max [0.1; 0.1 - 0.1]%float /\
  security_alerts (document a') = security_alerts (document example_monitoring).
Proof.
  intros a'. split; [reflexivity|].
  destruct chart_of_example_monitoring as (c & Hc & _).
  pose proof (tick_follows_attack_flag example_random example_clock
                example_toString example_random_in_unit_interval
                example_monitoring c Hc eq_refl) as H.
  cbv zeta in H.
  change (isUnderAttack (currentState example_monitoring)) with false in H.
  destruct H as (_ & _ & H1 & H2). split; [exact H1|exact H2].
Defined.

(** X13, at one input: ten ticks after a triggered anomaly on the monitored
    page the score is 3.0. *)
Lemma score_saturates_under_attack_example :
  let a := triggerAnomaly example_clock example_toString example_monitoring in
  isUnderAttack (currentState a) = true /\
  anomalyScore (currentState a) = 2.5%float /\
  anomalyScore
    (currentState
       (Nat.iter 10
          (updateQBERChart example_random example_clock example_toString) a))
  = 3.0%float.
Proof.
  intros a. split; [reflexivity|]. split; [reflexivity|].
  assert (Hc : exists c, qberChart (currentState a) = Some c)
    by (eexists; reflexivity).
  destruct Hc as [c Hc].
  exact (proj1 (score_saturates_under_attack example_random example_clock
                  example_toString example_random_in_unit_interval
                  10 a c Hc eq_refl eq_refl eq_refl (le_n 10))).
Defined.

(** X14, at one input: from the score 2.5 on a monitored page that is not
    under attack, thirty ticks bring the score back to 0.1. *)
Lemma score_decays_when_calm_example :
  let a :=
    with_state (set_isUnderAttack false)
      (triggerAnomaly example_clock example_toString example_monitoring) in
  anomalyScore (currentState a) = 2.5%float /\
  anomalyScore
    (currentState
       (Nat.iter 30
          (updateQBERChart example_random example_clock example_toString) a))
  = 0.1%float.
Proof.
  intros a. split; [reflexivity|].
  assert (Hc : exists c, qberChart (currentState a) = Some c)
    by (eexists; reflexivity).
  destruct Hc as [c Hc].
  exact (proj1 (score_decays_when_calm example_random example_clock
                  example_toString example_random_in_unit_interval
                  30 a c Hc eq_refl eq_refl eq_refl (le_n 30))).
Defined.

(** X15, at one input: new keys on the example page leave the private key
    at its built-in value. *)
Lemma generateRSAKeys_installs_a_pair_example :
  exists p' : RSAPage,
    generateRSAKeys example_random example_rsa_page = RSAReturned p' /\
    private_key (rsa_demo p') = [2263; 1543]%Z.
Proof.
  destruct (generateRSAKeys_installs_a_pair example_random
              example_random_in_unit_interval example_rsa_page)
    as (P & Q & p' & _ & R & _ & _ & _ & _ & K & _).
  exists p'. split; [exact R|exact K].
Defined.

(** X16, at one input: the first click on the AI tab of the initial page
    draws twenty numbers for a chart, and a second click draws none. *)
Lemma clickTab_creates_chart_once_example :
  let a1 := clickTab example_random "ai-security" app_initial in
  let a2 := clickTab example_random "ai-security" a1 in
  random_calls a1 = 20%nat /\ random_calls a2 = 20%nat /\
  qberChart (currentState a2) = qberChart (currentState a1).
Proof.
  intros a1 a2.
  destruct (clickTab_creates_chart_once example_random
              example_random_in_unit_interval "ai-security" app_initial)
    as (_ & _ & H).
  destruct (H eq_refl eq_refl eq_refl) as (c & Hc & _ & _ & _ & _ & Hr).
  fold a1 in Hc, Hr.
  destruct (clickTab_creates_chart_once example_random
              example_random_in_unit_interval "ai-security" a1)
    as (_ & Hkeep & _).
  assert (E : a2 = with_state (set_currentTab "ai-security") a1).
  { apply Hkeep. left. rewrite Hc. discriminate. }
  split; [exact Hr|]. rewrite E. split; [exact Hr|reflexivity].
Defined.

(** X17, at one input: the scores 0.8 and 2.5. *)
Lemma recommendationIndex_monotone_example :
  (0.8 <=? 2.5)%float = true /\
  (recommendationIndex 0.8%float <= recommendationIndex 2.5%float)%nat.
Proof.
  split; [reflexivity|].
  exact (recommendationIndex_monotone 0.8%float 2.5%float eq_refl).
Defined.
